(** * TrainPI / SkillSpring: route handlers and page logic

    A shallow embedding of the Next.js route handlers and of the
    client-side selection logic of the career pages, followed by the
    properties of the career-discovery / skill-suggestion / roadmap
    workflow.

    Conventions of the embedding:
    - a JavaScript string is a [string] (a sequence of bytes; the tables of
      the program are ASCII apart from a few icons, which are kept as their
      UTF-8 bytes);
    - a value produced by [JSON.parse] is a [JS.Value]; numbers are exact
      rationals (the handlers only test numbers for being zero);
    - [await new Promise(r => setTimeout(r, n))] delays and [console.*]
      calls have no effect on the returned response and are left out;
    - what a handler cannot decide by itself (the outcome of a [fetch], of a
      database insert, a fresh uuid) is an explicit argument of the handler. *)

From Stdlib Require Import String Ascii List ZArith QArith Lia Bool Sorted DecimalString.
Import ListNotations.
Open Scope string_scope.
Open Scope Z_scope.

Set Warnings "-register-all".

(* ================================================================== *)
(** * JavaScript values *)
(* ================================================================== *)

Module JS.

(** The result of [JSON.parse]. An object is the list of its own
    properties in insertion order. *)
Inductive Value : Type :=
| JNull
| JBool (b : bool)
| JNum (q : Q)
| JStr (s : string)
| JArr (items : list Value)
| JObj (props : list (string * Value)).

Definition num (z : Z) : Value := JNum (inject_Z z).

(** [ToBoolean]: [null], [false], [0] and the empty string are falsy, every
    array and object is truthy. *)
Definition truthy (v : Value) : bool :=
  match v with
  | JNull => false
  | JBool b => b
  | JNum q => negb (Qeq_bool q 0)
  | JStr s => negb (String.eqb s "")
  | JArr _ => true
  | JObj _ => true
  end.

(** [None] stands for [undefined], which is falsy. *)
Definition truthy_opt (o : option Value) : bool :=
  match o with
  | None => false
  | Some v => truthy v
  end.

Fixpoint lookup (k : string) (props : list (string * Value)) : option Value :=
  match props with
  | [] => None
  | (k', v) :: rest => if String.eqb k' k then Some v else lookup k rest
  end.

(** [v.k] on a value that is not [null], for a key [k] that no prototype
    defines: an own property of an object, [undefined] otherwise. *)
Definition getProp (v : Value) (k : string) : option Value :=
  match v with
  | JObj props => lookup k props
  | _ => None
  end.

(** [v.length] on a value that is not [null]. The length of a string is
    counted in bytes here; the handlers only compare a length with 0. *)
Definition getLength (v : Value) : option Value :=
  match v with
  | JArr items => Some (num (Z.of_nat (List.length items)))
  | JStr s => Some (num (Z.of_nat (String.length s)))
  | JObj props => lookup "length" props
  | _ => None
  end.

(** [x === 0]. *)
Definition strict_eq_zero (o : option Value) : bool :=
  match o with
  | Some (JNum q) => Qeq_bool q 0
  | _ => false
  end.

(** [ToString(v)] throws a TypeError. A parsed object is converted by
    [Object.prototype.toString] unless it has a [toString] property of its
    own, which is never callable: then [valueOf], own or inherited, gives
    no primitive either. An array joins its elements, each converted in
    turn, [null] as the empty string. *)
Fixpoint toString_throws (v : Value) : bool :=
  match v with
  | JObj props => existsb (fun kv => String.eqb (fst kv) "toString") props
  | JArr items => existsb toString_throws items
  | _ => false
  end.

(** A template literal whose substitutions are [values] ([undefined] as
    [None]): each is converted to a string. *)
Definition template_literal (values : list (option Value)) : bool :=
  existsb (fun o => match o with
                    | Some v => toString_throws v
                    | None => false
                    end) values.

(** [a || b] on strings that may be [null]. *)
Definition or_string (a : option string) (b : string) : string :=
  match a with
  | Some s => if String.eqb s "" then b else s
  | None => b
  end.

(** [Array.prototype.includes] on an array of strings. *)
Definition includes (l : list string) (x : string) : bool :=
  existsb (fun y => String.eqb y x) l.

(** A string is held as its bytes in UTF-8 (a lone surrogate, which only
    taking a string apart by code units gives, as the three bytes of its
    code point). *)
Definition utf8 (bytes : list Z) : string :=
  fold_right (fun b s => String (ascii_of_N (Z.to_N b)) s) EmptyString bytes.

Definition byte (c : ascii) : Z := Z.of_N (N_of_ascii c).

(** A continuation byte of UTF-8, [10xxxxxx]. *)
Definition is_continuation (c : ascii) : bool :=
  (128 <=? byte c) && (byte c <? 192).

Definition starts_with_continuation (s : string) : bool :=
  match s with
  | EmptyString => false
  | String d _ => is_continuation d
  end.

(** The code points of a string, each as a string: what iterating the
    string yields. A byte goes with the bytes after it when these continue
    a code point. *)
Fixpoint code_points (s : string) : list string :=
  match s with
  | EmptyString => []
  | String c rest =>
      match code_points rest with
      | g :: gs =>
          if starts_with_continuation rest then String c g :: gs
          else String c EmptyString :: g :: gs
      | [] => [String c EmptyString]
      end
  end.

(** The three bytes of a code point from U+0800 to U+FFFF. *)
Definition utf8_3 (u : Z) : string :=
  utf8 [224 + u / 4096; 128 + (u / 64) mod 64; 128 + u mod 64].

(** The UTF-16 code units of a code point: one, or the two surrogates of a
    code point above U+FFFF, which has four bytes. *)
Definition code_units_of (g : string) : list string :=
  match g with
  | String b0 (String b1 (String b2 (String b3 EmptyString))) =>
      let u := (byte b0 mod 8) * 262144 + (byte b1 mod 64) * 4096
               + (byte b2 mod 64) * 64 + byte b3 mod 64 - 65536 in
      [utf8_3 (55296 + u / 1024); utf8_3 (56320 + u mod 1024)]
  | _ => [g]
  end.

(** The code units of a string, each as a string: the indexed properties
    of the string. *)
Definition code_units (s : string) : list string :=
  flat_map code_units_of (code_points s).

(** The white space and the line terminators of ECMAScript, which
    [String.prototype.trim] strips. *)
Definition white_space : list string :=
  map utf8
    [ [9]; [10]; [11]; [12]; [13]; [32]       (* TAB, LF, VT, FF, CR, SPACE *)
    ; [194; 160]                              (* U+00A0 *)
    ; [225; 154; 128]                         (* U+1680 *)
    ; [226; 128; 128]; [226; 128; 129]; [226; 128; 130]; [226; 128; 131]
    ; [226; 128; 132]; [226; 128; 133]; [226; 128; 134]; [226; 128; 135]
    ; [226; 128; 136]; [226; 128; 137]; [226; 128; 138]  (* U+2000 .. U+200A *)
    ; [226; 128; 168]; [226; 128; 169]        (* U+2028, U+2029 *)
    ; [226; 128; 175]                         (* U+202F *)
    ; [226; 129; 159]                         (* U+205F *)
    ; [227; 128; 128]                         (* U+3000 *)
    ; [239; 187; 191] ].                      (* U+FEFF *)

(** [s] without its prefix [w], when it starts with [w]. *)
Fixpoint drop_prefix (w s : string) {struct w} : option string :=
  match w with
  | EmptyString => Some s
  | String c w' =>
      match s with
      | EmptyString => None
      | String d s' => if Ascii.eqb c d then drop_prefix w' s' else None
      end
  end.

(** [s] without the first of [ws] it starts with. *)
Fixpoint drop_first (ws : list string) (s : string) : option string :=
  match ws with
  | [] => None
  | w :: rest =>
      match drop_prefix w s with
      | Some r => Some r
      | None => drop_first rest s
      end
  end.

(** [s] without its leading characters of [ws]; one unit of fuel per
    character dropped. *)
Fixpoint strip_fuel (fuel : nat) (ws : list string) (s : string) : string :=
  match fuel with
  | O => s
  | S fuel' =>
      match drop_first ws s with
      | Some r => strip_fuel fuel' ws r
      | None => s
      end
  end.

Definition strip (ws : list string) (s : string) : string :=
  strip_fuel (String.length s) ws s.

Definition trimStart (s : string) : string := strip white_space s.

Fixpoint rev_append (s acc : string) : string :=
  match s with
  | EmptyString => acc
  | String c rest => rev_append rest (String c acc)
  end.

Definition reverse (s : string) : string := rev_append s EmptyString.

(** The trailing white space is the leading white space of the reversed
    string, each character with its bytes reversed. *)
Definition trimEnd (s : string) : string :=
  reverse (strip (map reverse white_space) (reverse s)).

Definition trim (s : string) : string := trimEnd (trimStart s).

End JS.

(* ================================================================== *)
(** * Requests and responses *)
(* ================================================================== *)

(** One entry of a multipart form: a text field or a file. *)
Inductive FormEntry : Type :=
| FormText (text : string)
| FormFile (name : string) (content : string).

(** What the handlers read of a request: the query string, the body as
    [req.json()] sees it ([None]: the promise rejects, the body is not
    JSON) and as [req.formData()] sees it ([None]: the promise rejects). *)
Record NextRequest : Type := mkRequest {
  searchParams : list (string * string);
  json_body : option JS.Value;
  form_body : option (list (string * FormEntry))
}.

(** [searchParams.get(name)]: the first value of that name, or [null]. *)
Fixpoint searchParams_get (params : list (string * string)) (name : string)
  : option string :=
  match params with
  | [] => None
  | (k, v) :: rest => if String.eqb k name then Some v else searchParams_get rest name
  end.

Record NextResponse (B : Type) : Type := mkResponse {
  status : Z;
  body : B
}.
Arguments mkResponse {B} _ _.
Arguments status {B} _.
Arguments body {B} _.

(** [NextResponse.json(b)] and [NextResponse.json(b, { status })]. *)
Definition NextResponse_json {B : Type} (b : B) : NextResponse B :=
  mkResponse 200 b.

Definition NextResponse_json_status {B : Type} (b : B) (s : Z) : NextResponse B :=
  mkResponse s b.

(* ================================================================== *)
(** * frontend/app/api/career/match/route.ts *)
(* ================================================================== *)

Module CareerMatchRoute.

Record Career : Type := mkCareer {
  id : string;
  title : string;
  icon : string;
  salaryRange : string;
  matchScore : Z;
  description : string
}.

Definition mockCareers : list Career :=
  [ mkCareer "1" "Software Engineer" "💻" "$80k - $150k" 95
      "Build and maintain software applications";
    mkCareer "2" "Data Scientist" "📊" "$90k - $160k" 88
      "Analyze data to drive business decisions";
    mkCareer "3" "UX Designer" "🎨" "$70k - $130k" 82
      "Design user-centered digital experiences";
    mkCareer "4" "Product Manager" "🚀" "$100k - $180k" 78
      "Guide product development and strategy";
    mkCareer "5" "DevOps Engineer" "⚙️" "$85k - $155k" 75
      "Streamline development and deployment processes" ].

Record Body : Type := mkBody { careers : list Career }.

Definition GET (request : NextRequest) : NextResponse Body :=
  let answers := searchParams_get (searchParams request) "answers" in
  NextResponse_json (mkBody mockCareers).

(** [a] may stand before [b] in a list sorted by non-increasing score. *)
Definition score_desc (a b : Career) : Prop := matchScore b <= matchScore a.

End CareerMatchRoute.

(* ================================================================== *)
(** * app/api/career/roadmap/route.ts *)
(* ================================================================== *)

Module CareerRoadmapRoute.

Record Lesson : Type := mkLesson {
  lesson_id : string;
  lesson_title : string;
  completed : bool;
  hours : Z
}.

Record Milestone : Type := mkMilestone {
  id : string;
  level : string;
  title : string;
  estimatedHours : Z;
  lessons : list Lesson
}.

Record Roadmap : Type := mkRoadmap {
  role : string;
  milestones : list Milestone
}.

Definition mockMilestones : list Milestone :=
  [ mkMilestone "1" "Foundational" "Programming Basics" 120
      [ mkLesson "1" "Variables and Data Types" true 8;
        mkLesson "2" "Control Structures" true 12;
        mkLesson "3" "Functions and Scope" false 10;
        mkLesson "4" "Object-Oriented Programming" false 15 ];
    mkMilestone "2" "Intermediate" "Web Development" 200
      [ mkLesson "5" "HTML & CSS Fundamentals" false 20;
        mkLesson "6" "JavaScript ES6+" false 25;
        mkLesson "7" "React Framework" false 30;
        mkLesson "8" "API Integration" false 18 ];
    mkMilestone "3" "Advanced" "System Design & Architecture" 150
      [ mkLesson "9" "Database Design" false 25;
        mkLesson "10" "Microservices Architecture" false 30;
        mkLesson "11" "Performance Optimization" false 20;
        mkLesson "12" "Security Best Practices" false 22 ] ].

Definition GET (request : NextRequest) : NextResponse Roadmap :=
  let role := searchParams_get (searchParams request) "role" in
  let mockRoadmap :=
    mkRoadmap (JS.or_string role "Software Engineer") mockMilestones in
  NextResponse_json mockRoadmap.

(** The three tiers of the data model, and the tier a milestone's [level]
    string names. *)
Inductive Tier : Type := foundational | intermediate | advanced.

Definition tier_of_level (l : string) : option Tier :=
  if String.eqb l "Foundational" then Some foundational
  else if String.eqb l "Intermediate" then Some intermediate
  else if String.eqb l "Advanced" then Some advanced
  else None.

(** The roles the program knows: the titles of the career taxonomy served
    by the match route. *)
Definition known_roles : list string :=
  map CareerMatchRoute.title CareerMatchRoute.mockCareers.

(** A response reports a failure when its status is 4xx or 5xx. *)
Definition is_failure {B : Type} (r : NextResponse B) : bool :=
  400 <=? status r.

(** Two requests: one for a role no table has, one without a role. *)
Definition unknown_role_request : NextRequest :=
  mkRequest [("role", "Underwater Basket Weaver")] None None.

Definition no_role_request : NextRequest := mkRequest [] None None.

End CareerRoadmapRoute.

(* ================================================================== *)
(** * app/career/page.tsx *)
(* ================================================================== *)

Module CareerPage.

(** The lucide-react icon components the tables refer to. *)
Inductive Icon : Type :=
| Code | Palette | BarChart3 | Users | Globe | Zap | Target | Heart
| Music | Camera | Wrench | Briefcase | TrendingUp | Brain.

Record Skill : Type := mkSkill {
  name : string;
  category : string;
  icon : Icon
}.

Definition skillSuggestions : list Skill :=
  [ mkSkill "JavaScript" "Technology" Code;
    mkSkill "Python" "Technology" Code;
    mkSkill "React" "Technology" Code;
    mkSkill "Node.js" "Technology" Code;
    mkSkill "SQL" "Technology" BarChart3;
    mkSkill "Machine Learning" "Technology" Zap;
    mkSkill "UI/UX Design" "Design" Palette;
    mkSkill "Graphic Design" "Design" Palette;
    mkSkill "Figma" "Design" Palette;
    mkSkill "Adobe Creative Suite" "Design" Palette;
    mkSkill "Data Analysis" "Analytics" BarChart3;
    mkSkill "Excel" "Analytics" BarChart3;
    mkSkill "Tableau" "Analytics" BarChart3;
    mkSkill "Google Analytics" "Analytics" BarChart3;
    mkSkill "Project Management" "Management" Target;
    mkSkill "Leadership" "Management" Users;
    mkSkill "Communication" "Management" Users;
    mkSkill "Digital Marketing" "Marketing" Globe;
    mkSkill "SEO" "Marketing" Globe;
    mkSkill "Content Writing" "Marketing" Globe ].

Record Interest : Type := mkInterest {
  interest_name : string;
  interest_icon : Icon
}.

Definition interestSuggestions : list Interest :=
  [ mkInterest "Technology" Code;
    mkInterest "Design" Palette;
    mkInterest "Business" Briefcase;
    mkInterest "Data Science" BarChart3;
    mkInterest "Artificial Intelligence" Brain;
    mkInterest "Marketing" Globe;
    mkInterest "Education" Users;
    mkInterest "Healthcare" Heart;
    mkInterest "Finance" TrendingUp;
    mkInterest "Creative Arts" Music;
    mkInterest "Photography" Camera;
    mkInterest "Engineering" Wrench ].

(** The component's [useState] cells. *)
Record State : Type := mkState {
  showAssessment : bool;
  currentStep : Z;
  answers : list (Z * string);
  showResults : bool;
  isLoading : bool;
  selectedSkills : list string;
  selectedInterests : list string;
  customSkill : string;
  customInterest : string;
  targetRole : string
}.

Definition initialState : State :=
  mkState false 0 [] false false [] [] "" "" "".

Definition setSelectedSkills (v : list string) (st : State) : State :=
  mkState (showAssessment st) (currentStep st) (answers st) (showResults st)
    (isLoading st) v (selectedInterests st) (customSkill st)
    (customInterest st) (targetRole st).

Definition setSelectedInterests (v : list string) (st : State) : State :=
  mkState (showAssessment st) (currentStep st) (answers st) (showResults st)
    (isLoading st) (selectedSkills st) v (customSkill st)
    (customInterest st) (targetRole st).

Definition setCustomSkill (v : string) (st : State) : State :=
  mkState (showAssessment st) (currentStep st) (answers st) (showResults st)
    (isLoading st) (selectedSkills st) (selectedInterests st) v
    (customInterest st) (targetRole st).

Definition setCustomInterest (v : string) (st : State) : State :=
  mkState (showAssessment st) (currentStep st) (answers st) (showResults st)
    (isLoading st) (selectedSkills st) (selectedInterests st) (customSkill st)
    v (targetRole st).

Definition setTargetRole (v : string) (st : State) : State :=
  mkState (showAssessment st) (currentStep st) (answers st) (showResults st)
    (isLoading st) (selectedSkills st) (selectedInterests st) (customSkill st)
    (customInterest st) v.

(** A non-empty string is truthy. *)
Definition nonempty (s : string) : bool := negb (String.eqb s "").

Definition addSkill (skill : string) (st : State) : State :=
  if negb (JS.includes (selectedSkills st) skill)
  then setSelectedSkills (selectedSkills st ++ [skill]) st
  else st.

Definition removeSkill (skill : string) (st : State) : State :=
  setSelectedSkills
    (filter (fun s => negb (String.eqb s skill)) (selectedSkills st)) st.

Definition addCustomSkill (st : State) : State :=
  if nonempty (JS.trim (customSkill st))
     && negb (JS.includes (selectedSkills st) (JS.trim (customSkill st)))
  then setCustomSkill ""
         (setSelectedSkills (selectedSkills st ++ [JS.trim (customSkill st)]) st)
  else st.

Definition addInterest (interest : string) (st : State) : State :=
  if negb (JS.includes (selectedInterests st) interest)
  then setSelectedInterests (selectedInterests st ++ [interest]) st
  else st.

Definition removeInterest (interest : string) (st : State) : State :=
  setSelectedInterests
    (filter (fun i => negb (String.eqb i interest)) (selectedInterests st)) st.

Definition addCustomInterest (st : State) : State :=
  if nonempty (JS.trim (customInterest st))
     && negb (JS.includes (selectedInterests st) (JS.trim (customInterest st)))
  then setCustomInterest ""
         (setSelectedInterests
            (selectedInterests st ++ [JS.trim (customInterest st)]) st)
  else st.

(** The handlers the roadmap tabs wire to the selection state. *)
Inductive Event : Type :=
| AddSkill (skill : string)
| RemoveSkill (skill : string)
| AddCustomSkill
| AddInterest (interest : string)
| RemoveInterest (interest : string)
| AddCustomInterest
| SetCustomSkill (value : string)
| SetCustomInterest (value : string)
| SetTargetRole (value : string).

Definition step (st : State) (ev : Event) : State :=
  match ev with
  | AddSkill skill => addSkill skill st
  | RemoveSkill skill => removeSkill skill st
  | AddCustomSkill => addCustomSkill st
  | AddInterest interest => addInterest interest st
  | RemoveInterest interest => removeInterest interest st
  | AddCustomInterest => addCustomInterest st
  | SetCustomSkill value => setCustomSkill value st
  | SetCustomInterest value => setCustomInterest value st
  | SetTargetRole value => setTargetRole value st
  end.

Definition run (st : State) (evs : list Event) : State := fold_left step evs st.

(** A [Record<string, Skill[]>]: the object's keys in insertion order,
    each with its array. *)
Definition Groups : Type := list (string * list Skill).

(** [acc[k]], [undefined] as [None]. *)
Fixpoint group_get (acc : Groups) (k : string) : option (list Skill) :=
  match acc with
  | [] => None
  | (k', v) :: rest => if String.eqb k' k then Some v else group_get rest k
  end.

(** [acc[k] = v]: an existing key keeps its place, a new one goes last. *)
Fixpoint group_set (acc : Groups) (k : string) (v : list Skill) : Groups :=
  match acc with
  | [] => [(k, v)]
  | (k', v') :: rest =>
      if String.eqb k' k then (k', v) :: rest else (k', v') :: group_set rest k v
  end.

(** One round of the reducer of [groupedSkills]: a category seen for the
    first time gets an empty array, then the skill is pushed. No category
    of the table is a property of [Object.prototype]. *)
Definition group_skill (acc : Groups) (skill : Skill) : Groups :=
  let acc1 :=
    match group_get acc (category skill) with
    | None => group_set acc (category skill) []
    | Some _ => acc
    end in
  match group_get acc1 (category skill) with
  | Some arr => group_set acc1 (category skill) (arr ++ [skill])
  | None => acc1
  end.

Definition groupedSkills : Groups := fold_left group_skill skillSuggestions [].

(** One round of the reducer of [getAvailableSkillSuggestions]. *)
Definition keep_available (selected : list string) (acc : Groups)
  (entry : string * list Skill) : Groups :=
  let '(category, skills) := entry in
  let availableSkills :=
    filter (fun skill => negb (JS.includes selected (name skill))) skills in
  if (0 <? List.length availableSkills)%nat
  then group_set acc category availableSkills
  else acc.

Definition getAvailableSkillSuggestions (st : State) : Groups :=
  fold_left (keep_available (selectedSkills st)) groupedSkills [].

Definition getAvailableInterestSuggestions (st : State) : list Interest :=
  filter (fun interest => negb (JS.includes (selectedInterests st) (interest_name interest)))
    interestSuggestions.

Definition popularRoles : list string :=
  [ "Software Engineer"; "Data Scientist"; "UX Designer"; "Product Manager";
    "Digital Marketer"; "DevOps Engineer" ].

Definition getAvailableRoleSuggestions (st : State) : list string :=
  filter (fun role => negb (String.eqb role (targetRole st))) popularRoles.

(** Every skill offered by a group table, group after group. *)
Definition offered (g : Groups) : list Skill := flat_map snd g.

(** Every skill of every group satisfies [P]. *)
Definition groups_all (P : Skill -> Prop) (g : Groups) : Prop :=
  Forall (fun entry => Forall P (snd entry)) g.

(** The invariant of the data model: neither selection lists a string
    twice. *)
Definition no_duplicates (st : State) : Prop :=
  NoDup (selectedSkills st) /\ NoDup (selectedInterests st).

End CareerPage.

(* ================================================================== *)
(** * frontend/app/career/roadmap-generator/page.tsx *)
(* ================================================================== *)

Module RoadmapGeneratorPage.

(** The component's [useState] cells. *)
Record State : Type := mkState {
  selectedSkills : list string;
  selectedInterests : list string;
  customSkill : string;
  customInterest : string;
  careerGoal : string;
  timeline : string;
  currentRole : string
}.

Definition initialState : State := mkState [] [] "" "" "" "" "".

Definition setSelectedSkills (v : list string) (st : State) : State :=
  mkState v (selectedInterests st) (customSkill st) (customInterest st)
    (careerGoal st) (timeline st) (currentRole st).

Definition setSelectedInterests (v : list string) (st : State) : State :=
  mkState (selectedSkills st) v (customSkill st) (customInterest st)
    (careerGoal st) (timeline st) (currentRole st).

Definition setCustomSkill (v : string) (st : State) : State :=
  mkState (selectedSkills st) (selectedInterests st) v (customInterest st)
    (careerGoal st) (timeline st) (currentRole st).

Definition setCustomInterest (v : string) (st : State) : State :=
  mkState (selectedSkills st) (selectedInterests st) (customSkill st) v
    (careerGoal st) (timeline st) (currentRole st).

Definition addSkill (skill : string) (st : State) : State :=
  if negb (JS.includes (selectedSkills st) skill)
  then setSelectedSkills (selectedSkills st ++ [skill]) st
  else st.

Definition removeSkill (skill : string) (st : State) : State :=
  setSelectedSkills
    (filter (fun s => negb (String.eqb s skill)) (selectedSkills st)) st.

Definition addCustomSkill (st : State) : State :=
  if CareerPage.nonempty (JS.trim (customSkill st))
     && negb (JS.includes (selectedSkills st) (JS.trim (customSkill st)))
  then setCustomSkill ""
         (setSelectedSkills (selectedSkills st ++ [JS.trim (customSkill st)]) st)
  else st.

Definition addInterest (interest : string) (st : State) : State :=
  if negb (JS.includes (selectedInterests st) interest)
  then setSelectedInterests (selectedInterests st ++ [interest]) st
  else st.

Definition removeInterest (interest : string) (st : State) : State :=
  setSelectedInterests
    (filter (fun i => negb (String.eqb i interest)) (selectedInterests st)) st.

Definition addCustomInterest (st : State) : State :=
  if CareerPage.nonempty (JS.trim (customInterest st))
     && negb (JS.includes (selectedInterests st) (JS.trim (customInterest st)))
  then setCustomInterest ""
         (setSelectedInterests
            (selectedInterests st ++ [JS.trim (customInterest st)]) st)
  else st.

Inductive Event : Type :=
| AddSkill (skill : string)
| RemoveSkill (skill : string)
| AddCustomSkill
| AddInterest (interest : string)
| RemoveInterest (interest : string)
| AddCustomInterest
| SetCustomSkill (value : string)
| SetCustomInterest (value : string).

Definition step (st : State) (ev : Event) : State :=
  match ev with
  | AddSkill skill => addSkill skill st
  | RemoveSkill skill => removeSkill skill st
  | AddCustomSkill => addCustomSkill st
  | AddInterest interest => addInterest interest st
  | RemoveInterest interest => removeInterest interest st
  | AddCustomInterest => addCustomInterest st
  | SetCustomSkill value => setCustomSkill value st
  | SetCustomInterest value => setCustomInterest value st
  end.

Definition run (st : State) (evs : list Event) : State := fold_left step evs st.

(** The invariant of the data model: neither selection lists a string
    twice. *)
Definition no_duplicates (st : State) : Prop :=
  NoDup (selectedSkills st) /\ NoDup (selectedInterests st).

End RoadmapGeneratorPage.

(* ================================================================== *)
(** * Exceptions and the network *)
(* ================================================================== *)

(** A computation that returns or throws. *)
Inductive Outcome (A : Type) : Type :=
| Return (a : A)
| Throw (error : string).
Arguments Return {A} _.
Arguments Throw {A} _.

Definition bind {A B : Type} (m : Outcome A) (k : A -> Outcome B) : Outcome B :=
  match m with
  | Return a => k a
  | Throw e => Throw e
  end.

Notation "x <- m ;; k" := (bind m (fun x => k))
  (at level 61, m at next level, right associativity).

(** [try { body } catch (error) { handler }]. *)
Definition try_catch {A : Type} (body : Outcome A) (handler : string -> A) : A :=
  match body with
  | Return a => a
  | Throw e => handler e
  end.

(** What [await fetch(url)] does: it rejects (the host cannot be reached),
    or it resolves to a response with its [ok] flag and what
    [response.json()] resolves to ([None]: it rejects). *)
Inductive FetchOutcome : Type :=
| FetchRejects
| FetchResponse (ok : bool) (json : option JS.Value).

Definition await_fetch (o : FetchOutcome) : Outcome (bool * option JS.Value) :=
  match o with
  | FetchRejects => Throw "TypeError: fetch failed"
  | FetchResponse ok json => Return (ok, json)
  end.

Definition await_json (json : option JS.Value) : Outcome JS.Value :=
  match json with
  | Some v => Return v
  | None => Throw "SyntaxError: Unexpected token"
  end.

(** [data.k] where [data] may be [null]: reading a property of [null]
    throws. *)
Definition read_prop (data : JS.Value) (k : string) : Outcome (option JS.Value) :=
  match data with
  | JS.JNull => Throw "TypeError: Cannot read properties of null"
  | _ => Return (JS.getProp data k)
  end.

(** [v || []]. *)
Definition or_empty_array (o : option JS.Value) : JS.Value :=
  match o with
  | Some v => if JS.truthy v then v else JS.JArr []
  | None => JS.JArr []
  end.

(* ================================================================== *)
(** * The skills route (GET, fetching /api/skills and /api/frameworks) *)
(* ================================================================== *)

Module SkillsRoute.

Record Body : Type := mkBody { skills : list JS.Value }.

Definition fallbackSkills : list JS.Value :=
  map JS.JStr
    [ "JavaScript"; "Python"; "React"; "Node.js"; "TypeScript"; "HTML"; "CSS";
      "Java"; "C++"; "SQL"; "MongoDB"; "PostgreSQL"; "AWS"; "Docker";
      "Kubernetes"; "Git"; "Linux"; "Machine Learning"; "Data Analysis";
      "UI/UX Design"; "Project Management"; "Agile"; "Scrum"; "DevOps" ].

(** The characters of a string, as [...s] yields them: its code
    points. *)
Definition characters (s : string) : list JS.Value :=
  map JS.JStr (JS.code_points s).

(** [...v] in an array literal: arrays and strings are iterable, the other
    values throw. *)
Definition spread (v : JS.Value) : Outcome (list JS.Value) :=
  match v with
  | JS.JArr items => Return items
  | JS.JStr s => Return (characters s)
  | _ => Throw "TypeError: not iterable"
  end.

(** SameValueZero, the equality of [Set]. The arrays and objects of parsed
    payloads are all distinct references, so none is the same as another
    element. *)
Definition same_value_zero (a b : JS.Value) : bool :=
  match a, b with
  | JS.JNull, JS.JNull => true
  | JS.JBool x, JS.JBool y => Bool.eqb x y
  | JS.JNum x, JS.JNum y => Qeq_bool x y
  | JS.JStr x, JS.JStr y => String.eqb x y
  | _, _ => false
  end.

(** [set.add(x)] on the set's elements in insertion order. *)
Definition Set_add (elements : list JS.Value) (x : JS.Value) : list JS.Value :=
  if existsb (same_value_zero x) elements then elements else elements ++ [x].

(** [Array.from(new Set(items))]. *)
Definition Array_from_Set (items : list JS.Value) : list JS.Value :=
  fold_left Set_add items [].

(** The [skillsData] the first fetch leaves. *)
Definition read_skillsData (responseSkills : bool * option JS.Value)
  : Outcome JS.Value :=
  let '(ok, json) := responseSkills in
  if ok then
    data <- await_json json ;;
    match data with
    | JS.JArr _ => Return data
    | _ => s <- read_prop data "skills" ;; Return (or_empty_array s)
    end
  else Return (JS.JArr []).

(** The [frameworksData] the second fetch leaves. *)
Definition read_frameworksData (responseFrameworks : bool * option JS.Value)
  : Outcome JS.Value :=
  let '(ok, json) := responseFrameworks in
  if ok then
    data <- await_json json ;;
    match data with
    | JS.JArr _ => Return data
    | _ => Return (JS.JArr [])
    end
  else Return (JS.JArr []).

Definition GET (skillsFetch frameworksFetch : FetchOutcome) : NextResponse Body :=
  try_catch
    (responseSkills <- await_fetch skillsFetch ;;
     skillsData <- read_skillsData responseSkills ;;
     responseFrameworks <- await_fetch frameworksFetch ;;
     frameworksData <- read_frameworksData responseFrameworks ;;
     s <- spread skillsData ;;
     f <- spread frameworksData ;;
     let combinedSkills := Array_from_Set (s ++ f) in
     Return (NextResponse_json
               (mkBody (if (0 <? List.length combinedSkills)%nat
                        then combinedSkills else fallbackSkills))))
    (fun error => NextResponse_json_status (mkBody fallbackSkills) 500).

(** No two elements are the same value for [Set]. *)
Inductive Distinct : list JS.Value -> Prop :=
| Distinct_nil : Distinct []
| Distinct_cons (x : JS.Value) (l : list JS.Value) :
    existsb (same_value_zero x) l = false -> Distinct l -> Distinct (x :: l).

Definition is_string (v : JS.Value) : Prop :=
  match v with
  | JS.JStr _ => True
  | _ => False
  end.

End SkillsRoute.

(* ================================================================== *)
(** * The write endpoints *)
(* ================================================================== *)

(** [const { a, b } = data]: destructuring [null] throws. *)
Definition destructure (data : JS.Value) : Outcome JS.Value :=
  match data with
  | JS.JNull => Throw "TypeError: Cannot destructure"
  | _ => Return data
  end.

(** A property of an object literal: [JSON.stringify] leaves out a
    property whose value is [undefined]. *)
Definition prop (k : string) (o : option JS.Value) : list (string * JS.Value) :=
  match o with
  | Some v => [(k, v)]
  | None => []
  end.

(** The body carries a [message] or an [error] property. *)
Definition has_message_or_error (b : JS.Value) : bool :=
  match JS.getProp b "message", JS.getProp b "error" with
  | None, None => false
  | _, _ => true
  end.

(** ** app/api/chat/save/route.ts *)

Module ChatSaveRoute.

(** [messages.length], read only when [messages] is truthy. *)
Definition messages_length (messages : option JS.Value) : option JS.Value :=
  match messages with
  | Some m => JS.getLength m
  | None => None
  end.

(** The log line [`Saving conversation for user ${userId}, conversation
    ${conversationId}:`] stands in the [try] block, so a value that cannot
    be converted to a string there ends in the [catch]. *)
Definition POST (req : NextRequest) : NextResponse JS.Value :=
  try_catch
    (data <- await_json (json_body req) ;;
     data <- destructure data ;;
     let userId := JS.getProp data "userId" in
     let conversationId := JS.getProp data "conversationId" in
     let messages := JS.getProp data "messages" in
     if negb (JS.truthy_opt userId) then
       Return (NextResponse_json_status
                 (JS.JObj [("message", JS.JStr "User ID is required")]) 400)
     else if negb (JS.truthy_opt conversationId) then
       Return (NextResponse_json_status
                 (JS.JObj [("message", JS.JStr "Conversation ID is required")]) 400)
     else if negb (JS.truthy_opt messages)
             || JS.strict_eq_zero (messages_length messages) then
       Return (NextResponse_json_status
                 (JS.JObj [("message", JS.JStr "No messages to save")]) 400)
     else if JS.template_literal [userId; conversationId] then
       Throw "TypeError: Cannot convert object to primitive value"
     else
       Return (NextResponse_json
                 (JS.JObj (("message", JS.JStr "Conversation saved successfully")
                           :: prop "conversationId" conversationId))))
    (fun error =>
       NextResponse_json_status
         (JS.JObj [("message", JS.JStr "Failed to save conversation")]) 500).

End ChatSaveRoute.

(** ** The lesson-save route (POST, inserting into user_lessons) *)

Module LessonSaveRoute.

(** What [await supabase.from(t).insert(rows).select()] does: it throws
    ([err.message] may be undefined), or it resolves to [{ data, error }]
    with [error] either [null] or an error with its message. *)
Inductive InsertOutcome : Type :=
| InsertRejects (message : option string)
| InsertResolves (data : JS.Value) (error : option string).

(** The row handed to [insert]. *)
Definition row (data : JS.Value) : JS.Value :=
  JS.JObj (prop "lesson_id" (JS.getProp data "lesson_id")
           ++ prop "user_id" (JS.getProp data "user_id")
           ++ prop "file_name" (JS.getProp data "file_name")
           ++ prop "framework" (JS.getProp data "framework")
           ++ prop "explanation_level" (JS.getProp data "explanation_level"))%list.

(** The [try] block with its [catch]. *)
Definition save (outcome : InsertOutcome) : NextResponse JS.Value :=
  match outcome with
  | InsertResolves data (Some message) =>
      NextResponse_json_status
        (JS.JObj [("message", JS.JStr "Failed to save lesson");
                  ("error", JS.JStr message)]) 500
  | InsertResolves data None =>
      NextResponse_json_status
        (JS.JObj [("message", JS.JStr "Lesson saved successfully");
                  ("data", data)]) 200
  | InsertRejects message =>
      NextResponse_json_status
        (JS.JObj (("message", JS.JStr "An unexpected error occurred")
                  :: prop "error" (option_map JS.JStr message))) 500
  end.

(** [req.json()] and the destructuring stand before the [try]: when they
    throw, the handler itself throws. *)
Definition POST (insert : string -> list JS.Value -> InsertOutcome)
  (req : NextRequest) : Outcome (NextResponse JS.Value) :=
  data <- await_json (json_body req) ;;
  data <- destructure data ;;
  let lesson_id := JS.getProp data "lesson_id" in
  let user_id := JS.getProp data "user_id" in
  let file_name := JS.getProp data "file_name" in
  if negb (JS.truthy_opt lesson_id) || negb (JS.truthy_opt user_id)
     || negb (JS.truthy_opt file_name) then
    Return (NextResponse_json_status
              (JS.JObj [("message", JS.JStr "Missing required fields")]) 400)
  else
    Return (save (insert "user_lessons" [row data])).

Definition insert_failed (o : InsertOutcome) : Prop :=
  match o with
  | InsertRejects _ => True
  | InsertResolves _ (Some _) => True
  | InsertResolves _ None => False
  end.

End LessonSaveRoute.

(** ** app/api/chat/upload/route.ts *)

Module ChatUploadRoute.

Definition await_formData (form : option (list (string * FormEntry)))
  : Outcome (list (string * FormEntry)) :=
  match form with
  | Some entries => Return entries
  | None => Throw "TypeError: Failed to parse body as FormData"
  end.

(** [formData.get(name)]: the first entry of that name, or [null]. *)
Fixpoint formData_get (entries : list (string * FormEntry)) (name : string)
  : option FormEntry :=
  match entries with
  | [] => None
  | (k, e) :: rest => if String.eqb k name then Some e else formData_get rest name
  end.

(** A [File] is truthy, a text entry is truthy unless it is empty. *)
Definition entry_truthy (file : option FormEntry) : bool :=
  match file with
  | None => false
  | Some (FormText text) => negb (String.eqb text "")
  | Some (FormFile _ _) => true
  end.

(** [`${file.name}`]: a text entry has no [name]. *)
Definition entry_name (file : option FormEntry) : string :=
  match file with
  | Some (FormFile name _) => name
  | _ => "undefined"
  end.

(** [uuid1] and [uuid2] are what the two calls of [uuidv4()] return. *)
Definition POST (uuid1 uuid2 : string) (req : NextRequest) : NextResponse JS.Value :=
  try_catch
    (formData <- await_formData (form_body req) ;;
     let file := formData_get formData "file" in
     if negb (entry_truthy file) then
       Return (NextResponse_json_status
                 (JS.JObj [("error", JS.JStr "No file uploaded")]) 400)
     else
       let fileId := uuid1 in
       let fileUrl := "/uploaded-files/" ++ fileId ++ "-" ++ entry_name file in
       let conversationId :=
         JS.or_string (searchParams_get (searchParams req) "conversation_id") uuid2 in
       Return (NextResponse_json
                 (JS.JObj [("message", JS.JStr "File uploaded successfully");
                           ("fileId", JS.JStr fileId);
                           ("url", JS.JStr fileUrl);
                           ("conversation_id", JS.JStr conversationId)])))
    (fun error =>
       NextResponse_json_status
         (JS.JObj [("error", JS.JStr "Failed to upload file")]) 500).

End ChatUploadRoute.

(** ** Missing fields *)

(** The falsy values of a field: [undefined], [null], [false], [0] and the
    empty string. *)
Inductive Falsy : option JS.Value -> Prop :=
| Falsy_undefined : Falsy None
| Falsy_null : Falsy (Some JS.JNull)
| Falsy_false : Falsy (Some (JS.JBool false))
| Falsy_zero (q : Q) : Qeq q 0 -> Falsy (Some (JS.JNum q))
| Falsy_empty : Falsy (Some (JS.JStr "")).

(** The values whose length is 0 although they are truthy: the empty
    array, and an object with a [length] property of 0. *)
Inductive EmptyLength : option JS.Value -> Prop :=
| EmptyLength_array : EmptyLength (Some (JS.JArr []))
| EmptyLength_object (props : list (string * JS.Value)) (q : Q) :
    JS.lookup "length" props = Some (JS.JNum q) -> Qeq q 0 ->
    EmptyLength (Some (JS.JObj props)).







Definition lesson_request : NextRequest :=
  mkRequest []
    (Some (JS.JObj [("lesson_id", JS.JStr "l1"); ("user_id", JS.JStr "u1");
                    ("file_name", JS.JStr "notes.pdf")])) None.

Definition failing_insert (table : string) (rows : list JS.Value)
  : LessonSaveRoute.InsertOutcome :=
  LessonSaveRoute.InsertResolves JS.JNull (Some "connection refused").

(* ================================================================== *)
(** * frontend/app/api/interests/route.ts *)
(* ================================================================== *)

Module InterestsRoute.

Definition fallbackInterests : list JS.Value :=
  map JS.JStr
    [ "Technology"; "Design"; "Data Science"; "Business"; "AI/ML";
      "Cloud Computing"; "Cybersecurity"; "Marketing"; "Finance"; "Healthcare" ].

Definition GET (interestsFetch : FetchOutcome) : NextResponse JS.Value :=
  try_catch
    (response <- await_fetch interestsFetch ;;
     let '(ok, json) := response in
     if negb ok then
       Return (NextResponse_json
                 (JS.JObj [("interests", JS.JArr fallbackInterests);
                           ("source", JS.JStr "fallback")]))
     else
       data <- await_json json ;;
       i <- read_prop data "interests" ;;
       let interests := or_empty_array i in
       Return (NextResponse_json (JS.JObj [("interests", interests)])))
    (fun error =>
       NextResponse_json_status
         (JS.JObj [("interests", JS.JArr fallbackInterests)]) 500).

End InterestsRoute.

(* ================================================================== *)
(** * frontend/app/dashboard/page.tsx *)
(* ================================================================== *)

Module DashboardPage.

(** [getUserProgress] and [getRecommendations]: the parsed answer, or
    [null] when the fetch rejects, the status is not ok or the body is not
    JSON. Neither ever throws. *)
Definition getUserProgress (progressFetch : FetchOutcome) : Outcome JS.Value :=
  Return
    (try_catch
       (response <- await_fetch progressFetch ;;
        let '(ok, json) := response in
        if negb ok then Throw "Failed to get user progress" else await_json json)
       (fun error => JS.JNull)).

Definition getRecommendations (recommendationsFetch : FetchOutcome) : Outcome JS.Value :=
  Return
    (try_catch
       (response <- await_fetch recommendationsFetch ;;
        let '(ok, json) := response in
        if negb ok then Throw "Failed to get recommendations" else await_json json)
       (fun error => JS.JNull)).

(** One result of [Promise.allSettled]. *)
Inductive Settled : Type :=
| Fulfilled (value : JS.Value)
| Rejected (reason : string).

Definition settle (promise : Outcome JS.Value) : Settled :=
  match promise with
  | Return value => Fulfilled value
  | Throw reason => Rejected reason
  end.

(** *** Object spread *)

Fixpoint indexed (i : nat) (items : list JS.Value) : list (string * JS.Value) :=
  match items with
  | [] => []
  | x :: rest => (NilZero.string_of_uint (Nat.to_uint i), x) :: indexed (S i) rest
  end.

(** The own enumerable properties [...v] copies; [undefined], [null],
    numbers and booleans have none, an array has its elements and a string
    its code units under their indices. *)
Definition own_props (v : option JS.Value) : list (string * JS.Value) :=
  match v with
  | Some (JS.JObj props) => props
  | Some (JS.JArr items) => indexed 0 items
  | Some (JS.JStr s) => indexed 0 (map JS.JStr (JS.code_units s))
  | _ => []
  end.

(** The array index a property key is: a decimal numeral without sign or
    leading zero, below 2^32 - 1. An object lists these keys first, in
    ascending order, and its other keys after them in insertion order. *)
Definition array_index (k : string) : option Z :=
  match NilZero.uint_of_string k with
  | Some d =>
      let n := Z.of_N (N.of_uint d) in
      if String.eqb (NilZero.string_of_uint (N.to_uint (Z.to_N n))) k
         && (n <? 4294967295)
      then Some n else None
  | None => None
  end.

Definition has_key (props : list (string * JS.Value)) (k : string) : bool :=
  existsb (fun kv => String.eqb (fst kv) k) props.

(** A key the object has keeps its place. *)
Fixpoint replace (props : list (string * JS.Value)) (k : string) (v : JS.Value)
  : list (string * JS.Value) :=
  match props with
  | [] => []
  | (k', v') :: rest =>
      if String.eqb k' k then (k', v) :: rest else (k', v') :: replace rest k v
  end.

(** A new array index goes after the smaller ones. *)
Fixpoint insert_index (props : list (string * JS.Value)) (i : Z) (k : string)
  (v : JS.Value) : list (string * JS.Value) :=
  match props with
  | [] => [(k, v)]
  | (k', v') :: rest =>
      match array_index k' with
      | Some j =>
          if j <? i then (k', v') :: insert_index rest i k v
          else (k, v) :: props
      | None => (k, v) :: props
      end
  end.

(** [o[k] = v]. *)
Definition assign (props : list (string * JS.Value)) (k : string) (v : JS.Value)
  : list (string * JS.Value) :=
  if has_key props k then replace props k v
  else
    match array_index k with
    | Some i => insert_index props i k v
    | None => props ++ [(k, v)]
    end.

Fixpoint remove (props : list (string * JS.Value)) (k : string)
  : list (string * JS.Value) :=
  match props with
  | [] => []
  | (k', v') :: rest =>
      if String.eqb k' k then remove rest k else (k', v') :: remove rest k
  end.

(** [k: v] in an object literal where [v] may be [undefined]; such a
    property reads as [undefined] again. *)
Definition assign_opt (props : list (string * JS.Value)) (k : string)
  (v : option JS.Value) : list (string * JS.Value) :=
  match v with
  | Some x => assign props k x
  | None => remove props k
  end.

(** [{ ...props, ...v }]. *)
Definition spread_into (props : list (string * JS.Value)) (v : option JS.Value)
  : list (string * JS.Value) :=
  fold_left (fun acc kv => assign acc (fst kv) (snd kv)) (own_props v) props.

(** [a || b]. *)
Definition or_value (a b : option JS.Value) : option JS.Value :=
  if JS.truthy_opt a then a else b.

(** *** Mock data generator function *)

Definition generateMockData : JS.Value :=
  JS.JObj
    [ ("progress",
       JS.JObj
         [ ("lessons_completed", JS.num 24);
           ("total_lessons", JS.num 100);
           ("completion_percentage", JS.num 24);
           ("hours_spent", JS.JNum 67.5%Q);
           ("current_streak", JS.num 12);
           ("skills_learned", JS.num 15);
           ("career_advancement_percentage", JS.num 35);
           ("current_level", JS.num 3);
           ("next_milestone", JS.JStr "Intermediate Developer") ]);
      ("recent_activity",
       JS.JArr
         [ JS.JObj
             [ ("type", JS.JStr "lesson");
               ("title", JS.JStr "Advanced React Patterns");
               ("date", JS.JStr "2024-01-15");
               ("progress", JS.num 100);
               ("status", JS.JStr "completed") ];
           JS.JObj
             [ ("type", JS.JStr "quiz");
               ("title", JS.JStr "JavaScript ES6 Assessment");
               ("date", JS.JStr "2024-01-14");
               ("progress", JS.num 92);
               ("status", JS.JStr "completed") ];
           JS.JObj
             [ ("type", JS.JStr "chat");
               ("title", JS.JStr "AI Discussion on State Management");
               ("date", JS.JStr "2024-01-13");
               ("status", JS.JStr "active") ];
           JS.JObj
             [ ("type", JS.JStr "lesson");
               ("title", JS.JStr "Node.js Authentication");
               ("date", JS.JStr "2024-01-12");
               ("progress", JS.num 75);
               ("status", JS.JStr "in_progress") ];
           JS.JObj
             [ ("type", JS.JStr "project");
               ("title", JS.JStr "Full Stack E-commerce App");
               ("date", JS.JStr "2024-01-11");
               ("progress", JS.num 45);
               ("status", JS.JStr "in_progress") ];
           JS.JObj
             [ ("type", JS.JStr "certificate");
               ("title", JS.JStr "React Fundamentals Certificate");
               ("date", JS.JStr "2024-01-10");
               ("status", JS.JStr "earned") ] ]);
      ("achievements",
       JS.JArr
         [ JS.JObj
             [ ("title", JS.JStr "First Steps");
               ("description", JS.JStr "Completed your first lesson");
               ("earned_date", JS.JStr "2024-01-01");
               ("badge_type", JS.JStr "bronze");
               ("icon", JS.JStr "🎯") ];
           JS.JObj
             [ ("title", JS.JStr "Streak Master");
               ("description", JS.JStr "12 days of continuous learning");
               ("earned_date", JS.JStr "2024-01-15");
               ("badge_type", JS.JStr "gold");
               ("icon", JS.JStr "🔥") ];
           JS.JObj
             [ ("title", JS.JStr "Quiz Champion");
               ("description", JS.JStr "Scored 90%+ on 10 quizzes");
               ("earned_date", JS.JStr "2024-01-12");
               ("badge_type", JS.JStr "silver");
               ("icon", JS.JStr "🏆") ];
           JS.JObj
             [ ("title", JS.JStr "Skill Builder");
               ("description", JS.JStr "Mastered 5 different skills");
               ("earned_date", JS.JStr "2024-01-08");
               ("badge_type", JS.JStr "gold");
               ("icon", JS.JStr "⭐") ];
           JS.JObj
             [ ("title", JS.JStr "Project Pioneer");
               ("description", JS.JStr "Completed first project");
               ("earned_date", JS.JStr "2024-01-05");
               ("badge_type", JS.JStr "bronze");
               ("icon", JS.JStr "🚀") ] ]);
      ("saved_content",
       JS.JArr
         [ JS.JObj
             [ ("id", JS.JStr "1");
               ("title", JS.JStr "React Best Practices Guide");
               ("type", JS.JStr "lesson");
               ("date_saved", JS.JStr "2024-01-14") ];
           JS.JObj
             [ ("id", JS.JStr "2");
               ("title", JS.JStr "Full Stack Developer Roadmap");
               ("type", JS.JStr "roadmap");
               ("date_saved", JS.JStr "2024-01-13") ];
           JS.JObj
             [ ("id", JS.JStr "3");
               ("title", JS.JStr "JavaScript Interview Questions");
               ("type", JS.JStr "resource");
               ("date_saved", JS.JStr "2024-01-12") ];
           JS.JObj
             [ ("id", JS.JStr "4");
               ("title", JS.JStr "API Design Patterns");
               ("type", JS.JStr "lesson");
               ("date_saved", JS.JStr "2024-01-11") ] ]);
      ("chat_history",
       JS.JArr
         [ JS.JObj
             [ ("id", JS.JStr "1");
               ("summary", JS.JStr "Discussion about React hooks and state management");
               ("date", JS.JStr "2024-01-15");
               ("topic", JS.JStr "React") ];
           JS.JObj
             [ ("id", JS.JStr "2");
               ("summary", JS.JStr "Career advice for transitioning to full-stack development");
               ("date", JS.JStr "2024-01-13");
               ("topic", JS.JStr "Career") ];
           JS.JObj
             [ ("id", JS.JStr "3");
               ("summary", JS.JStr "Help with debugging Node.js authentication issues");
               ("date", JS.JStr "2024-01-11");
               ("topic", JS.JStr "Node.js") ];
           JS.JObj
             [ ("id", JS.JStr "4");
               ("summary", JS.JStr "Best practices for database design");
               ("date", JS.JStr "2024-01-09");
               ("topic", JS.JStr "Database") ] ]);
      ("recommendations",
       JS.JObj
         [ ("next_lessons",
            JS.JArr
              [ JS.JObj
                  [ ("id", JS.JStr "1");
                    ("title", JS.JStr "Advanced TypeScript Patterns");
                    ("description", JS.JStr "Learn advanced TypeScript features for better code quality");
                    ("estimated_time", JS.JStr "2.5 hours");
                    ("difficulty", JS.JStr "intermediate");
                    ("priority", JS.num 1) ];
                JS.JObj
                  [ ("id", JS.JStr "2");
                    ("title", JS.JStr "Testing with Jest and React Testing Library");
                    ("description", JS.JStr "Master testing strategies for React applications");
                    ("estimated_time", JS.JStr "3 hours");
                    ("difficulty", JS.JStr "intermediate");
                    ("priority", JS.num 2) ];
                JS.JObj
                  [ ("id", JS.JStr "3");
                    ("title", JS.JStr "GraphQL Fundamentals");
                    ("description", JS.JStr "Learn modern API development with GraphQL");
                    ("estimated_time", JS.JStr "4 hours");
                    ("difficulty", JS.JStr "advanced");
                    ("priority", JS.num 3) ] ]);
           ("career_opportunities",
            JS.JArr
              [ JS.JObj
                  [ ("title", JS.JStr "Senior Frontend Developer");
                    ("company", JS.JStr "TechCorp Inc");
                    ("match_score", JS.num 89);
                    ("salary_range", JS.JStr "$85k - $120k");
                    ("location", JS.JStr "Remote");
                    ("skills_required",
                     JS.JArr [JS.JStr "React"; JS.JStr "TypeScript"; JS.JStr "Node.js"]) ];
                JS.JObj
                  [ ("title", JS.JStr "Full Stack Engineer");
                    ("company", JS.JStr "StartupXYZ");
                    ("match_score", JS.num 82);
                    ("salary_range", JS.JStr "$90k - $130k");
                    ("location", JS.JStr "San Francisco, CA");
                    ("skills_required",
                     JS.JArr
                       [ JS.JStr "React";
                         JS.JStr "Node.js";
                         JS.JStr "PostgreSQL";
                         JS.JStr "AWS" ]) ];
                JS.JObj
                  [ ("title", JS.JStr "React Developer");
                    ("company", JS.JStr "WebAgency Pro");
                    ("match_score", JS.num 95);
                    ("salary_range", JS.JStr "$70k - $95k");
                    ("location", JS.JStr "New York, NY");
                    ("skills_required",
                     JS.JArr [JS.JStr "React"; JS.JStr "JavaScript"; JS.JStr "CSS"]) ] ]);
           ("skill_gaps",
            JS.JArr
              [ JS.JObj
                  [ ("skill", JS.JStr "TypeScript");
                    ("current_level", JS.num 2);
                    ("target_level", JS.num 4);
                    ("priority", JS.JStr "high");
                    ("market_demand", JS.JStr "Very High") ];
                JS.JObj
                  [ ("skill", JS.JStr "Testing");
                    ("current_level", JS.num 1);
                    ("target_level", JS.num 3);
                    ("priority", JS.JStr "medium");
                    ("market_demand", JS.JStr "High") ];
                JS.JObj
                  [ ("skill", JS.JStr "DevOps");
                    ("current_level", JS.num 0);
                    ("target_level", JS.num 2);
                    ("priority", JS.JStr "low");
                    ("market_demand", JS.JStr "Medium") ];
                JS.JObj
                  [ ("skill", JS.JStr "System Design");
                    ("current_level", JS.num 1);
                    ("target_level", JS.num 4);
                    ("priority", JS.JStr "high");
                    ("market_demand", JS.JStr "Very High") ] ]);
           ("market_trends",
            JS.JArr
              [ JS.JObj
                  [ ("trend", JS.JStr "AI Integration in Web Development");
                    ("description", JS.JStr "Growing demand for developers who can integrate AI/ML features");
                    ("growth_rate", JS.JStr "+45%");
                    ("relevance_score", JS.num 92) ];
                JS.JObj
                  [ ("trend", JS.JStr "Serverless Architecture");
                    ("description", JS.JStr "Increasing adoption of serverless technologies");
                    ("growth_rate", JS.JStr "+38%");
                    ("relevance_score", JS.num 85) ];
                JS.JObj
                  [ ("trend", JS.JStr "Web3 and Blockchain");
                    ("description", JS.JStr "Emerging opportunities in decentralized applications");
                    ("growth_rate", JS.JStr "+67%");
                    ("relevance_score", JS.num 78) ] ]);
           ("general_recommendations",
            JS.JArr
              [ JS.JObj
                  [ ("id", JS.JStr "g1");
                    ("title", JS.JStr "Explore new AI frameworks");
                    ("description", JS.JStr "Stay updated with the latest in AI development.");
                    ("link", JS.JStr "#") ];
                JS.JObj
                  [ ("id", JS.JStr "g2");
                    ("title", JS.JStr "Contribute to open source");
                    ("description", JS.JStr "Enhance your portfolio and collaborate with others.");
                    ("link", JS.JStr "#") ] ]) ]);
      ("analytics",
       JS.JObj
         [ ("learning_timeline",
            JS.JArr
              [ JS.JObj
                  [ ("date", JS.JStr "2024-01-08");
                    ("lessons", JS.num 2);
                    ("hours", JS.JNum 3.5%Q);
                    ("skills_gained", JS.num 1) ];
                JS.JObj
                  [ ("date", JS.JStr "2024-01-09");
                    ("lessons", JS.num 3);
                    ("hours", JS.JNum 5.0%Q);
                    ("skills_gained", JS.num 2) ];
                JS.JObj
                  [ ("date", JS.JStr "2024-01-10");
                    ("lessons", JS.num 1);
                    ("hours", JS.JNum 2.5%Q);
                    ("skills_gained", JS.num 0) ] ]);
           ("skill_levels",
            JS.JArr
              [ JS.JObj
                  [ ("skill", JS.JStr "JavaScript");
                    ("level", JS.num 4);
                    ("max_level", JS.num 5);
                    ("progress_percentage", JS.num 80) ];
                JS.JObj
                  [ ("skill", JS.JStr "React");
                    ("level", JS.num 4);
                    ("max_level", JS.num 5);
                    ("progress_percentage", JS.num 75) ] ]);
           ("time_distribution",
            JS.JArr
              [ JS.JObj
                  [ ("activity", JS.JStr "Lessons");
                    ("hours", JS.num 35);
                    ("percentage", JS.num 52);
                    ("color", JS.JStr "#3B82F6") ];
                JS.JObj
                  [ ("activity", JS.JStr "Projects");
                    ("hours", JS.num 18);
                    ("percentage", JS.num 27);
                    ("color", JS.JStr "#10B981") ] ]);
           ("career_progress",
            JS.JArr
              [ JS.JObj
                  [ ("milestone", JS.JStr "Learn React Basics");
                    ("completed", JS.JBool true);
                    ("date", JS.JStr "2024-01-01");
                    ("progress_percentage", JS.num 100) ];
                JS.JObj
                  [ ("milestone", JS.JStr "Build First Project");
                    ("completed", JS.JBool true);
                    ("date", JS.JStr "2024-01-05");
                    ("progress_percentage", JS.num 100) ] ]) ]);
      ("user_role", JS.JStr "student") ].

(** *** The component state *)

Record Toast : Type := mkToast {
  toast_title : string;
  toast_description : string
}.

(** The [useState] cells and the toasts shown so far. *)
Record UI : Type := mkUI {
  dashboardData : option JS.Value;
  loading : bool;
  error : option string;
  isRefreshing : bool;
  toasts : list Toast
}.

Definition initialUI : UI := mkUI None true None false [].

(** State and exceptions. *)
Definition M (A : Type) : Type := UI -> Outcome A * UI.

Definition ret {A : Type} (a : A) : M A := fun ui => (Return a, ui).

Definition seq {A : Type} (m : M unit) (k : M A) : M A :=
  fun ui =>
    match m ui with
    | (Return _, ui') => k ui'
    | (Throw e, ui') => (Throw e, ui')
    end.

Notation "m ;;; k" := (seq m k) (at level 62, right associativity).

(** [try { body } catch (err) { handler } finally { finalizer }]. *)
Definition try_catch_finally (body : M unit) (handler : string -> M unit)
  (finalizer : M unit) : M unit :=
  fun ui =>
    let '(r, ui1) :=
      match body ui with
      | (Return _, ui') => (Return tt, ui')
      | (Throw e, ui') => handler e ui'
      end in
    match finalizer ui1 with
    | (Return _, ui2) => (r, ui2)
    | (Throw e, ui2) => (Throw e, ui2)
    end.

Definition setDashboardData (v : JS.Value) : M unit :=
  fun ui => (Return tt, mkUI (Some v) (loading ui) (error ui) (isRefreshing ui) (toasts ui)).

Definition setLoading (v : bool) : M unit :=
  fun ui => (Return tt, mkUI (dashboardData ui) v (error ui) (isRefreshing ui) (toasts ui)).

Definition setError (v : option string) : M unit :=
  fun ui => (Return tt, mkUI (dashboardData ui) (loading ui) v (isRefreshing ui) (toasts ui)).

Definition setIsRefreshing (v : bool) : M unit :=
  fun ui => (Return tt, mkUI (dashboardData ui) (loading ui) (error ui) v (toasts ui)).

Definition toast (t : Toast) : M unit :=
  fun ui =>
    (Return tt,
     mkUI (dashboardData ui) (loading ui) (error ui) (isRefreshing ui)
       (toasts ui ++ [t])).

Definition updated_toast : Toast :=
  mkToast "Dashboard Updated"
    "Your dashboard data has been refreshed successfully.".

Definition demo_toast : Toast :=
  mkToast "Using Demo Data"
    "Showing demo data while backend services are connecting.".

(** [!session?.user?.id]. *)
Definition no_user (session_user_id : option string) : bool :=
  match session_user_id with
  | Some id => String.eqb id ""
  | None => true
  end.

(** The first merge: progress, recent activity and achievements. *)
Definition merge_progress (combinedData value : JS.Value) : JS.Value :=
  let spread := spread_into [] (Some combinedData) in
  let progress :=
    JS.JObj (spread_into (spread_into [] (JS.getProp combinedData "progress"))
               (JS.getProp value "progress")) in
  let recent_activity :=
    or_value (JS.getProp value "recent_activity")
      (JS.getProp combinedData "recent_activity") in
  let achievements :=
    or_value (JS.getProp value "achievements")
      (JS.getProp combinedData "achievements") in
  JS.JObj
    (assign_opt
       (assign_opt (assign spread "progress" progress)
          "recent_activity" recent_activity)
       "achievements" achievements).

(** The second merge: recommendations. *)
Definition merge_recommendations (combinedData value : JS.Value) : JS.Value :=
  let spread := spread_into [] (Some combinedData) in
  let recommendations :=
    JS.JObj (spread_into (spread_into [] (JS.getProp combinedData "recommendations"))
               (Some value)) in
  JS.JObj (assign spread "recommendations" recommendations).

(** What the two settled promises make of the mock data. *)
Definition combine (progressRes recommendationsRes : Settled) : JS.Value :=
  let mockData := generateMockData in
  let combinedData := mockData in
  let combinedData :=
    match progressRes with
    | Fulfilled value =>
        if JS.truthy value then merge_progress combinedData value else combinedData
    | Rejected _ => combinedData
    end in
  let combinedData :=
    match recommendationsRes with
    | Fulfilled value =>
        if JS.truthy value then merge_recommendations combinedData value
        else combinedData
    | Rejected _ => combinedData
    end in
  combinedData.

Definition fetchDashboardData (session_user_id : option string)
  (progressFetch recommendationsFetch : FetchOutcome) (showRefreshToast : bool)
  : M unit :=
  if no_user session_user_id then
    setDashboardData generateMockData ;;; setLoading false
  else
    try_catch_finally
      ((if showRefreshToast then setIsRefreshing true else setLoading true) ;;;
       setError None ;;;
       let progressRes := settle (getUserProgress progressFetch) in
       let recommendationsRes := settle (getRecommendations recommendationsFetch) in
       setDashboardData (combine progressRes recommendationsRes) ;;;
       (if showRefreshToast then toast updated_toast else ret tt))
      (fun err =>
         setDashboardData generateMockData ;;;
         (if showRefreshToast then toast demo_toast else ret tt))
      (setLoading false ;;; setIsRefreshing false).

Definition run (m : M unit) (ui : UI) : UI := snd (m ui).

(** The backend cannot be used: the fetch rejects, the status is not ok,
    or the body is not JSON. *)
Definition unavailable (o : FetchOutcome) : Prop :=
  match o with
  | FetchRejects => True
  | FetchResponse ok json => ok = false \/ json = None
  end.

(** A backend that answers both requests with the empty object. *)
Definition empty_answer : FetchOutcome := FetchResponse true (Some (JS.JObj [])).

End DashboardPage.

(* ================================================================== *)
(** * app/career/page.tsx: the assessment *)
(* ================================================================== *)

Module CareerAssessment.

Record Question : Type := mkQuestion {
  id : Z;
  question : string;
  type : string
}.

Definition assessmentQuestions : list Question :=
  [ mkQuestion 1 "I enjoy working with technology and solving technical problems" "likert";
    mkQuestion 2 "I prefer working independently rather than in large teams" "likert";
    mkQuestion 3 "I like analyzing data to find patterns and insights" "likert";
    mkQuestion 4 "I enjoy creating visual designs and user interfaces" "likert";
    mkQuestion 5 "I'm comfortable presenting ideas to groups of people" "likert";
    mkQuestion 6 "I prefer structured, predictable work environments" "likert";
    mkQuestion 7 "I enjoy mentoring and helping others learn" "likert";
    mkQuestion 8 "I like working on long-term strategic projects" "likert";
    mkQuestion 9 "I'm energized by fast-paced, changing environments" "likert";
    mkQuestion 10 "I prefer hands-on, practical work over theoretical concepts" "likert" ].

Record Option_ : Type := mkOption { value : string; label : string }.

Definition likertOptions : list Option_ :=
  [ mkOption "1" "Strongly Disagree";
    mkOption "2" "Disagree";
    mkOption "3" "Neutral";
    mkOption "4" "Agree";
    mkOption "5" "Strongly Agree" ].

Definition setShowAssessment (v : bool) (st : CareerPage.State) : CareerPage.State :=
  CareerPage.mkState v (CareerPage.currentStep st) (CareerPage.answers st)
    (CareerPage.showResults st) (CareerPage.isLoading st)
    (CareerPage.selectedSkills st) (CareerPage.selectedInterests st)
    (CareerPage.customSkill st) (CareerPage.customInterest st)
    (CareerPage.targetRole st).

Definition setCurrentStep (v : Z) (st : CareerPage.State) : CareerPage.State :=
  CareerPage.mkState (CareerPage.showAssessment st) v (CareerPage.answers st)
    (CareerPage.showResults st) (CareerPage.isLoading st)
    (CareerPage.selectedSkills st) (CareerPage.selectedInterests st)
    (CareerPage.customSkill st) (CareerPage.customInterest st)
    (CareerPage.targetRole st).

Definition setAnswers (v : list (Z * string)) (st : CareerPage.State) : CareerPage.State :=
  CareerPage.mkState (CareerPage.showAssessment st) (CareerPage.currentStep st) v
    (CareerPage.showResults st) (CareerPage.isLoading st)
    (CareerPage.selectedSkills st) (CareerPage.selectedInterests st)
    (CareerPage.customSkill st) (CareerPage.customInterest st)
    (CareerPage.targetRole st).

Definition setShowResults (v : bool) (st : CareerPage.State) : CareerPage.State :=
  CareerPage.mkState (CareerPage.showAssessment st) (CareerPage.currentStep st)
    (CareerPage.answers st) v (CareerPage.isLoading st)
    (CareerPage.selectedSkills st) (CareerPage.selectedInterests st)
    (CareerPage.customSkill st) (CareerPage.customInterest st)
    (CareerPage.targetRole st).

Definition setIsLoading (v : bool) (st : CareerPage.State) : CareerPage.State :=
  CareerPage.mkState (CareerPage.showAssessment st) (CareerPage.currentStep st)
    (CareerPage.answers st) (CareerPage.showResults st) v
    (CareerPage.selectedSkills st) (CareerPage.selectedInterests st)
    (CareerPage.customSkill st) (CareerPage.customInterest st)
    (CareerPage.targetRole st).

(** [answers[k]] on the [Record<number, string>], [undefined] as [None].
    The record is only ever read by key. *)
Fixpoint answer_get (answers : list (Z * string)) (k : Z) : option string :=
  match answers with
  | [] => None
  | (k', v) :: rest => if k' =? k then Some v else answer_get rest k
  end.

(** [{ ...prev, [k]: v }]. *)
Fixpoint answer_set (answers : list (Z * string)) (k : Z) (v : string)
  : list (Z * string) :=
  match answers with
  | [] => [(k, v)]
  | (k', v') :: rest =>
      if k' =? k then (k', v) :: rest else (k', v') :: answer_set rest k v
  end.

Definition handleAnswerChange (questionId : Z) (v : string) (st : CareerPage.State)
  : CareerPage.State :=
  setAnswers (answer_set (CareerPage.answers st) questionId v) st.

(** [handleNext], up to the [setTimeout]; [resultsTimer] is its callback,
    run 2000 ms later. *)
Definition handleNext (st : CareerPage.State) : CareerPage.State :=
  if CareerPage.currentStep st <? Z.of_nat (List.length assessmentQuestions) - 1
  then setCurrentStep (CareerPage.currentStep st + 1) st
  else setIsLoading true st.

Definition resultsTimer (st : CareerPage.State) : CareerPage.State :=
  setShowResults true (setIsLoading false st).

Definition handlePrevious (st : CareerPage.State) : CareerPage.State :=
  setCurrentStep (CareerPage.currentStep st - 1) st.

(** The click handler of "Back to Career Tools". *)
Definition backToCareerTools (st : CareerPage.State) : CareerPage.State :=
  setAnswers [] (setCurrentStep 0 (setShowAssessment false (setShowResults false st))).

(** The screen the component renders: the tests of [isLoading],
    [showResults] and [showAssessment], in this order. *)
Inductive Screen : Type :=
| LoadingScreen | ResultsScreen | QuestionsScreen | MainScreen.

Definition screen (st : CareerPage.State) : Screen :=
  if CareerPage.isLoading st then LoadingScreen
  else if CareerPage.showResults st then ResultsScreen
  else if CareerPage.showAssessment st then QuestionsScreen
  else MainScreen.

(** [assessmentQuestions[currentStep]]. *)
Definition currentQuestion (st : CareerPage.State) : option Question :=
  if CareerPage.currentStep st <? 0 then None
  else nth_error assessmentQuestions (Z.to_nat (CareerPage.currentStep st)).

(** [answers[currentQuestion?.id] !== undefined]. *)
Definition canGoNext (st : CareerPage.State) : bool :=
  match currentQuestion st with
  | Some q =>
      match answer_get (CareerPage.answers st) (id q) with
      | Some _ => true
      | None => false
      end
  | None => false
  end.

(** What the user, or the timer, can do on the screen shown. *)
Inductive UIEvent : Type :=
| SelectAnswer (v : string)
| Next
| Previous
| ResultsTimer
| BackToCareerTools
| TakeTheQuiz
| Tab (ev : CareerPage.Event).

(** One event on the screen shown; [None] when the screen does not offer
    it: a radio item carries the value of a Likert option, "Previous" is
    disabled on the first question, "Next" as long as the current question
    has no answer. On the main screen every handler of the tabs is
    admitted. *)
Definition ui_step (st : CareerPage.State) (ev : UIEvent) : option CareerPage.State :=
  match screen st, ev with
  | QuestionsScreen, SelectAnswer v =>
      match currentQuestion st with
      | Some q =>
          if JS.includes (map value likertOptions) v
          then Some (handleAnswerChange (id q) v st)
          else None
      | None => None
      end
  | QuestionsScreen, Next => if canGoNext st then Some (handleNext st) else None
  | QuestionsScreen, Previous =>
      if CareerPage.currentStep st =? 0 then None else Some (handlePrevious st)
  | LoadingScreen, ResultsTimer => Some (resultsTimer st)
  | ResultsScreen, BackToCareerTools => Some (backToCareerTools st)
  | MainScreen, TakeTheQuiz => Some (setShowAssessment true st)
  | MainScreen, Tab ev => Some (CareerPage.step st ev)
  | _, _ => None
  end.

Fixpoint ui_run (st : CareerPage.State) (evs : list UIEvent) : option CareerPage.State :=
  match evs with
  | [] => Some st
  | ev :: rest =>
      match ui_step st ev with
      | Some st' => ui_run st' rest
      | None => None
      end
  end.

Definition answered (st : CareerPage.State) (q : Question) : Prop :=
  exists v : string,
    answer_get (CareerPage.answers st) (id q) = Some v
    /\ In v (map value likertOptions).

(** What every reachable state satisfies. *)
Definition Inv (st : CareerPage.State) : Prop :=
  0 <= CareerPage.currentStep st < Z.of_nat (List.length assessmentQuestions)
  /\ (forall (i : nat) (q : Question),
        Z.of_nat i < CareerPage.currentStep st ->
        nth_error assessmentQuestions i = Some q -> answered st q)
  /\ (CareerPage.isLoading st = true \/ CareerPage.showResults st = true ->
      forall q : Question, In q assessmentQuestions -> answered st q)
  /\ (forall (k : Z) (v : string),
        answer_get (CareerPage.answers st) k = Some v ->
        In v (map value likertOptions)).

(** Answering every question, with "Next" after each answer, and waiting
    for the timer. *)
Definition full_assessment : list UIEvent :=
  TakeTheQuiz
  :: flat_map (fun v => [SelectAnswer v; Next])
       ["4"; "2"; "5"; "3"; "1"; "4"; "4"; "2"; "5"; "3"]
  ++ [ResultsTimer].

End CareerAssessment.

(* ================================================================== *)
(** * Predicates on strings *)
(* ================================================================== *)

(** A string made of white space only. *)
Inductive white_space_only : string -> Prop :=
| white_space_only_nil : white_space_only EmptyString
| white_space_only_cons (w s : string) :
    In w JS.white_space -> white_space_only s -> white_space_only (w ++ s).

(** No character of [ws] starts the string. *)
Definition starts_clean (ws : list string) (s : string) : Prop :=
  JS.drop_first ws s = None.

(** Every character of the list has a byte at least. *)
Definition no_empty (ws : list string) : Prop := Forall (fun w => w <> "") ws.

(* ================================================================== *)
(** * Reading the dashboard data *)
(* ================================================================== *)

(** The top-level properties of the mock data, and its progress and
    recommendations sections. *)
Definition mock_props : list (string * JS.Value) :=
  DashboardPage.own_props (Some DashboardPage.generateMockData).

Definition mock_progress : list (string * JS.Value) :=
  DashboardPage.own_props (JS.getProp DashboardPage.generateMockData "progress").

Definition mock_recommendations : list (string * JS.Value) :=
  DashboardPage.own_props (JS.getProp DashboardPage.generateMockData "recommendations").

(** The data after the first of the two merges of [combine]. *)
Definition after_progress (progressRes : DashboardPage.Settled) : JS.Value :=
  match progressRes with
  | DashboardPage.Fulfilled value =>
      if JS.truthy value
      then DashboardPage.merge_progress DashboardPage.generateMockData value
      else DashboardPage.generateMockData
  | DashboardPage.Rejected _ => DashboardPage.generateMockData
  end.

(** The keys of an object, in order. *)
Definition keys (v : JS.Value) : list string :=
  match v with
  | JS.JObj props => map fst props
  | _ => []
  end.

(** None of the keys is an array index. *)
Definition no_index_keys (ks : list string) : Prop :=
  Forall (fun k => DashboardPage.array_index k = None) ks.

(** The value the last binding of [k] gives, as a spread leaves it. *)
Definition last_binding (k : string) (props : list (string * JS.Value))
  : option JS.Value :=
  JS.lookup k (rev props).

(** A backend answer that renames the milestone, sends an empty activity
    list and no achievements. *)
Definition progress_answer : JS.Value :=
  JS.JObj [ ("progress",
             JS.JObj [ ("next_milestone", JS.JStr "Senior Developer");
                       ("lessons_completed", JS.num 30) ]);
            ("recent_activity", JS.JArr []);
            ("user_role", JS.JStr "professional") ].

(* ================================================================== *)
(** * Payloads of the skills route *)
(* ================================================================== *)

(** The two shapes in which /api/skills may send its list [s]: the array
    itself, or an object with the array under [skills]. *)
Definition skills_payload (payload : JS.Value) (s : list JS.Value) : Prop :=
  payload = JS.JArr s
  \/ exists props : list (string * JS.Value),
       payload = JS.JObj props /\ JS.lookup "skills" props = Some (JS.JArr s).



(* ================================================================== *)
(** * Requests to chat-save and chat-upload *)
(* ================================================================== *)

(** The five fields lesson-save hands to the store. *)
Definition lesson_fields : list string :=
  ["lesson_id"; "user_id"; "file_name"; "framework"; "explanation_level"].

(** A complete chat-save request, and one without a user. *)
Definition chat_request : NextRequest :=
  mkRequest []
    (Some (JS.JObj [("userId", JS.JStr "u1"); ("conversationId", JS.JStr "c1");
                    ("messages", JS.JArr [JS.JStr "hello"])])) None.

Definition chat_request_without_user : NextRequest :=
  mkRequest []
    (Some (JS.JObj [("conversationId", JS.JStr ""); ("messages", JS.JArr [])])) None.

(** An upload of notes.pdf into the conversation c7. *)
Definition upload_request : NextRequest :=
  mkRequest [("conversation_id", "c7")] None
    (Some [("file", FormFile "notes.pdf" "%PDF-1.4")]).

(** A lesson-save request without a file name. *)
Definition lesson_request_without_file : NextRequest :=
  mkRequest []
    (Some (JS.JObj [("lesson_id", JS.JStr "l1"); ("user_id", JS.JStr "u1");
                    ("is_admin", JS.JBool true)])) None.

Definition succeeding_insert (table : string) (rows : list JS.Value)
  : LessonSaveRoute.InsertOutcome :=
  LessonSaveRoute.InsertResolves (JS.JArr rows) None.

(* ================================================================== *)
(** * The two selection pages side by side *)
(* ================================================================== *)

(** The handler of the career page that an event of the roadmap generator
    page names. *)
Definition career_event (ev : RoadmapGeneratorPage.Event) : CareerPage.Event :=
  match ev with
  | RoadmapGeneratorPage.AddSkill skill => CareerPage.AddSkill skill
  | RoadmapGeneratorPage.RemoveSkill skill => CareerPage.RemoveSkill skill
  | RoadmapGeneratorPage.AddCustomSkill => CareerPage.AddCustomSkill
  | RoadmapGeneratorPage.AddInterest interest => CareerPage.AddInterest interest
  | RoadmapGeneratorPage.RemoveInterest interest => CareerPage.RemoveInterest interest
  | RoadmapGeneratorPage.AddCustomInterest => CareerPage.AddCustomInterest
  | RoadmapGeneratorPage.SetCustomSkill value => CareerPage.SetCustomSkill value
  | RoadmapGeneratorPage.SetCustomInterest value => CareerPage.SetCustomInterest value
  end.

(** The two pages hold the same selections and the same inputs. *)
Definition same_selection (c : CareerPage.State) (r : RoadmapGeneratorPage.State)
  : Prop :=
  CareerPage.selectedSkills c = RoadmapGeneratorPage.selectedSkills r
  /\ CareerPage.selectedInterests c = RoadmapGeneratorPage.selectedInterests r
  /\ CareerPage.customSkill c = RoadmapGeneratorPage.customSkill r
  /\ CareerPage.customInterest c = RoadmapGeneratorPage.customInterest r.

(* ================================================================== *)
(** * Files and arrays of the browser *)
(* ================================================================== *)

Module Web.

(** What the components read of a [File]. *)
Record File : Type := mkFile { name : string; type : string }.

(** [s.endsWith(suffix)]. *)
Definition endsWith (s suffix : string) : bool :=
  (String.length suffix <=? String.length s)%nat
  && String.eqb
       (substring (String.length s - String.length suffix) (String.length suffix) s)
       suffix.

(** [n.toString()] for an integer, which is also the property key of
    [n]. *)
Definition toString (n : Z) : string := NilZero.string_of_int (Z.to_int n).

(** [l.filter((_, i) => keep(i))], the index counted from [i]. *)
Fixpoint filter_index {A : Type} (keep : nat -> bool) (i : nat) (l : list A) : list A :=
  match l with
  | [] => []
  | x :: rest =>
      if keep i then x :: filter_index keep (S i) rest
      else filter_index keep (S i) rest
  end.

(** [prev.filter((_, i) => i !== index)]. *)
Definition remove_index {A : Type} (index : nat) (prev : list A) : list A :=
  filter_index (fun i => negb (i =? index)%nat) 0 prev.

End Web.

(* ================================================================== *)
(** * components/roadmap-timeline.tsx *)
(* ================================================================== *)

Module RoadmapTimeline.

Record RoadmapStep : Type := mkStep {
  step : Z;
  title : string;
  description : string;
  duration : string;
  skills : list string;
  resources : list string;
  projects : list string
}.

(** The component's [useState] cells.  Step numbers are integers, on
    which [includes] and [!==] are the same comparison. *)
Record State : Type := mkState {
  completedSteps : list Z;
  expandedSteps : list Z
}.

Definition initialState : State := mkState [] [].

(** [prev.includes(stepNumber)]. *)
Definition includes (prev : list Z) (stepNumber : Z) : bool :=
  existsb (fun s => s =? stepNumber) prev.

(** The updater both toggles pass to their setter. *)
Definition toggle (prev : list Z) (stepNumber : Z) : list Z :=
  if includes prev stepNumber
  then filter (fun s => negb (s =? stepNumber)) prev
  else prev ++ [stepNumber].

Definition toggleStepCompletion (stepNumber : Z) (st : State) : State :=
  mkState (toggle (completedSteps st) stepNumber) (expandedSteps st).

Definition toggleStepExpansion (stepNumber : Z) (st : State) : State :=
  mkState (completedSteps st) (toggle (expandedSteps st) stepNumber).

(** The two buttons of the card at position [index] of [steps.map]. *)
Inductive Event : Type :=
| Complete (index : nat)
| Expand (index : nat).

(** A click on a card of the timeline; [None] for a card the timeline
    does not render. *)
Definition click (steps : list RoadmapStep) (st : State) (ev : Event) : option State :=
  match ev with
  | Complete index =>
      match nth_error steps index with
      | Some s => Some (toggleStepCompletion (step s) st)
      | None => None
      end
  | Expand index =>
      match nth_error steps index with
      | Some s => Some (toggleStepExpansion (step s) st)
      | None => None
      end
  end.

Fixpoint clicks (steps : list RoadmapStep) (st : State) (evs : list Event)
  : option State :=
  match evs with
  | [] => Some st
  | ev :: rest =>
      match click steps st ev with
      | Some st' => clicks steps st' rest
      | None => None
      end
  end.

(** [isCompleted] and [isExpanded] of a card. *)
Definition isCompleted (st : State) (s : RoadmapStep) : bool :=
  includes (completedSteps st) (step s).

Definition isExpanded (st : State) (s : RoadmapStep) : bool :=
  includes (expandedSteps st) (step s).

(** The invariant of a list of toggled step numbers. *)
Definition Toggled (steps : list RoadmapStep) (l : list Z) : Prop :=
  NoDup l /\ incl l (map step steps).

End RoadmapTimeline.

(* ================================================================== *)
(** * The lesson display: flashcards and quiz *)
(* ================================================================== *)

Module FlashcardPlayer.

Record Flashcard : Type := mkFlashcard { front : string; back : string }.

Record State : Type := mkState {
  currentIndex : Z;
  isFlipped : bool
}.

Definition initialState : State := mkState 0 false.

(** [(prev + 1) % flashcards.length], for a deck that is not empty (the
    component shows no button for an empty deck). *)
Definition handleNext (flashcards : list Flashcard) (st : State) : State :=
  mkState (Z.rem (currentIndex st + 1) (Z.of_nat (List.length flashcards))) false.

(** The click on the card. *)
Definition flip (st : State) : State :=
  mkState (currentIndex st) (negb (isFlipped st)).

(** [flashcards[currentIndex]]. *)
Definition card (flashcards : list Flashcard) (st : State) : option Flashcard :=
  if currentIndex st <? 0 then None
  else nth_error flashcards (Z.to_nat (currentIndex st)).

Fixpoint presses (flashcards : list Flashcard) (k : nat) (st : State) : State :=
  match k with
  | O => st
  | S k' => presses flashcards k' (handleNext flashcards st)
  end.

End FlashcardPlayer.

Module QuizPlayer.

Record QuizItem : Type := mkQuizItem {
  question : string;
  options : list string;
  answer : string
}.

Record State : Type := mkState {
  currentIndex : Z;
  selectedOption : option string;
  isCorrect : option bool;
  score : Z;
  showResults : bool
}.

Definition initialState : State := mkState 0 None None 0 false.

(** [quizItems[currentIndex]]. *)
Definition currentQuestion (quizItems : list QuizItem) (st : State) : option QuizItem :=
  if currentIndex st <? 0 then None
  else nth_error quizItems (Z.to_nat (currentIndex st)).

(** A selected option is truthy unless it is the empty string. *)
Definition selected (st : State) : bool :=
  match selectedOption st with
  | Some o => negb (String.eqb o "")
  | None => false
  end.

(** [handleOptionSelect]; reading [answer] of a question that does not
    exist throws. *)
Definition handleOptionSelect (quizItems : list QuizItem) (option_ : string)
  (st : State) : Outcome State :=
  if selected st then Return st
  else
    match currentQuestion quizItems st with
    | None => Throw "TypeError: Cannot read properties of undefined"
    | Some q =>
        let correct := String.eqb option_ (answer q) in
        Return (mkState (currentIndex st) (Some option_) (Some correct)
                  (if correct then score st + 1 else score st)
                  (showResults st))
    end.

Definition handleNext (quizItems : list QuizItem) (st : State) : State :=
  if currentIndex st <? Z.of_nat (List.length quizItems) - 1
  then mkState (currentIndex st + 1) None None (score st) (showResults st)
  else mkState (currentIndex st) (selectedOption st) (isCorrect st) (score st) true.

Definition handleRestart (st : State) : State := mkState 0 None None 0 false.

Inductive Event : Type :=
| Select (option_ : string)
| Next
| TryAgain.

(** One click on what the component renders: the results card has only
    "Try Again"; the question card has the options of the current
    question, disabled once one is selected, and the "Next" button only
    after a selection. *)
Definition click (quizItems : list QuizItem) (st : State) (ev : Event) : option State :=
  if showResults st then
    match ev with
    | TryAgain => Some (handleRestart st)
    | _ => None
    end
  else
    match ev with
    | Select o =>
        match currentQuestion quizItems st with
        | Some q =>
            if JS.includes (options q) o && negb (selected st)
            then match handleOptionSelect quizItems o st with
                 | Return st' => Some st'
                 | Throw _ => None
                 end
            else None
        | None => None
        end
    | Next => if selected st then Some (handleNext quizItems st) else None
    | TryAgain => None
    end.

Fixpoint clicks (quizItems : list QuizItem) (st : State) (evs : list Event)
  : option State :=
  match evs with
  | [] => Some st
  | ev :: rest =>
      match click quizItems st ev with
      | Some st' => clicks quizItems st' rest
      | None => None
      end
  end.

(** No option of the quiz is the empty string. *)
Definition options_not_empty (quizItems : list QuizItem) : Prop :=
  Forall (fun q => Forall (fun o => o <> "") (options q)) quizItems.

Definition Inv (quizItems : list QuizItem) (st : State) : Prop :=
  0 <= currentIndex st < Z.of_nat (List.length quizItems)
  /\ 0 <= score st <= currentIndex st + (if selected st then 1 else 0)
  /\ (selectedOption st = None \/ selected st = true)
  /\ (showResults st = true ->
      currentIndex st = Z.of_nat (List.length quizItems) - 1
      /\ selected st = true).

(** A quiz of two questions, and one whose answer is the empty option. *)
Definition two_questions : list QuizItem :=
  [ mkQuizItem "2 + 2" ["3"; "4"] "4";
    mkQuizItem "Capital of France" ["Paris"; "Rome"] "Paris" ].

Definition empty_option_quiz : list QuizItem :=
  [ mkQuizItem "Nothing" [""; "x"] "" ].

End QuizPlayer.

(* ================================================================== *)
(** * The upload card *)
(* ================================================================== *)

Module UploadCard.

(** The cell [uploadedFile], with the calls of [onUpload] and of [alert]
    so far. *)
Record State : Type := mkState {
  uploadedFile : option Web.File;
  uploaded : list Web.File;
  alerts : list string
}.

Definition initialState : State := mkState None [] [].

(** [file]: [event.target.files?.[0]]. *)
Definition handleFileChange (file : option Web.File) (st : State) : State :=
  match file with
  | Some f =>
      if String.eqb (Web.type f) "application/pdf"
      then mkState (Some f) (uploaded st) (alerts st)
      else mkState None (uploaded st) (alerts st ++ ["Please select a PDF file."])
  | None => mkState None (uploaded st) (alerts st ++ ["Please select a PDF file."])
  end.

Definition handleUploadClick (st : State) : State :=
  match uploadedFile st with
  | Some f => mkState (uploadedFile st) (uploaded st ++ [f]) (alerts st)
  | None =>
      mkState (uploadedFile st) (uploaded st)
        (alerts st ++ ["Please choose a PDF file first."])
  end.

Definition handleRemoveFile (st : State) : State :=
  mkState None (uploaded st) (alerts st).

Inductive Event : Type :=
| FileChange (file : option Web.File)
| UploadClick
| RemoveFile.

Definition step (st : State) (ev : Event) : State :=
  match ev with
  | FileChange file => handleFileChange file st
  | UploadClick => handleUploadClick st
  | RemoveFile => handleRemoveFile st
  end.

Definition run (st : State) (evs : list Event) : State := fold_left step evs st.

Definition is_pdf (f : Web.File) : Prop := Web.type f = "application/pdf".

End UploadCard.

(* ================================================================== *)
(** * The learning hub: frontend/app/learn/page.tsx and its chat *)
(* ================================================================== *)

Module ChatInterface.

(** [file.type === "application/pdf" || file.type === "text/plain" ||
    file.name.endsWith(".md")], the filter of [handleFileUpload]. *)
Definition accepted (file : Web.File) : bool :=
  String.eqb (Web.type file) "application/pdf"
  || String.eqb (Web.type file) "text/plain"
  || Web.endsWith (Web.name file) ".md".

Inductive Sender : Type := user | ai.

(** [content] is a string for the user's message and what the backend
    answered for the assistant's; [files] is [undefined] as [None]. *)
Record Message : Type := mkMessage {
  id : string;
  content : JS.Value;
  sender : Sender;
  timestamp : Z;
  files : option (list Web.File)
}.

Record Props : Type := mkProps {
  files_prop : list Web.File;
  selectedLevel : string;
  selectedFramework : string
}.

(** The fields appended to the form data of a request to /api/chat. *)
Record Request : Type := mkRequest {
  message : string;
  level : string;
  framework : string;
  request_files : list Web.File
}.

Record Toast : Type := mkToast {
  title : string;
  description : string;
  variant : string
}.

(** What [Date.now()] and [new Date()] give when a message is built. *)
Record Instant : Type := mkInstant { Date_now : Z; new_Date : Z }.

(** The [useState] cells, with the toasts shown and the requests sent so
    far. *)
Record State : Type := mkState {
  messages : list Message;
  inputMessage : string;
  isLoading : bool;
  uploadedFiles : list Web.File;
  toasts : list Toast;
  requests : list Request
}.

Definition initialState : State := mkState [] "" false [] [] [].

Definition setMessages (f : list Message -> list Message) (st : State) : State :=
  mkState (f (messages st)) (inputMessage st) (isLoading st) (uploadedFiles st)
    (toasts st) (requests st).

Definition setInputMessage (v : string) (st : State) : State :=
  mkState (messages st) v (isLoading st) (uploadedFiles st) (toasts st) (requests st).

Definition setIsLoading (v : bool) (st : State) : State :=
  mkState (messages st) (inputMessage st) v (uploadedFiles st) (toasts st) (requests st).

Definition setUploadedFiles (f : list Web.File -> list Web.File) (st : State) : State :=
  mkState (messages st) (inputMessage st) (isLoading st) (f (uploadedFiles st))
    (toasts st) (requests st).

Definition toast (t : Toast) (st : State) : State :=
  mkState (messages st) (inputMessage st) (isLoading st) (uploadedFiles st)
    (toasts st ++ [t])%list (requests st).

Definition fetch (r : Request) (st : State) : State :=
  mkState (messages st) (inputMessage st) (isLoading st) (uploadedFiles st)
    (toasts st) (requests st ++ [r])%list.

(** The effect on the [files] prop. *)
Definition filesEffect (props : Props) (st : State) : State :=
  setUploadedFiles (fun _ => files_prop props) st.

(** [!inputMessage.trim() && uploadedFiles.length === 0]. *)
Definition nothing_to_send (st : State) : bool :=
  String.eqb (JS.trim (inputMessage st)) ""
  && (List.length (uploadedFiles st) =? 0)%nat.

Definition userMessage (now : Instant) (st : State) : Message :=
  mkMessage (Web.toString (Date_now now)) (JS.JStr (inputMessage st)) user (new_Date now)
    (if (0 <? List.length (uploadedFiles st))%nat
     then Some (uploadedFiles st) else None).

Definition default_answer : string :=
  "I'm here to help you learn! Ask me anything about your uploaded materials.".

(** [data.response || "I'm here to help you learn! ..."]. *)
Definition answer_content (response : option JS.Value) : JS.Value :=
  match response with
  | Some v => if JS.truthy v then v else JS.JStr default_answer
  | None => JS.JStr default_answer
  end.

Definition aiMessage (now : Instant) (response : option JS.Value) : Message :=
  mkMessage (Web.toString (Date_now now + 1)) (answer_content response) ai
    (new_Date now) None.

Definition error_toast : Toast :=
  mkToast "Error" "Failed to send message. Please try again." "destructive".

(** [handleSendMessage] up to its [await fetch]: [None] when it returns
    at once. *)
Definition handleSendMessage_sends (props : Props) (now : Instant) (st : State)
  : option State :=
  if nothing_to_send st then None
  else
    Some (fetch (mkRequest (inputMessage st) (selectedLevel props)
                   (selectedFramework props) (uploadedFiles st))
            (setIsLoading true
               (setUploadedFiles (fun _ => [])
                  (setInputMessage ""
                     (setMessages (fun prev => (prev ++ [userMessage now st])%list) st))))).

(** What the awaited part of the [try] block gives: the answer read off
    the response. *)
Definition awaited (o : FetchOutcome) : Outcome (option JS.Value) :=
  r <- await_fetch o ;;
  if negb (fst r) then Throw "Failed to send message"
  else
    data <- await_json (snd r) ;;
    read_prop data "response".

(** The rest of [handleSendMessage], once the fetch has settled. *)
Definition handleSendMessage_settles (now : Instant) (o : FetchOutcome) (st : State)
  : State :=
  setIsLoading false
    (try_catch
       (response <- awaited o ;;
        Return (setMessages (fun prev => (prev ++ [aiMessage now response])%list) st))
       (fun _ => toast error_toast st)).

(** [handleSendMessage] with nothing happening during the fetch. *)
Definition handleSendMessage (props : Props) (now later : Instant)
  (o : FetchOutcome) (st : State) : State :=
  match handleSendMessage_sends props now st with
  | Some st' => handleSendMessage_settles later o st'
  | None => st
  end.

(** [files]: [e.target.files], [null] as [None]. *)
Definition handleFileUpload (files : option (list Web.File)) (st : State) : State :=
  match files with
  | Some files => setUploadedFiles (fun prev => (prev ++ filter accepted files)%list) st
  | None => st
  end.

Definition removeUploadedFile (index : nat) (st : State) : State :=
  setUploadedFiles (Web.remove_index index) st.

(** What happens to the component: the user types, attaches and removes
    files, sends; the pending fetch settles. *)
Inductive Event : Type :=
| Type_ (v : string)
| Attach (files : option (list Web.File))
| Remove (index : nat)
| Send (now : Instant)
| PressEnter (now : Instant)
| Settle (now : Instant) (o : FetchOutcome).

(** One event on what is rendered: the input, with its Enter key, is
    disabled while a message is being sent, the send button also when
    there is nothing to send; a remove button exists for each attached
    file; only a pending fetch settles. *)
Definition step (props : Props) (st : State) (ev : Event) : option State :=
  match ev with
  | Type_ v => if isLoading st then None else Some (setInputMessage v st)
  | Attach files => Some (handleFileUpload files st)
  | Remove index =>
      if (index <? List.length (uploadedFiles st))%nat
      then Some (removeUploadedFile index st) else None
  | Send now =>
      if isLoading st || nothing_to_send st then None
      else handleSendMessage_sends props now st
  | PressEnter now =>
      if isLoading st then None
      else
        match handleSendMessage_sends props now st with
        | Some st' => Some st'
        | None => Some st
        end
  | Settle now o =>
      if isLoading st then Some (handleSendMessage_settles now o st) else None
  end.

Definition sent_by (who : Sender) (m : Message) : bool :=
  match who, sender m with
  | user, user => true
  | ai, ai => true
  | _, _ => false
  end.

(** The fetch settles with an answer that can be read. *)
Definition answers (o : FetchOutcome) : bool :=
  match o with
  | FetchResponse true (Some data) =>
      match data with
      | JS.JNull => false
      | _ => true
      end
  | _ => false
  end.

End ChatInterface.

Module LearnPage.

(** The filter of the page's own [handleFileUpload]. *)
Definition accepted (file : Web.File) : bool :=
  String.eqb (Web.type file) "application/pdf"
  || String.eqb (Web.type file) "text/plain"
  || Web.endsWith (Web.name file) ".md".

Record Toast : Type := mkToast { title : string; description : string }.

Record State : Type := mkState {
  selectedFiles : list Web.File;
  experienceLevel : string;
  framework : string;
  appliedExperienceLevel : string;
  appliedFramework : string;
  isDragOver : bool;
  isGenerating : bool;
  toasts : list Toast
}.

Definition initialState : State :=
  mkState [] "intermediate" "general" "intermediate" "general" false false [].

Definition setSelectedFiles (f : list Web.File -> list Web.File) (st : State) : State :=
  mkState (f (selectedFiles st)) (experienceLevel st) (framework st)
    (appliedExperienceLevel st) (appliedFramework st) (isDragOver st)
    (isGenerating st) (toasts st).

Definition setExperienceLevel (v : string) (st : State) : State :=
  mkState (selectedFiles st) v (framework st)
    (appliedExperienceLevel st) (appliedFramework st) (isDragOver st)
    (isGenerating st) (toasts st).

Definition setFramework (v : string) (st : State) : State :=
  mkState (selectedFiles st) (experienceLevel st) v
    (appliedExperienceLevel st) (appliedFramework st) (isDragOver st)
    (isGenerating st) (toasts st).

Definition setAppliedExperienceLevel (v : string) (st : State) : State :=
  mkState (selectedFiles st) (experienceLevel st) (framework st)
    v (appliedFramework st) (isDragOver st) (isGenerating st) (toasts st).

Definition setAppliedFramework (v : string) (st : State) : State :=
  mkState (selectedFiles st) (experienceLevel st) (framework st)
    (appliedExperienceLevel st) v (isDragOver st) (isGenerating st) (toasts st).

Definition setIsDragOver (v : bool) (st : State) : State :=
  mkState (selectedFiles st) (experienceLevel st) (framework st)
    (appliedExperienceLevel st) (appliedFramework st) v (isGenerating st) (toasts st).

Definition setIsGenerating (v : bool) (st : State) : State :=
  mkState (selectedFiles st) (experienceLevel st) (framework st)
    (appliedExperienceLevel st) (appliedFramework st) (isDragOver st) v (toasts st).

Definition toast (t : Toast) (st : State) : State :=
  mkState (selectedFiles st) (experienceLevel st) (framework st)
    (appliedExperienceLevel st) (appliedFramework st) (isDragOver st)
    (isGenerating st) (toasts st ++ [t])%list.

Definition handleFileUpload (files : option (list Web.File)) (st : State) : State :=
  match files with
  | Some files => setSelectedFiles (fun prev => (prev ++ filter accepted files)%list) st
  | None => st
  end.

Definition handleDragOver (st : State) : State := setIsDragOver true st.

Definition handleDragLeave (st : State) : State := setIsDragOver false st.

Definition handleDrop (files : option (list Web.File)) (st : State) : State :=
  handleFileUpload files (setIsDragOver false st).

Definition removeFile (index : nat) (st : State) : State :=
  setSelectedFiles (Web.remove_index index) st.

(** [handleGenerateLesson], and the callback of its timer. *)
Definition handleGenerateLesson (st : State) : State := setIsGenerating true st.

Definition generateTimer (st : State) : State :=
  toast (mkToast "Lesson Generated!"
           "Your micro-lesson has been created based on the uploaded files.")
    (setIsGenerating false st).

Definition handleApplySettings (st : State) : State :=
  toast (mkToast "Settings Applied"
           "Your learning settings have been updated for the AI assistant.")
    (setAppliedFramework (framework st)
       (setAppliedExperienceLevel (experienceLevel st) st)).

Definition handleSaveChat (st : State) : State :=
  toast (mkToast "Chat saved" "Your conversation has been saved to your dashboard") st.

Definition handleClearChat (st : State) : State :=
  toast (mkToast "Chat cleared" "All messages have been removed") st.

(** The props the page passes to its [ChatInterface]. *)
Definition chatProps (st : State) : ChatInterface.Props :=
  ChatInterface.mkProps (selectedFiles st) (appliedExperienceLevel st)
    (appliedFramework st).

(** The page with the chat it renders. *)
Record Hub : Type := mkHub { page : State; chat : ChatInterface.State }.

(** After the first render the effect of the chat has copied the (empty)
    [files] prop. *)
Definition initialHub : Hub := mkHub initialState ChatInterface.initialState.

Inductive Event : Type :=
| FileInput (files : option (list Web.File))
| DropFiles (files : option (list Web.File))
| DragOver
| DragLeave
| RemoveFile (index : nat)
| SelectExperienceLevel (v : string)
| TypeFramework (v : string)
| ApplySettings
| GenerateLesson
| GenerateTimer
| SaveChat
| ClearChat
| Chat (ev : ChatInterface.Event).

(** A handler that stores a new [selectedFiles] array makes the effect of
    the chat run; the other handlers leave the array as it is. *)
Definition with_effect (st : State) (c : ChatInterface.State) : option Hub :=
  Some (mkHub st (ChatInterface.filesEffect (chatProps st) c)).

Definition without_effect (st : State) (c : ChatInterface.State) : option Hub :=
  Some (mkHub st c).

(** One event on what the page renders: a remove button exists for each
    selected file, "Generate Lesson" is disabled without files and while
    generating. *)
Definition step (h : Hub) (ev : Event) : option Hub :=
  let st := page h in
  let c := chat h in
  match ev with
  | FileInput (Some files) => with_effect (handleFileUpload (Some files) st) c
  | FileInput None => without_effect (handleFileUpload None st) c
  | DropFiles (Some files) => with_effect (handleDrop (Some files) st) c
  | DropFiles None => without_effect (handleDrop None st) c
  | DragOver => without_effect (handleDragOver st) c
  | DragLeave => without_effect (handleDragLeave st) c
  | RemoveFile index =>
      if (index <? List.length (selectedFiles st))%nat
      then with_effect (removeFile index st) c else None
  | SelectExperienceLevel v => without_effect (setExperienceLevel v st) c
  | TypeFramework v => without_effect (setFramework v st) c
  | ApplySettings => without_effect (handleApplySettings st) c
  | GenerateLesson =>
      if (List.length (selectedFiles st) =? 0)%nat || isGenerating st then None
      else without_effect (handleGenerateLesson st) c
  | GenerateTimer => without_effect (generateTimer st) c
  | SaveChat => without_effect (handleSaveChat st) c
  | ClearChat => without_effect (handleClearChat st) c
  | Chat ev =>
      match ChatInterface.step (chatProps st) c ev with
      | Some c' => Some (mkHub st c')
      | None => None
      end
  end.

Fixpoint run (h : Hub) (evs : list Event) : option Hub :=
  match evs with
  | [] => Some h
  | ev :: rest =>
      match step h ev with
      | Some h' => run h' rest
      | None => None
      end
  end.

(** The files of a message, none for [undefined]. *)
Definition message_files (m : ChatInterface.Message) : list Web.File :=
  match ChatInterface.files m with
  | Some fs => fs
  | None => []
  end.

Definition count_sent (who : ChatInterface.Sender) (c : ChatInterface.State) : nat :=
  List.length (filter (ChatInterface.sent_by who) (ChatInterface.messages c)).

(** What every reachable state of the hub satisfies. *)
Definition Inv (h : Hub) : Prop :=
  Forall (fun f => ChatInterface.accepted f = true) (selectedFiles (page h))
  /\ Forall (fun f => ChatInterface.accepted f = true)
       (ChatInterface.uploadedFiles (chat h))
  /\ Forall (fun m => Forall (fun f => ChatInterface.accepted f = true) (message_files m))
       (ChatInterface.messages (chat h))
  /\ Forall (fun r => Forall (fun f => ChatInterface.accepted f = true)
                        (ChatInterface.request_files r))
       (ChatInterface.requests (chat h))
  /\ count_sent ChatInterface.user (chat h)
     = List.length (ChatInterface.requests (chat h))
  /\ (count_sent ChatInterface.ai (chat h)
      + List.length (ChatInterface.toasts (chat h))
      + (if ChatInterface.isLoading (chat h) then 1 else 0)
      = List.length (ChatInterface.requests (chat h)))%nat.

End LearnPage.

(* ================================================================== *)
(** * app/career/discover/page.tsx *)
(* ================================================================== *)

Module CareerDiscoverPage.

Definition questions : list CareerAssessment.Question :=
  [ CareerAssessment.mkQuestion 1
      "I enjoy working with technology and solving technical problems" "likert";
    CareerAssessment.mkQuestion 2
      "I prefer working independently rather than in large teams" "likert";
    CareerAssessment.mkQuestion 3
      "I like analyzing data to find patterns and insights" "likert";
    CareerAssessment.mkQuestion 4
      "I enjoy creating visual designs and user interfaces" "likert";
    CareerAssessment.mkQuestion 5
      "I'm comfortable presenting ideas to groups of people" "likert";
    CareerAssessment.mkQuestion 6
      "I prefer structured, predictable work environments" "likert";
    CareerAssessment.mkQuestion 7
      "I enjoy mentoring and helping others learn" "likert";
    CareerAssessment.mkQuestion 8
      "I like working on long-term strategic projects" "likert";
    CareerAssessment.mkQuestion 9
      "I'm energized by fast-paced, changing environments" "likert";
    CareerAssessment.mkQuestion 10
      "I prefer hands-on, practical work over theoretical concepts" "likert" ].

Definition likertOptions : list CareerAssessment.Option_ :=
  [ CareerAssessment.mkOption "1" "Strongly Disagree";
    CareerAssessment.mkOption "2" "Disagree";
    CareerAssessment.mkOption "3" "Neutral";
    CareerAssessment.mkOption "4" "Agree";
    CareerAssessment.mkOption "5" "Strongly Agree" ].

(** [Number.parseInt(s)], kept as the string it is applied to. *)
Inductive Parsed : Type := parseInt (s : string).

Record Answer : Type := mkAnswer { question_id : Parsed; rating : Parsed }.

(** The body of the request to /api/career-pathfinder. *)
Record Request : Type := mkRequest {
  user_id : string;
  request_answers : list Answer
}.

(** The [useState] cells, with the alerts shown and the requests sent so
    far.  [answers] is the [Record<number, string>] as the list of its
    entries: an object lists its integer keys in ascending order. *)
Record State : Type := mkState {
  currentStep : Z;
  answers : list (Z * string);
  careers : JS.Value;
  isLoading : bool;
  showResults : bool;
  alerts : list string;
  requests : list Request
}.

Definition initialState : State := mkState 1 [] (JS.JArr []) false false [] [].

Definition setCurrentStep (v : Z) (st : State) : State :=
  mkState v (answers st) (careers st) (isLoading st) (showResults st)
    (alerts st) (requests st).

Definition setAnswers (v : list (Z * string)) (st : State) : State :=
  mkState (currentStep st) v (careers st) (isLoading st) (showResults st)
    (alerts st) (requests st).

Definition setCareers (v : JS.Value) (st : State) : State :=
  mkState (currentStep st) (answers st) v (isLoading st) (showResults st)
    (alerts st) (requests st).

Definition setIsLoading (v : bool) (st : State) : State :=
  mkState (currentStep st) (answers st) (careers st) v (showResults st)
    (alerts st) (requests st).

Definition setShowResults (v : bool) (st : State) : State :=
  mkState (currentStep st) (answers st) (careers st) (isLoading st) v
    (alerts st) (requests st).

Definition alert (text : string) (st : State) : State :=
  mkState (currentStep st) (answers st) (careers st) (isLoading st) (showResults st)
    (alerts st ++ [text])%list (requests st).

Definition fetch (r : Request) (st : State) : State :=
  mkState (currentStep st) (answers st) (careers st) (isLoading st) (showResults st)
    (alerts st) (requests st ++ [r])%list.

(** [{ ...prev, [k]: v }] for a key that is a non-negative integer. *)
Fixpoint assign_key (prev : list (Z * string)) (k : Z) (v : string)
  : list (Z * string) :=
  match prev with
  | [] => [(k, v)]
  | (k', v') :: rest =>
      if k <? k' then (k, v) :: prev
      else if k =? k' then (k, v) :: rest
      else (k', v') :: assign_key rest k v
  end.

Definition handleAnswerChange (questionId : Z) (v : string) (st : State) : State :=
  setAnswers (assign_key (answers st) questionId v) st.

(** [session?.user.id] when it is truthy; the session is given by the id
    of its user, [null] as [None]. *)
Definition session_user_id (session : option string) : option string :=
  match session with
  | Some id => if String.eqb id "" then None else Some id
  | None => None
  end.

(** [Object.entries(answers).map(...)]. *)
Definition entries_parsed (answers : list (Z * string)) : list Answer :=
  map (fun e => mkAnswer (parseInt (Web.toString (fst e))) (parseInt (snd e))) answers.

(** The awaited part of the [try] block: [data.career_matches || []]. *)
Definition awaited (o : FetchOutcome) : Outcome JS.Value :=
  r <- await_fetch o ;;
  if negb (fst r) then Throw "Failed to get career matches"
  else
    data <- await_json (snd r) ;;
    career_matches <- read_prop data "career_matches" ;;
    Return (or_empty_array career_matches).

(** [handleNext]; while it awaits, the page shows no control. *)
Definition handleNext (session : option string) (o : FetchOutcome) (st : State)
  : State :=
  if currentStep st =? Z.of_nat (List.length questions) then
    match session_user_id session with
    | None => alert "Please sign in to get your career matches" st
    | Some id =>
        let sent :=
          fetch (mkRequest id (entries_parsed (answers st))) (setIsLoading true st) in
        setIsLoading false
          (try_catch
             (career_matches <- awaited o ;;
              Return (setShowResults true (setCareers career_matches sent)))
             (fun _ => alert "Failed to get career matches. Please try again." sent))
    end
  else setCurrentStep (currentStep st + 1) st.

Definition handlePrevious (st : State) : State :=
  setCurrentStep (currentStep st - 1) st.

(** The click handler of "Take Assessment Again". *)
Definition takeAssessmentAgain (st : State) : State :=
  setCareers (JS.JArr []) (setAnswers [] (setCurrentStep 1 (setShowResults false st))).

(** [answers[currentStep] !== undefined]. *)
Definition canGoNext (st : State) : bool :=
  match CareerAssessment.answer_get (answers st) (currentStep st) with
  | Some _ => true
  | None => false
  end.

(** [questions[currentStep - 1]]. *)
Definition currentQuestion (st : State) : option CareerAssessment.Question :=
  if currentStep st - 1 <? 0 then None
  else nth_error questions (Z.to_nat (currentStep st - 1)).

Inductive UIEvent : Type :=
| SelectAnswer (v : string)
| Next (o : FetchOutcome)
| Previous
| TakeAssessmentAgain.

(** One event on the screen shown (loading, results or question, tested
    in this order): a radio item carries the value of a Likert option, the
    stepper disables "Previous" on step 1 and "Next" as long as the
    current step has no answer. *)
Definition ui_step (session : option string) (st : State) (ev : UIEvent)
  : option State :=
  if isLoading st then None
  else if showResults st then
    match ev with
    | TakeAssessmentAgain => Some (takeAssessmentAgain st)
    | _ => None
    end
  else
    match currentQuestion st, ev with
    | Some _, SelectAnswer v =>
        if JS.includes (map CareerAssessment.value likertOptions) v
        then Some (handleAnswerChange (currentStep st) v st)
        else None
    | Some _, Next o => if canGoNext st then Some (handleNext session o st) else None
    | Some _, Previous =>
        if currentStep st =? 1 then None else Some (handlePrevious st)
    | _, _ => None
    end.

Fixpoint ui_run (session : option string) (st : State) (evs : list UIEvent)
  : option State :=
  match evs with
  | [] => Some st
  | ev :: rest =>
      match ui_step session st ev with
      | Some st' => ui_run session st' rest
      | None => None
      end
  end.

(** The question of a step has an answer, one of the Likert values. *)
Definition answered (st : State) (k : Z) : Prop :=
  exists v : string,
    CareerAssessment.answer_get (answers st) k = Some v
    /\ In v (map CareerAssessment.value likertOptions).

(** The body of a complete request of the user [id]: the ten questions in
    their order, each with a Likert value. *)
Definition complete_request (id : string) (r : Request) : Prop :=
  user_id r = id
  /\ map question_id (request_answers r)
     = map (fun q => parseInt (Web.toString (CareerAssessment.id q))) questions
  /\ Forall (fun a => exists v, rating a = parseInt v
                        /\ In v (map CareerAssessment.value likertOptions))
       (request_answers r).

(** What every reachable state satisfies. *)
Definition Inv (session : option string) (st : State) : Prop :=
  1 <= currentStep st <= Z.of_nat (List.length questions)
  /\ isLoading st = false
  /\ StronglySorted Z.lt (map fst (answers st))
  /\ (forall k v, In (k, v) (answers st) ->
        1 <= k <= Z.of_nat (List.length questions)
        /\ In v (map CareerAssessment.value likertOptions))
  /\ (forall k, 1 <= k < currentStep st -> answered st k)
  /\ (showResults st = true ->
      requests st <> []
      /\ forall k, 1 <= k <= Z.of_nat (List.length questions) -> answered st k)
  /\ (forall r, In r (requests st) ->
        exists id, session_user_id session = Some id /\ complete_request id r).

(** Answering every question, with "Next" after each answer; the backend
    answers the request of the last "Next". *)
Definition full_discovery (o : FetchOutcome) : list UIEvent :=
  flat_map (fun v => [SelectAnswer v; Next o])
    ["4"; "2"; "5"; "3"; "1"; "4"; "4"; "2"; "5"; "3"].

End CareerDiscoverPage.

(* ================================================================== *)
(** * frontend/components/navbar.tsx *)
(* ================================================================== *)

Module Navbar.

(** [s.startsWith(prefix)]. *)
Fixpoint startsWith (s prefix : string) {struct prefix} : bool :=
  match prefix with
  | EmptyString => true
  | String c prefix' =>
      match s with
      | EmptyString => false
      | String d s' => Ascii.eqb d c && startsWith s' prefix'
      end
  end.

Definition isActive (pathname path : string) : bool :=
  if String.eqb path "/" then String.eqb pathname "/"
  else startsWith pathname path.

(** The [href] of the navigation links, in the order of the bar. *)
Definition links : list string := ["/"; "/learn"; "/career"; "/dashboard"].

(** The links shown as active on a page. *)
Definition active_links (pathname : string) : list string :=
  filter (isActive pathname) links.

End Navbar.

(* ================================================================== *)
(** * Properties *)
(* ================================================================== *)

(** ** Career match *)

Lemma match_GET_careers (request : NextRequest) :
  CareerMatchRoute.careers (body (CareerMatchRoute.GET request))
  = CareerMatchRoute.mockCareers.
Proof. reflexivity. Qed.

Lemma mockCareers_sorted :
  StronglySorted CareerMatchRoute.score_desc CareerMatchRoute.mockCareers.
Proof.
  unfold CareerMatchRoute.mockCareers.
  repeat constructor; unfold CareerMatchRoute.score_desc; simpl; lia.
Qed.

(** C1: for every request the careers returned by the match route are
    sorted by non-increasing match score, and two returned careers with
    equal scores stand in the order they have in the taxonomy table. *)
Theorem match_sorted_desc_stable :
  forall request : NextRequest,
    StronglySorted CareerMatchRoute.score_desc
      (CareerMatchRoute.careers (body (CareerMatchRoute.GET request)))
    /\
    (forall (i j : nat) (a b : CareerMatchRoute.Career),
        (i < j)%nat ->
        nth_error (CareerMatchRoute.careers (body (CareerMatchRoute.GET request))) i = Some a ->
        nth_error (CareerMatchRoute.careers (body (CareerMatchRoute.GET request))) j = Some b ->
        CareerMatchRoute.matchScore a = CareerMatchRoute.matchScore b ->
        exists i' j' : nat,
          (i' < j')%nat
          /\ nth_error CareerMatchRoute.mockCareers i' = Some a
          /\ nth_error CareerMatchRoute.mockCareers j' = Some b).
Proof.
  intro request. rewrite match_GET_careers. split.
  - exact mockCareers_sorted.
  - intros i j a b Hij Ha Hb _. exists i, j. auto.
Qed.

(** C9: the response of the match route does not depend on the request:
    two requests, whatever their [answers] parameter, get the same careers
    (titles, scores, salary ranges, order) and the same status. *)
Theorem match_independent_of_answers :
  forall r1 r2 : NextRequest,
    CareerMatchRoute.GET r1 = CareerMatchRoute.GET r2.
Proof. intros r1 r2. reflexivity. Qed.

(** ** Roadmap *)

(** C2: for every request the roadmap has exactly three milestones, whose
    levels are Foundational, Intermediate, Advanced in that order. *)
Theorem roadmap_three_tiers_in_order :
  forall request : NextRequest,
    let tiers := CareerRoadmapRoute.milestones (body (CareerRoadmapRoute.GET request)) in
    List.length tiers = 3%nat
    /\ map CareerRoadmapRoute.level tiers
       = ["Foundational"; "Intermediate"; "Advanced"]
    /\ map (fun m => CareerRoadmapRoute.tier_of_level (CareerRoadmapRoute.level m)) tiers
       = [ Some CareerRoadmapRoute.foundational;
           Some CareerRoadmapRoute.intermediate;
           Some CareerRoadmapRoute.advanced ].
Proof. intro request. repeat split. Qed.

(** A role that neither the career table of the match route nor the list
    of popular roles knows is not rejected: the route answers 200 with the
    fixed roadmap under the requested name, and a request without a role
    gets the default role "Software Engineer". *)
Lemma roadmap_unknown_role_accepted :
  JS.includes CareerRoadmapRoute.known_roles "Underwater Basket Weaver" = false
  /\ JS.includes CareerPage.popularRoles "Underwater Basket Weaver" = false
  /\ CareerRoadmapRoute.is_failure (CareerRoadmapRoute.GET CareerRoadmapRoute.unknown_role_request) = false
  /\ status (CareerRoadmapRoute.GET CareerRoadmapRoute.unknown_role_request) = 200
  /\ CareerRoadmapRoute.role (body (CareerRoadmapRoute.GET CareerRoadmapRoute.unknown_role_request))
     = "Underwater Basket Weaver"
  /\ CareerRoadmapRoute.milestones (body (CareerRoadmapRoute.GET CareerRoadmapRoute.unknown_role_request))
     = CareerRoadmapRoute.mockMilestones
  /\ CareerRoadmapRoute.is_failure (CareerRoadmapRoute.GET CareerRoadmapRoute.no_role_request) = false
  /\ CareerRoadmapRoute.role (body (CareerRoadmapRoute.GET CareerRoadmapRoute.no_role_request))
     = "Software Engineer".
Proof. repeat split. Qed.

Lemma or_string_given (r d : string) :
  r <> "" -> JS.or_string (Some r) d = r.
Proof.
  intro Hr. unfold JS.or_string.
  destruct (String.eqb_spec r "") as [E | _]; [contradiction | reflexivity].
Qed.

(** The roadmap route never fails. For every request it answers 200 with
    the same three milestones; the roadmap carries the requested role when
    one is given and is not empty, whether or not a table of the program
    knows it, and the default "Software Engineer", the first career of the
    match route, when the parameter is absent or empty. *)
Theorem roadmap_never_fails_role_echoed_or_defaulted :
  forall request : NextRequest,
    status (CareerRoadmapRoute.GET request) = 200
    /\ CareerRoadmapRoute.is_failure (CareerRoadmapRoute.GET request) = false
    /\ CareerRoadmapRoute.milestones (body (CareerRoadmapRoute.GET request))
       = CareerRoadmapRoute.mockMilestones
    /\ (forall r : string,
          searchParams_get (searchParams request) "role" = Some r ->
          r <> "" ->
          CareerRoadmapRoute.role (body (CareerRoadmapRoute.GET request)) = r)
    /\ (searchParams_get (searchParams request) "role" = None
        \/ searchParams_get (searchParams request) "role" = Some "" ->
        CareerRoadmapRoute.role (body (CareerRoadmapRoute.GET request))
        = "Software Engineer").
Proof.
  intro request. repeat split.
  - intros r Hget Hr. cbn. rewrite Hget. now apply or_string_given.
  - intros [Hget | Hget]; cbn; rewrite Hget; reflexivity.
Qed.

Lemma roadmap_never_fails_witness :
  CareerRoadmapRoute.role (body (CareerRoadmapRoute.GET CareerRoadmapRoute.unknown_role_request))
  = "Underwater Basket Weaver"
  /\ CareerRoadmapRoute.role (body (CareerRoadmapRoute.GET CareerRoadmapRoute.no_role_request))
     = "Software Engineer".
Proof.
  split.
  - apply (proj1 (proj2 (proj2 (proj2
      (roadmap_never_fails_role_echoed_or_defaulted CareerRoadmapRoute.unknown_role_request))))).
    + reflexivity.
    + discriminate.
  - apply (proj2 (proj2 (proj2 (proj2
      (roadmap_never_fails_role_echoed_or_defaulted CareerRoadmapRoute.no_role_request))))).
    left. reflexivity.
Defined.

(** ** Skill suggestions *)

Example groupedSkills_keys :
  map fst CareerPage.groupedSkills
  = ["Technology"; "Design"; "Analytics"; "Management"; "Marketing"].
Proof. reflexivity. Qed.

Example available_after_selecting_design :
  map (fun g => (fst g, map CareerPage.name (snd g)))
    (CareerPage.getAvailableSkillSuggestions
       (CareerPage.run CareerPage.initialState
          [ CareerPage.AddSkill "Figma"; CareerPage.AddSkill "UI/UX Design";
            CareerPage.AddSkill "Graphic Design";
            CareerPage.AddSkill "Adobe Creative Suite";
            CareerPage.AddSkill "SQL" ]))
  = [ ("Technology", ["JavaScript"; "Python"; "React"; "Node.js"; "Machine Learning"]);
      ("Analytics", ["Data Analysis"; "Excel"; "Tableau"; "Google Analytics"]);
      ("Management", ["Project Management"; "Leadership"; "Communication"]);
      ("Marketing", ["Digital Marketing"; "SEO"; "Content Writing"]) ].
Proof. reflexivity. Qed.

Lemma includes_false_not_In (l : list string) (x : string) :
  JS.includes l x = false <-> ~ In x l.
Proof.
  unfold JS.includes. split.
  - intros Hf Hin.
    assert (Ht : existsb (fun y => String.eqb y x) l = true).
    { apply existsb_exists. exists x. split; [exact Hin | apply String.eqb_refl]. }
    congruence.
  - intro Hnin. destruct (existsb (fun y => String.eqb y x) l) eqn:E; [ | reflexivity ].
    apply existsb_exists in E. destruct E as [y [Hy Heq]].
    apply String.eqb_eq in Heq. subst y. contradiction.
Qed.

Lemma group_set_all (P : CareerPage.Skill -> Prop) (g : CareerPage.Groups)
  (k : string) (v : list CareerPage.Skill) :
  CareerPage.groups_all P g -> Forall P v -> CareerPage.groups_all P (CareerPage.group_set g k v).
Proof.
  unfold CareerPage.groups_all. intros Hg Hv. induction g as [ | [k' v'] rest IH]; simpl.
  - constructor; [exact Hv | constructor].
  - inversion Hg as [ | ? ? Hhd Htl]; subst.
    destruct (String.eqb k' k); constructor; auto.
Qed.

Lemma keep_available_all (selected : list string) (acc : CareerPage.Groups)
  (entry : string * list CareerPage.Skill) :
  CareerPage.groups_all (fun skill => JS.includes selected (CareerPage.name skill) = false) acc ->
  CareerPage.groups_all (fun skill => JS.includes selected (CareerPage.name skill) = false)
    (CareerPage.keep_available selected acc entry).
Proof.
  intro Hacc. destruct entry as [category skills]. unfold CareerPage.keep_available.
  destruct (0 <? _)%nat; [ | exact Hacc ].
  apply group_set_all; [exact Hacc | ].
  apply Forall_forall. intros skill Hin. apply filter_In in Hin.
  destruct Hin as [_ Hneg]. now apply negb_true_iff in Hneg.
Qed.

Lemma fold_keep_available_all (selected : list string)
  (entries acc : CareerPage.Groups) :
  CareerPage.groups_all (fun skill => JS.includes selected (CareerPage.name skill) = false) acc ->
  CareerPage.groups_all (fun skill => JS.includes selected (CareerPage.name skill) = false)
    (fold_left (CareerPage.keep_available selected) entries acc).
Proof.
  revert acc. induction entries as [ | entry rest IH]; intros acc Hacc; simpl.
  - exact Hacc.
  - apply IH. now apply keep_available_all.
Qed.

Lemma group_set_fresh (g : CareerPage.Groups) (k : string)
  (v : list CareerPage.Skill) :
  ~ In k (map fst g) -> CareerPage.group_set g k v = (g ++ [(k, v)])%list.
Proof.
  induction g as [ | [k' v'] rest IH]; simpl; intro Hk.
  - reflexivity.
  - destruct (String.eqb_spec k' k) as [E | _].
    + exfalso. apply Hk. now left.
    + rewrite IH; [ reflexivity | ]. intro Hin. apply Hk. now right.
Qed.

Lemma keep_available_fresh (selected : list string) (acc : CareerPage.Groups)
  (k : string) (skills : list CareerPage.Skill) :
  ~ In k (map fst acc) ->
  CareerPage.offered (CareerPage.keep_available selected acc (k, skills))
  = (CareerPage.offered acc
     ++ filter (fun skill => negb (JS.includes selected (CareerPage.name skill))) skills)%list
  /\ incl (map fst (CareerPage.keep_available selected acc (k, skills)))
          (k :: map fst acc).
Proof.
  intro Hk. unfold CareerPage.keep_available, CareerPage.offered.
  destruct (filter _ skills) as [ | skill rest ] eqn:E; simpl.
  - rewrite app_nil_r. split; [ reflexivity | ]. intros x Hx. now right.
  - rewrite (group_set_fresh acc k _ Hk). rewrite flat_map_app. simpl.
    rewrite app_nil_r. split; [ reflexivity | ].
    rewrite map_app. simpl. intros x Hx. apply in_app_or in Hx.
    destruct Hx as [Hx | [Hx | []]]; [ now right | now left ].
Qed.

Lemma fold_keep_available_offered (selected : list string)
  (entries acc : CareerPage.Groups) :
  NoDup (map fst entries) ->
  (forall k, In k (map fst entries) -> ~ In k (map fst acc)) ->
  CareerPage.offered (fold_left (CareerPage.keep_available selected) entries acc)
  = (CareerPage.offered acc
     ++ filter (fun skill => negb (JS.includes selected (CareerPage.name skill)))
          (CareerPage.offered entries))%list.
Proof.
  revert acc. induction entries as [ | [k skills] rest IH]; intros acc Hnd Hfresh.
  - simpl. now rewrite app_nil_r.
  - simpl in Hnd. inversion Hnd as [ | ? ? Hk Hrest]; subst.
    assert (Hacc : ~ In k (map fst acc)) by (apply Hfresh; now left).
    destruct (keep_available_fresh selected acc k skills Hacc) as [Hoff Hkeys].
    cbn [fold_left]. rewrite IH.
    + rewrite Hoff. unfold CareerPage.offered at 3. simpl.
      rewrite filter_app, app_assoc. reflexivity.
    + exact Hrest.
    + intros k' Hk' Hin. apply Hkeys in Hin. destruct Hin as [E | Hin].
      * subst k'. contradiction.
      * apply (Hfresh k'); [ now right | exact Hin ].
Qed.

(** The skills offered are the suggestions of the table that are not
    selected, in the order of the table. *)
Lemma suggestions_are_the_unselected (st : CareerPage.State) :
  CareerPage.offered (CareerPage.getAvailableSkillSuggestions st)
  = filter (fun skill =>
              negb (JS.includes (CareerPage.selectedSkills st) (CareerPage.name skill)))
      CareerPage.skillSuggestions.
Proof.
  unfold CareerPage.getAvailableSkillSuggestions.
  rewrite fold_keep_available_offered.
  - reflexivity.
  - rewrite groupedSkills_keys. repeat constructor; simpl; intuition discriminate.
  - intros k _ [].
Qed.

(** C4: whatever skills are selected, no group returned by
    [getAvailableSkillSuggestions] holds a skill whose name is among the
    selected skills. *)
Theorem suggestions_exclude_selected :
  forall st : CareerPage.State,
    Forall (fun group =>
              Forall (fun skill =>
                        ~ In (CareerPage.name skill) (CareerPage.selectedSkills st))
                     (snd group))
           (CareerPage.getAvailableSkillSuggestions st).
Proof.
  intro st. unfold CareerPage.getAvailableSkillSuggestions.
  assert (H : CareerPage.groups_all
                (fun skill => JS.includes (CareerPage.selectedSkills st)
                                (CareerPage.name skill) = false)
                (fold_left (CareerPage.keep_available (CareerPage.selectedSkills st))
                   CareerPage.groupedSkills [])).
  { apply fold_keep_available_all. constructor. }
  unfold CareerPage.groups_all in H.
  eapply Forall_impl; [ | exact H ].
  intros entry Hentry. eapply Forall_impl; [ | exact Hentry ].
  intros skill Hskill. now apply includes_false_not_In.
Qed.

(** C8: the suggestions are a function of the selections alone. Two
    states of the page that agree on the selected skills and interests,
    however they differ in the other cells (answers, step, custom input,
    target role), get the same skill groups and the same interests. *)
Theorem suggestions_deterministic :
  forall st1 st2 : CareerPage.State,
    CareerPage.selectedSkills st1 = CareerPage.selectedSkills st2 ->
    CareerPage.selectedInterests st1 = CareerPage.selectedInterests st2 ->
    CareerPage.getAvailableSkillSuggestions st1
    = CareerPage.getAvailableSkillSuggestions st2
    /\ CareerPage.getAvailableInterestSuggestions st1
       = CareerPage.getAvailableInterestSuggestions st2.
Proof.
  intros st1 st2 Hskills Hinterests.
  unfold CareerPage.getAvailableSkillSuggestions,
    CareerPage.getAvailableInterestSuggestions.
  rewrite Hskills, Hinterests. split; reflexivity.
Qed.

Lemma suggestions_deterministic_witness :
  CareerPage.getAvailableSkillSuggestions
    (CareerPage.mkState false 0 [] false false ["React"; "SQL"] ["Design"] "" "" "")
  = CareerPage.getAvailableSkillSuggestions
      (CareerPage.mkState true 7 [(1, "4"); (2, "5")] true false ["React"; "SQL"]
         ["Design"] "  Rust" "Chess" "Data Scientist")
  /\ CareerPage.getAvailableInterestSuggestions
       (CareerPage.mkState false 0 [] false false ["React"; "SQL"] ["Design"] "" "" "")
     = CareerPage.getAvailableInterestSuggestions
         (CareerPage.mkState true 7 [(1, "4"); (2, "5")] true false ["React"; "SQL"]
            ["Design"] "  Rust" "Chess" "Data Scientist").
Proof.
  apply (suggestions_deterministic
           (CareerPage.mkState false 0 [] false false ["React"; "SQL"] ["Design"] "" "" "")
           (CareerPage.mkState true 7 [(1, "4"); (2, "5")] true false ["React"; "SQL"]
              ["Design"] "  Rust" "Chess" "Data Scientist"));
    reflexivity.
Defined.

(** ** Selections *)

Lemma NoDup_push (l : list string) (x : string) :
  NoDup l -> JS.includes l x = false -> NoDup (l ++ [x]).
Proof.
  intros Hl Hx. apply includes_false_not_In in Hx.
  induction l as [ | y l IH]; simpl.
  - constructor; [ intros [] | constructor ].
  - inversion Hl as [ | ? ? Hy Hl']; subst. constructor.
    + intro Hin. apply in_app_or in Hin. destruct Hin as [Hin | [Heq | []]].
      * contradiction.
      * subst y. apply Hx. now left.
    + apply IH; [ exact Hl' | ]. intro Hin. apply Hx. now right.
Qed.

(** An append guarded by [includes] keeps both lists free of duplicates;
    so does a handler that leaves them alone. *)
Ltac guarded_push :=
  match goal with
  | |- context [ JS.includes ?l ?x ] =>
      let E := fresh "E" in
      destruct (JS.includes l x) eqn:E; simpl;
      [ now split | split; first [ assumption | now apply NoDup_push ] ]
  end.

Ltac custom_push :=
  match goal with
  | |- context [ CareerPage.nonempty ?s ] =>
      destruct (CareerPage.nonempty s); simpl; [ guarded_push | now split ]
  end.

Lemma career_page_step_no_duplicates (st : CareerPage.State) (ev : CareerPage.Event) :
  CareerPage.no_duplicates st -> CareerPage.no_duplicates (CareerPage.step st ev).
Proof.
  intros [Hs Hi]. unfold CareerPage.no_duplicates.
  destruct ev as [skill | skill | | interest | interest | | value | value | value]; simpl.
  - unfold CareerPage.addSkill. guarded_push.
  - split; [ now apply NoDup_filter | exact Hi ].
  - unfold CareerPage.addCustomSkill. custom_push.
  - unfold CareerPage.addInterest. guarded_push.
  - split; [ exact Hs | now apply NoDup_filter ].
  - unfold CareerPage.addCustomInterest. custom_push.
  - now split.
  - now split.
  - now split.
Qed.

Lemma roadmap_generator_step_no_duplicates
  (st : RoadmapGeneratorPage.State) (ev : RoadmapGeneratorPage.Event) :
  RoadmapGeneratorPage.no_duplicates st ->
  RoadmapGeneratorPage.no_duplicates (RoadmapGeneratorPage.step st ev).
Proof.
  intros [Hs Hi]. unfold RoadmapGeneratorPage.no_duplicates.
  destruct ev as [skill | skill | | interest | interest | | value | value]; simpl.
  - unfold RoadmapGeneratorPage.addSkill. guarded_push.
  - split; [ now apply NoDup_filter | exact Hi ].
  - unfold RoadmapGeneratorPage.addCustomSkill. custom_push.
  - unfold RoadmapGeneratorPage.addInterest. guarded_push.
  - split; [ exact Hs | now apply NoDup_filter ].
  - unfold RoadmapGeneratorPage.addCustomInterest. custom_push.
  - now split.
  - now split.
Qed.

(** Every state either page reaches from its initial state is free of
    duplicates. *)
Lemma career_page_run_no_duplicates (evs : list CareerPage.Event) (st : CareerPage.State) :
  CareerPage.no_duplicates st -> CareerPage.no_duplicates (CareerPage.run st evs).
Proof.
  revert st. induction evs as [ | ev evs IH]; intros st Hst; simpl.
  - exact Hst.
  - apply IH. now apply career_page_step_no_duplicates.
Qed.

Lemma career_page_reachable_no_duplicates (evs : list CareerPage.Event) :
  CareerPage.no_duplicates (CareerPage.run CareerPage.initialState evs).
Proof.
  apply career_page_run_no_duplicates. split; constructor.
Qed.

(** C7: on both pages, from a state whose selected skills and selected
    interests have no duplicates, every handler (addSkill, addCustomSkill,
    addInterest, addCustomInterest, removeSkill, removeInterest, and the
    setters of the input cells) leads to a state without duplicates. *)
Theorem selections_no_duplicates_preserved :
  (forall (st : CareerPage.State) (ev : CareerPage.Event),
      CareerPage.no_duplicates st -> CareerPage.no_duplicates (CareerPage.step st ev))
  /\
  (forall (st : RoadmapGeneratorPage.State) (ev : RoadmapGeneratorPage.Event),
      RoadmapGeneratorPage.no_duplicates st ->
      RoadmapGeneratorPage.no_duplicates (RoadmapGeneratorPage.step st ev)).
Proof.
  split.
  - exact career_page_step_no_duplicates.
  - exact roadmap_generator_step_no_duplicates.
Qed.

Lemma selections_no_duplicates_witness :
  CareerPage.no_duplicates
    (CareerPage.step
       (CareerPage.mkState false 0 [] false false ["React"; "SQL"] ["Design"]
          " React " "" "")
       CareerPage.AddCustomSkill)
  /\ RoadmapGeneratorPage.no_duplicates
       (RoadmapGeneratorPage.step
          (RoadmapGeneratorPage.mkState ["React"; "SQL"] ["Design"] "" "" "" "" "")
          (RoadmapGeneratorPage.AddSkill "Figma")).
Proof.
  split.
  - apply (proj1 selections_no_duplicates_preserved).
    split; simpl; repeat constructor; simpl; intuition discriminate.
  - apply (proj2 selections_no_duplicates_preserved).
    split; simpl; repeat constructor; simpl; intuition discriminate.
Defined.

Example trim_custom_skill : JS.trim "  React Native 	" = "React Native".
Proof. reflexivity. Qed.

Example add_custom_duplicate_ignored :
  CareerPage.selectedSkills
    (CareerPage.step
       (CareerPage.mkState false 0 [] false false ["React"; "SQL"] ["Design"]
          " React " "" "")
       CareerPage.AddCustomSkill)
  = ["React"; "SQL"].
Proof. reflexivity. Qed.

(** ** The skills list *)

Example skills_union_example :
  SkillsRoute.skills (body (SkillsRoute.GET
    (FetchResponse true (Some (JS.JObj [("skills", JS.JArr [JS.JStr "Go"; JS.JStr "React"; JS.JStr "Go"])])))
    (FetchResponse true (Some (JS.JArr [JS.JStr "React"; JS.JStr "Vue"])))))
  = [JS.JStr "Go"; JS.JStr "React"; JS.JStr "Vue"].
Proof. reflexivity. Qed.

Example skills_unreachable_example :
  SkillsRoute.GET FetchRejects FetchRejects
  = mkResponse 500 (SkillsRoute.mkBody SkillsRoute.fallbackSkills).
Proof. reflexivity. Qed.



Lemma same_value_zero_sym (a b : JS.Value) :
  SkillsRoute.same_value_zero a b = SkillsRoute.same_value_zero b a.
Proof.
  destruct a, b; simpl; try reflexivity.
  - destruct b, b0; reflexivity.
  - destruct (Qeq_bool q q0) eqn:E1, (Qeq_bool q0 q) eqn:E2; try reflexivity.
    + apply Qeq_bool_iff in E1. symmetry in E1. apply Qeq_bool_iff in E1. congruence.
    + apply Qeq_bool_iff in E2. symmetry in E2. apply Qeq_bool_iff in E2. congruence.
  - apply String.eqb_sym.
Qed.

Lemma Distinct_push (l : list JS.Value) (x : JS.Value) :
  SkillsRoute.Distinct l ->
  existsb (SkillsRoute.same_value_zero x) l = false ->
  SkillsRoute.Distinct (l ++ [x]).
Proof.
  intros Hl. induction Hl as [ | y l Hy Hl IH]; intro Hx; simpl.
  - constructor; [ reflexivity | constructor ].
  - simpl in Hx. apply orb_false_iff in Hx. destruct Hx as [Hxy Hxl].
    constructor.
    + rewrite existsb_app, Hy. simpl.
      rewrite same_value_zero_sym, Hxy. reflexivity.
    + now apply IH.
Qed.

Lemma Set_add_Distinct (l : list JS.Value) (x : JS.Value) :
  SkillsRoute.Distinct l -> SkillsRoute.Distinct (SkillsRoute.Set_add l x).
Proof.
  intro Hl. unfold SkillsRoute.Set_add.
  destruct (existsb (SkillsRoute.same_value_zero x) l) eqn:E.
  - exact Hl.
  - now apply Distinct_push.
Qed.

Lemma fold_Set_add_Distinct (items acc : list JS.Value) :
  SkillsRoute.Distinct acc -> SkillsRoute.Distinct (fold_left SkillsRoute.Set_add items acc).
Proof.
  revert acc. induction items as [ | x items IH]; intros acc Hacc; simpl.
  - exact Hacc.
  - apply IH. now apply Set_add_Distinct.
Qed.

Lemma Array_from_Set_Distinct (items : list JS.Value) :
  SkillsRoute.Distinct (SkillsRoute.Array_from_Set items).
Proof. apply fold_Set_add_Distinct. constructor. Qed.


Lemma Distinct_strings_NoDup (l : list JS.Value) :
  Forall SkillsRoute.is_string l -> SkillsRoute.Distinct l -> NoDup l.
Proof.
  intros Hstr Hl. induction Hl as [ | x l Hx Hl IH].
  - constructor.
  - inversion Hstr as [ | ? ? Hsx Hsl]; subst. constructor.
    + intro Hin.
      assert (Ht : existsb (SkillsRoute.same_value_zero x) l = true).
      { apply existsb_exists. exists x. split; [ exact Hin | ].
        destruct x; simpl in Hsx; try contradiction. simpl. apply String.eqb_refl. }
      congruence.
    + now apply IH.
Qed.


(** ** The write endpoints *)

Lemma truthy_opt_false_iff (o : option JS.Value) :
  JS.truthy_opt o = false <-> Falsy o.
Proof.
  split.
  - destruct o as [ [ | b | q | s | items | props ] | ]; simpl; intro H;
      try discriminate; try constructor.
    + subst b. constructor.
    + apply negb_false_iff in H. now apply Qeq_bool_iff in H.
    + apply negb_false_iff in H. apply String.eqb_eq in H. subst s. constructor.
  - intro H. destruct H; simpl; try reflexivity.
    apply negb_false_iff. now apply Qeq_bool_iff.
Qed.

Lemma num_is_zero (z : Z) : Qeq_bool (inject_Z z) 0 = true <-> z = 0.
Proof.
  rewrite Qeq_bool_iff. unfold Qeq, inject_Z. simpl. lia.
Qed.

Lemma string_length_zero (s : string) : Z.of_nat (String.length s) = 0 -> s = "".
Proof. destruct s; simpl; [ reflexivity | lia ]. Qed.

Lemma list_length_zero {A : Type} (l : list A) : Z.of_nat (List.length l) = 0 -> l = [].
Proof. destruct l; simpl; [ reflexivity | lia ]. Qed.

Lemma messages_rejected_iff (messages : option JS.Value) :
  negb (JS.truthy_opt messages)
  || JS.strict_eq_zero (ChatSaveRoute.messages_length messages) = true
  <-> Falsy messages \/ EmptyLength messages.
Proof.
  split.
  - intro H. apply orb_true_iff in H. destruct H as [H | H].
    + left. apply truthy_opt_false_iff. now apply negb_true_iff in H.
    + destruct messages as [ [ | b | q | s | items | props ] | ]; simpl in H;
        try discriminate.
      * apply num_is_zero in H. apply string_length_zero in H. subst s.
        left. constructor.
      * apply num_is_zero in H. apply list_length_zero in H. subst items.
        right. constructor.
      * destruct (JS.lookup "length" props) as [ [ | | q | | | ] | ] eqn:E;
          try discriminate.
        right. apply EmptyLength_object with (q := q); [ exact E | ].
        now apply Qeq_bool_iff.
  - intros [H | H].
    + apply truthy_opt_false_iff in H. rewrite H. reflexivity.
    + destruct H as [ | props q Hlookup Hq ]; simpl.
      * reflexivity.
      * rewrite Hlookup. now apply Qeq_bool_iff.
Qed.





Lemma json_body_cases (req : NextRequest) :
  (json_body req = None \/ json_body req = Some JS.JNull)
  \/ exists data, json_body req = Some data /\ data <> JS.JNull.
Proof.
  destruct (json_body req) as [ data | ]; [ | now left; left ].
  destruct data; try (right; eexists; split; [ reflexivity | discriminate ]).
  left. now right.
Qed.


Lemma lesson_save_status
  (insert : string -> list JS.Value -> LessonSaveRoute.InsertOutcome)
  (req : NextRequest) (data : JS.Value) :
  json_body req = Some data -> data <> JS.JNull ->
  exists resp : NextResponse JS.Value,
    LessonSaveRoute.POST insert req = Return resp
    /\ (status resp = 400 <->
        Falsy (JS.getProp data "lesson_id")
        \/ Falsy (JS.getProp data "user_id")
        \/ Falsy (JS.getProp data "file_name"))
    /\ (status resp = 500 <->
        JS.truthy_opt (JS.getProp data "lesson_id") = true
        /\ JS.truthy_opt (JS.getProp data "user_id") = true
        /\ JS.truthy_opt (JS.getProp data "file_name") = true
        /\ LessonSaveRoute.insert_failed
             (insert "user_lessons" [LessonSaveRoute.row data]))
    /\ has_message_or_error (body resp) = true.
Proof.
  intros E Hnull. unfold LessonSaveRoute.POST. rewrite E.
  assert (Hd : destructure data = Return data).
  { destruct data; try reflexivity. contradiction. }
  simpl. rewrite Hd. simpl.
  destruct (JS.truthy_opt (JS.getProp data "lesson_id")) eqn:E1;
    destruct (JS.truthy_opt (JS.getProp data "user_id")) eqn:E2;
    destruct (JS.truthy_opt (JS.getProp data "file_name")) eqn:E3; simpl;
    try (eexists; split; [ reflexivity | ]; simpl; split; [ | split; [ | reflexivity ] ];
         [ rewrite <- !truthy_opt_false_iff; intuition congruence
         | intuition congruence ]).
  eexists; split; [ reflexivity | ].
  destruct (insert "user_lessons" [LessonSaveRoute.row data])
    as [ message | d [ message | ] ]; simpl.
  - split; [ | split ].
    + rewrite <- !truthy_opt_false_iff. intuition congruence.
    + intuition congruence.
    + destruct message; reflexivity.
  - split; [ | split ].
    + rewrite <- !truthy_opt_false_iff. intuition congruence.
    + intuition congruence.
    + reflexivity.
  - split; [ | split ].
    + rewrite <- !truthy_opt_false_iff. intuition congruence.
    + intuition congruence.
    + reflexivity.
Qed.






(** ** Dashboard and interests under an unreachable backend *)

Lemma helper_unavailable (o : FetchOutcome) (msg : string) :
  DashboardPage.unavailable o ->
  try_catch
    (response <- await_fetch o ;;
     let '(ok, json) := response in
     if negb ok then Throw msg else await_json json)
    (fun error => JS.JNull)
  = JS.JNull.
Proof.
  destruct o as [ | ok json ]; simpl; [ reflexivity | ].
  intros [H | H]; subst; [ reflexivity | ].
  destruct ok; reflexivity.
Qed.

Lemma combine_unavailable (progressFetch recommendationsFetch : FetchOutcome) :
  DashboardPage.unavailable progressFetch ->
  DashboardPage.unavailable recommendationsFetch ->
  DashboardPage.combine
    (DashboardPage.settle (DashboardPage.getUserProgress progressFetch))
    (DashboardPage.settle (DashboardPage.getRecommendations recommendationsFetch))
  = DashboardPage.generateMockData.
Proof.
  intros Hp Hr. unfold DashboardPage.getUserProgress, DashboardPage.getRecommendations.
  rewrite (helper_unavailable _ _ Hp), (helper_unavailable _ _ Hr). reflexivity.
Qed.

Lemma combine_empty_answer :
  DashboardPage.combine
    (DashboardPage.settle (DashboardPage.getUserProgress DashboardPage.empty_answer))
    (DashboardPage.settle (DashboardPage.getRecommendations DashboardPage.empty_answer))
  = DashboardPage.generateMockData.
Proof. vm_compute. reflexivity. Qed.

Lemma no_user_given (id : string) :
  id <> "" -> DashboardPage.no_user (Some id) = false.
Proof.
  intro H. simpl. destruct (String.eqb_spec id "") as [E | _]; [ contradiction | reflexivity ].
Qed.


(** The [try] block of [fetchDashboardData] never throws, so its [catch]
    branch, the only place of the "Using Demo Data" toast, is never
    taken: the toasts shown are at most "Dashboard Updated". *)
Lemma fetchDashboardData_toasts
  (session_user_id : option string) (progressFetch recommendationsFetch : FetchOutcome)
  (showRefreshToast : bool) (ui : DashboardPage.UI) :
  DashboardPage.toasts
    (DashboardPage.run
       (DashboardPage.fetchDashboardData session_user_id progressFetch
          recommendationsFetch showRefreshToast) ui)
  = (DashboardPage.toasts ui
     ++ (if DashboardPage.no_user session_user_id then []
         else if showRefreshToast then [DashboardPage.updated_toast] else []))%list.
Proof.
  unfold DashboardPage.fetchDashboardData, DashboardPage.run.
  destruct (DashboardPage.no_user session_user_id); cbn.
  - now rewrite app_nil_r.
  - destruct showRefreshToast; cbn; rewrite ?app_nil_r; reflexivity.
Qed.

Lemma fetchDashboardData_unavailable
  (id : string) (progressFetch recommendationsFetch : FetchOutcome)
  (showRefreshToast : bool) (ui : DashboardPage.UI) :
  id <> "" ->
  DashboardPage.unavailable progressFetch ->
  DashboardPage.unavailable recommendationsFetch ->
  DashboardPage.fetchDashboardData (Some id) progressFetch recommendationsFetch
    showRefreshToast ui
  = (Return tt,
     DashboardPage.mkUI (Some DashboardPage.generateMockData) false None false
       (DashboardPage.toasts ui
        ++ (if showRefreshToast then [DashboardPage.updated_toast] else []))).
Proof.
  intros Hid Hp Hr. unfold DashboardPage.fetchDashboardData.
  rewrite (no_user_given id Hid). cbv zeta.
  rewrite (combine_unavailable _ _ Hp Hr).
  destruct showRefreshToast; cbn; rewrite ?app_nil_r; reflexivity.
Qed.

(** When neither dashboard request can be used (the fetch rejects, the
    status is not ok, or the body is not JSON), [fetchDashboardData] for a
    signed-in user completes normally: it does not throw, the page holds
    exactly the mock data, no error is set, and the page is neither
    loading nor refreshing. The interests route answers an upstream
    failure with its fallback list: with status 200 and the mark
    [source: "fallback"] when the upstream status is not ok, with status
    500 when the fetch rejects. *)
Theorem unreachable_backend_degrades_to_mock :
  forall (id : string) (progressFetch recommendationsFetch : FetchOutcome)
         (showRefreshToast : bool) (ui : DashboardPage.UI),
    id <> "" ->
    DashboardPage.unavailable progressFetch ->
    DashboardPage.unavailable recommendationsFetch ->
    (fst (DashboardPage.fetchDashboardData (Some id) progressFetch
            recommendationsFetch showRefreshToast ui) = Return tt
     /\ DashboardPage.dashboardData
          (DashboardPage.run
             (DashboardPage.fetchDashboardData (Some id) progressFetch
                recommendationsFetch showRefreshToast) ui)
        = Some DashboardPage.generateMockData
     /\ DashboardPage.error
          (DashboardPage.run
             (DashboardPage.fetchDashboardData (Some id) progressFetch
                recommendationsFetch showRefreshToast) ui)
        = None
     /\ DashboardPage.loading
          (DashboardPage.run
             (DashboardPage.fetchDashboardData (Some id) progressFetch
                recommendationsFetch showRefreshToast) ui)
        = false
     /\ DashboardPage.isRefreshing
          (DashboardPage.run
             (DashboardPage.fetchDashboardData (Some id) progressFetch
                recommendationsFetch showRefreshToast) ui)
        = false)
    /\ (status (InterestsRoute.GET FetchRejects) = 500
        /\ JS.getProp (body (InterestsRoute.GET FetchRejects)) "interests"
           = Some (JS.JArr InterestsRoute.fallbackInterests))
    /\ (forall json : option JS.Value,
          InterestsRoute.GET (FetchResponse false json)
          = mkResponse 200
              (JS.JObj [("interests", JS.JArr InterestsRoute.fallbackInterests);
                        ("source", JS.JStr "fallback")])).
Proof.
  intros id progressFetch recommendationsFetch showRefreshToast ui Hid Hp Hr.
  split; [ | split ].
  - unfold DashboardPage.run.
    rewrite (fetchDashboardData_unavailable id _ _ showRefreshToast ui Hid Hp Hr).
    repeat split.
  - split; reflexivity.
  - intro json. reflexivity.
Qed.

Lemma unreachable_backend_witness :
  DashboardPage.dashboardData
    (DashboardPage.run
       (DashboardPage.fetchDashboardData (Some "user-1") FetchRejects
          (FetchResponse false None) false) DashboardPage.initialUI)
  = Some DashboardPage.generateMockData.
Proof.
  apply (proj1 (proj2 (proj1
    (unreachable_backend_degrades_to_mock "user-1" FetchRejects
       (FetchResponse false None) false DashboardPage.initialUI
       ltac:(discriminate) I (or_introl eq_refl))))).
Defined.

(* ================================================================== *)
(** * Further properties *)
(* ================================================================== *)

(** ** The assessment *)

Example full_assessment_shows_results :
  option_map CareerAssessment.screen
    (CareerAssessment.ui_run CareerPage.initialState CareerAssessment.full_assessment)
  = Some CareerAssessment.ResultsScreen.
Proof. vm_compute. reflexivity. Qed.

Example next_disabled_without_answer :
  CareerAssessment.ui_run CareerPage.initialState
    [CareerAssessment.TakeTheQuiz; CareerAssessment.Next]
  = None.
Proof. reflexivity. Qed.

Lemma answer_get_set_same (answers : list (Z * string)) (k : Z) (v : string) :
  CareerAssessment.answer_get (CareerAssessment.answer_set answers k v) k = Some v.
Proof.
  induction answers as [ | [k' v'] rest IH]; simpl.
  - now rewrite Z.eqb_refl.
  - destruct (k' =? k) eqn:E; simpl; rewrite E; [ reflexivity | exact IH ].
Qed.

Lemma answer_get_set_other (answers : list (Z * string)) (k k' : Z) (v : string) :
  k' <> k ->
  CareerAssessment.answer_get (CareerAssessment.answer_set answers k v) k'
  = CareerAssessment.answer_get answers k'.
Proof.
  intro Hk. induction answers as [ | [k0 v0] rest IH]; simpl.
  - destruct (Z.eqb_spec k k'); [ congruence | reflexivity ].
  - destruct (Z.eqb_spec k0 k) as [E | E]; simpl.
    + subst k0. destruct (Z.eqb_spec k k'); [ congruence | reflexivity ].
    + destruct (k0 =? k'); [ reflexivity | exact IH ].
Qed.

Lemma answered_same_answers (st st' : CareerPage.State) (q : CareerAssessment.Question) :
  CareerPage.answers st' = CareerPage.answers st ->
  CareerAssessment.answered st q -> CareerAssessment.answered st' q.
Proof. unfold CareerAssessment.answered. intros E H. now rewrite E. Qed.

Lemma answered_after_answer (st : CareerPage.State) (k : Z) (v : string)
  (q : CareerAssessment.Question) :
  In v (map CareerAssessment.value CareerAssessment.likertOptions) ->
  CareerAssessment.answered st q ->
  CareerAssessment.answered (CareerAssessment.handleAnswerChange k v st) q.
Proof.
  intros Hv [v0 [Hget Hv0]]. unfold CareerAssessment.answered. cbn.
  destruct (Z.eq_dec (CareerAssessment.id q) k) as [E | E].
  - exists v. rewrite E, answer_get_set_same. now split.
  - exists v0. rewrite answer_get_set_other; [ now split | exact E ].
Qed.

(** The handlers of the tabs leave the cells of the assessment alone. *)
Lemma tab_keeps_assessment (st : CareerPage.State) (ev : CareerPage.Event) :
  CareerPage.showAssessment (CareerPage.step st ev) = CareerPage.showAssessment st
  /\ CareerPage.currentStep (CareerPage.step st ev) = CareerPage.currentStep st
  /\ CareerPage.answers (CareerPage.step st ev) = CareerPage.answers st
  /\ CareerPage.showResults (CareerPage.step st ev) = CareerPage.showResults st
  /\ CareerPage.isLoading (CareerPage.step st ev) = CareerPage.isLoading st.
Proof.
  destruct ev; simpl;
    unfold CareerPage.addSkill, CareerPage.addCustomSkill, CareerPage.addInterest,
      CareerPage.addCustomInterest;
    repeat match goal with
           | |- context [ if ?b then _ else _ ] => destruct b
           end;
    repeat split.
Qed.

Lemma screen_flags (st : CareerPage.State) :
  match CareerAssessment.screen st with
  | CareerAssessment.LoadingScreen => CareerPage.isLoading st = true
  | CareerAssessment.ResultsScreen =>
      CareerPage.isLoading st = false /\ CareerPage.showResults st = true
  | CareerAssessment.QuestionsScreen =>
      CareerPage.isLoading st = false /\ CareerPage.showResults st = false
      /\ CareerPage.showAssessment st = true
  | CareerAssessment.MainScreen =>
      CareerPage.isLoading st = false /\ CareerPage.showResults st = false
      /\ CareerPage.showAssessment st = false
  end.
Proof.
  unfold CareerAssessment.screen.
  destruct (CareerPage.isLoading st), (CareerPage.showResults st),
    (CareerPage.showAssessment st); repeat split.
Qed.

Lemma canGoNext_answered (st : CareerPage.State) :
  CareerAssessment.Inv st ->
  CareerAssessment.canGoNext st = true ->
  exists q : CareerAssessment.Question,
    nth_error CareerAssessment.assessmentQuestions (Z.to_nat (CareerPage.currentStep st))
    = Some q
    /\ CareerAssessment.answered st q.
Proof.
  intros [[Hlo _] [_ [_ Hlikert]]] Hcan.
  unfold CareerAssessment.canGoNext, CareerAssessment.currentQuestion in Hcan.
  destruct (Z.ltb_spec (CareerPage.currentStep st) 0) as [Hneg | _]; [ lia | ].
  destruct (nth_error _ _) as [ q | ]; [ | discriminate ].
  destruct (CareerAssessment.answer_get (CareerPage.answers st) (CareerAssessment.id q))
    as [ v | ] eqn:Hget; [ | discriminate ].
  exists q. split; [ reflexivity | ]. exists v. split; [ exact Hget | ].
  now apply (Hlikert (CareerAssessment.id q)).
Qed.

Lemma Inv_initial : CareerAssessment.Inv CareerPage.initialState.
Proof.
  unfold CareerAssessment.Inv. simpl.
  split; [ lia | split; [ | split ] ].
  - intros i q Hi. lia.
  - intros [H | H]; discriminate.
  - intros k v H. discriminate.
Qed.

Lemma Inv_step (st st' : CareerPage.State) (ev : CareerAssessment.UIEvent) :
  CareerAssessment.Inv st ->
  CareerAssessment.ui_step st ev = Some st' ->
  CareerAssessment.Inv st'.
Proof.
  intros HInv Hstep. pose proof HInv as [Hrange [Hbefore [Hall Hlikert]]].
  cbn in Hrange. pose proof (screen_flags st) as Hflags.
  unfold CareerAssessment.ui_step in Hstep.
  destruct (CareerAssessment.screen st) eqn:Hscr; destruct ev; try discriminate.
  - (* the timer *)
    injection Hstep as <-.
    split; [ exact Hrange | split; [ | split; [ | exact Hlikert ] ] ].
    + intros i q Hi Hnth.
      apply answered_same_answers with (st := st); [ reflexivity | ].
      now apply (Hbefore i).
    + intros _ q Hq. apply answered_same_answers with (st := st); [ reflexivity | ].
      apply Hall; [ now left | exact Hq ].
  - (* back to the tools *)
    injection Hstep as <-. destruct Hflags as [Hl Hr].
    split; [ cbn; lia | split; [ | split ] ].
    + cbn. intros i q Hi. lia.
    + cbn. rewrite Hl. intros [H | H]; discriminate.
    + cbn. intros k v H. discriminate.
  - (* an answer *)
    destruct Hflags as [Hl [Hr _]].
    destruct (CareerAssessment.currentQuestion st) as [ q | ]; [ | discriminate ].
    destruct (JS.includes _ v) eqn:Hv; [ | discriminate ].
    injection Hstep as <-.
    assert (Hin : In v (map CareerAssessment.value CareerAssessment.likertOptions)).
    { unfold JS.includes in Hv. apply existsb_exists in Hv.
      destruct Hv as [y [Hy Heq]]. apply String.eqb_eq in Heq. now subst y. }
    split; [ exact Hrange | split; [ | split ] ].
    + intros i q' Hi Hnth. apply answered_after_answer; [ exact Hin | ].
      now apply (Hbefore i).
    + cbn. rewrite Hl, Hr. intros [H | H]; discriminate.
    + cbn. intros k v' Hget.
      destruct (Z.eq_dec k (CareerAssessment.id q)) as [E | E].
      * subst k. rewrite answer_get_set_same in Hget. now injection Hget as <-.
      * rewrite answer_get_set_other in Hget by exact E. now apply (Hlikert k).
  - (* next *)
    destruct Hflags as [Hl [Hr _]].
    destruct (CareerAssessment.canGoNext st) eqn:Hcan; [ | discriminate ].
    injection Hstep as <-.
    destruct (canGoNext_answered st HInv Hcan) as [q [Hq Hans]].
    unfold CareerAssessment.handleNext.
    destruct (Z.ltb_spec (CareerPage.currentStep st)
                (Z.of_nat (List.length CareerAssessment.assessmentQuestions) - 1))
      as [Hlt | Hge].
    + split; [ cbn; cbn in Hlt; lia | split; [ | split ] ].
      * cbn. intros i q' Hi Hnth.
        apply answered_same_answers with (st := st); [ reflexivity | ].
        destruct (Z.eq_dec (Z.of_nat i) (CareerPage.currentStep st)) as [E | E].
        { rewrite <- E, Nat2Z.id in Hq. rewrite Hq in Hnth. now injection Hnth as <-. }
        { apply (Hbefore i); [ lia | exact Hnth ]. }
      * cbn. rewrite Hl, Hr. intros [H | H]; discriminate.
      * exact Hlikert.
    + split; [ exact Hrange | split; [ | split ] ].
      * intros i q' Hi Hnth.
        apply answered_same_answers with (st := st); [ reflexivity | ].
        now apply (Hbefore i).
      * intros _ q' Hin.
        apply answered_same_answers with (st := st); [ reflexivity | ].
        apply In_nth_error in Hin. destruct Hin as [i Hnth].
        assert (Hi : (i < List.length CareerAssessment.assessmentQuestions)%nat).
        { apply nth_error_Some. congruence. }
        destruct (Z.eq_dec (Z.of_nat i) (CareerPage.currentStep st)) as [E | E].
        { rewrite <- E, Nat2Z.id in Hq. rewrite Hq in Hnth. now injection Hnth as <-. }
        { apply (Hbefore i); [ lia | exact Hnth ]. }
      * exact Hlikert.
  - (* previous *)
    destruct Hflags as [Hl [Hr _]].
    destruct (Z.eqb_spec (CareerPage.currentStep st) 0) as [ | Hne ]; [ discriminate | ].
    injection Hstep as <-.
    split; [ cbn; lia | split; [ | split ] ].
    + cbn. intros i q Hi Hnth.
      apply answered_same_answers with (st := st); [ reflexivity | ].
      apply (Hbefore i); [ lia | exact Hnth ].
    + cbn. rewrite Hl, Hr. intros [H | H]; discriminate.
    + exact Hlikert.
  - (* take the quiz *)
    injection Hstep as <-. destruct Hflags as [Hl [Hr _]].
    split; [ exact Hrange | split; [ | split ] ].
    + intros i q Hi Hnth.
      apply answered_same_answers with (st := st); [ reflexivity | ].
      now apply (Hbefore i).
    + cbn. rewrite Hl, Hr. intros [H | H]; discriminate.
    + exact Hlikert.
  - (* a handler of the tabs *)
    injection Hstep as <-. destruct Hflags as [Hl [Hr _]].
    destruct (tab_keeps_assessment st ev) as [_ [Hcs [Hans [Hsr Hil]]]].
    unfold CareerAssessment.Inv. rewrite Hcs, Hans, Hsr, Hil.
    split; [ exact Hrange | split; [ | split ] ].
    + intros i q Hi Hnth.
      apply answered_same_answers with (st := st); [ exact Hans | ].
      now apply (Hbefore i).
    + rewrite Hl, Hr. intros [H | H]; discriminate.
    + exact Hlikert.
Qed.

Lemma Inv_run (evs : list CareerAssessment.UIEvent) (st st' : CareerPage.State) :
  CareerAssessment.Inv st ->
  CareerAssessment.ui_run st evs = Some st' ->
  CareerAssessment.Inv st'.
Proof.
  revert st. induction evs as [ | ev evs IH]; intros st HInv Hrun; simpl in Hrun.
  - now injection Hrun as <-.
  - destruct (CareerAssessment.ui_step st ev) as [ st1 | ] eqn:Hstep; [ | discriminate ].
    apply (IH st1); [ | exact Hrun ]. now apply (Inv_step st st1 ev).
Qed.

(** X1: on the career page, whatever the user does on the screens shown
    (with "Previous" disabled on the first question and "Next" disabled
    until the current question is answered), the question index stays
    within the ten questions, and the loading and results screens are
    only reached once every question has an answer, each the value of a
    Likert option. *)
Theorem assessment_results_need_all_answers :
  forall (evs : list CareerAssessment.UIEvent) (st : CareerPage.State),
    CareerAssessment.ui_run CareerPage.initialState evs = Some st ->
    0 <= CareerPage.currentStep st <= 9
    /\ (CareerAssessment.screen st = CareerAssessment.LoadingScreen
        \/ CareerAssessment.screen st = CareerAssessment.ResultsScreen ->
        forall q : CareerAssessment.Question,
          In q CareerAssessment.assessmentQuestions ->
          exists v : string,
            CareerAssessment.answer_get (CareerPage.answers st) (CareerAssessment.id q)
            = Some v
            /\ In v ["1"; "2"; "3"; "4"; "5"]).
Proof.
  intros evs st Hrun.
  destruct (Inv_run evs _ st Inv_initial Hrun) as [Hrange [_ [Hall _]]].
  split; [ cbn in Hrange; lia | ].
  intros Hscr q Hq. apply Hall; [ | exact Hq ].
  pose proof (screen_flags st) as Hflags.
  destruct Hscr as [E | E]; rewrite E in Hflags; [ now left | right; tauto ].
Qed.

Lemma assessment_results_witness :
  exists st : CareerPage.State,
    CareerAssessment.ui_run CareerPage.initialState CareerAssessment.full_assessment
    = Some st
    /\ CareerAssessment.screen st = CareerAssessment.ResultsScreen
    /\ 0 <= CareerPage.currentStep st <= 9.
Proof.
  destruct (CareerAssessment.ui_run CareerPage.initialState
              CareerAssessment.full_assessment) as [ st | ] eqn:Hrun.
  - exists st. split; [ reflexivity | split ].
    + vm_compute in Hrun. injection Hrun as <-. reflexivity.
    + exact (proj1 (assessment_results_need_all_answers
                      CareerAssessment.full_assessment st Hrun)).
  - vm_compute in Hrun. discriminate.
Defined.

(** ** Selecting and removing skills *)

Lemma includes_push (l : list string) (s y : string) :
  JS.includes (l ++ [s]) y = JS.includes l y || String.eqb y s.
Proof.
  unfold JS.includes. rewrite existsb_app. simpl.
  now rewrite orb_false_r, String.eqb_sym.
Qed.

Lemma includes_filter_out (l : list string) (s y : string) :
  JS.includes (filter (fun t => negb (String.eqb t s)) l) y
  = JS.includes l y && negb (String.eqb y s).
Proof.
  unfold JS.includes. induction l as [ | t l IH]; simpl; [ reflexivity | ].
  destruct (String.eqb_spec t s) as [Ets | Ets]; simpl.
  - subst t. rewrite IH. destruct (String.eqb_spec s y) as [Esy | Esy]; simpl.
    + subst y. now rewrite String.eqb_refl, !andb_false_r.
    + reflexivity.
  - rewrite IH. destruct (String.eqb_spec t y) as [Ety | Ety]; simpl.
    + subst y. destruct (String.eqb_spec t s); [ contradiction | reflexivity ].
    + reflexivity.
Qed.

Lemma filter_out_absent (l : list string) (s : string) :
  JS.includes l s = false -> filter (fun t => negb (String.eqb t s)) l = l.
Proof.
  unfold JS.includes. induction l as [ | t l IH]; simpl; intro H; [ reflexivity | ].
  apply orb_false_iff in H. destruct H as [Ht Hl].
  rewrite Ht. simpl. now rewrite IH.
Qed.

Lemma setSelectedSkills_same (st : CareerPage.State) :
  CareerPage.setSelectedSkills (CareerPage.selectedSkills st) st = st.
Proof. destruct st. reflexivity. Qed.

Lemma add_remove_skill_membership_aux (st : CareerPage.State) (s y : string) :
  JS.includes (CareerPage.selectedSkills (CareerPage.addSkill s st)) y
  = JS.includes (CareerPage.selectedSkills st) y || String.eqb y s
  /\ JS.includes (CareerPage.selectedSkills (CareerPage.removeSkill s st)) y
     = JS.includes (CareerPage.selectedSkills st) y && negb (String.eqb y s).
Proof.
  split.
  - unfold CareerPage.addSkill.
    destruct (JS.includes (CareerPage.selectedSkills st) s) eqn:E; simpl.
    + destruct (String.eqb_spec y s) as [Eys | _]; [ subst y; now rewrite E | ].
      now rewrite orb_false_r.
    + apply includes_push.
  - apply includes_filter_out.
Qed.

(** X2: [addSkill] selects the skill and [removeSkill] unselects it,
    neither changes whether any other string is selected; adding twice is
    adding once; removing after adding is plain removing, and gives the
    state back when the skill was not selected before. *)
Theorem add_remove_skill_round_trip :
  forall (st : CareerPage.State) (s y : string),
    JS.includes (CareerPage.selectedSkills (CareerPage.addSkill s st)) y
    = JS.includes (CareerPage.selectedSkills st) y || String.eqb y s
    /\ JS.includes (CareerPage.selectedSkills (CareerPage.removeSkill s st)) y
       = JS.includes (CareerPage.selectedSkills st) y && negb (String.eqb y s)
    /\ CareerPage.addSkill s (CareerPage.addSkill s st) = CareerPage.addSkill s st
    /\ CareerPage.removeSkill s (CareerPage.addSkill s st) = CareerPage.removeSkill s st
    /\ (JS.includes (CareerPage.selectedSkills st) s = false ->
        CareerPage.removeSkill s (CareerPage.addSkill s st) = st).
Proof.
  intros st s y.
  assert (Hrem : CareerPage.removeSkill s (CareerPage.addSkill s st)
                 = CareerPage.removeSkill s st).
  { unfold CareerPage.addSkill.
    destruct (JS.includes (CareerPage.selectedSkills st) s) eqn:E; simpl; [ reflexivity | ].
    unfold CareerPage.removeSkill. cbn.
    rewrite filter_app. simpl. rewrite String.eqb_refl. simpl.
    now rewrite app_nil_r. }
  split; [ | split; [ | split; [ | split; [ exact Hrem | ] ] ] ].
  - apply add_remove_skill_membership_aux.
  - apply add_remove_skill_membership_aux.
  - assert (Hin : JS.includes
                    (CareerPage.selectedSkills (CareerPage.addSkill s st)) s = true).
    { rewrite (proj1 (add_remove_skill_membership_aux st s s)).
      now rewrite String.eqb_refl, orb_true_r. }
    unfold CareerPage.addSkill at 1. now rewrite Hin.
  - intro E. rewrite Hrem. unfold CareerPage.removeSkill.
    rewrite (filter_out_absent _ _ E). apply setSelectedSkills_same.
Qed.

Lemma filter_compose {A : Type} (f g h : A -> bool) (l : list A) :
  (forall x, In x l -> f x = g x && h x) ->
  filter f l = filter h (filter g l).
Proof.
  induction l as [ | x l IH]; simpl; intro H; [ reflexivity | ].
  rewrite (H x (or_introl eq_refl)).
  destruct (g x); simpl.
  - destruct (h x); rewrite IH; auto.
  - apply IH. auto.
Qed.

(** X3: selecting a skill takes exactly the skills of that name out of
    the suggestions offered, and removing a skill puts back exactly the
    suggestions of that name; the other suggestions are offered as
    before, in the same order. *)
Theorem suggestions_follow_selection :
  forall (st : CareerPage.State) (s : string),
    CareerPage.offered
      (CareerPage.getAvailableSkillSuggestions (CareerPage.addSkill s st))
    = filter (fun skill => negb (String.eqb (CareerPage.name skill) s))
        (CareerPage.offered (CareerPage.getAvailableSkillSuggestions st))
    /\ (forall skill : CareerPage.Skill,
          In skill (CareerPage.offered
                      (CareerPage.getAvailableSkillSuggestions (CareerPage.removeSkill s st)))
          <-> In skill (CareerPage.offered (CareerPage.getAvailableSkillSuggestions st))
              \/ (In skill CareerPage.skillSuggestions /\ CareerPage.name skill = s)).
Proof.
  intros st s. rewrite !suggestions_are_the_unselected. split.
  - apply filter_compose. intros skill _.
    pose proof (proj1 (add_remove_skill_membership_aux st s (CareerPage.name skill))) as H.
    rewrite H. now rewrite negb_orb.
  - intro skill. rewrite !filter_In.
    pose proof (proj2 (add_remove_skill_membership_aux st s (CareerPage.name skill))) as H.
    rewrite H. rewrite negb_andb, negb_involutive, orb_true_iff, String.eqb_eq.
    tauto.
Qed.

(** ** The custom input and [trim] *)

Lemma string_app_assoc (a b c : string) : ((a ++ b) ++ c = a ++ (b ++ c))%string.
Proof. induction a as [ | x a IH]; simpl; [ reflexivity | now rewrite IH ]. Qed.

Lemma string_app_nil_r (a : string) : (a ++ "" = a)%string.
Proof. induction a as [ | x a IH]; simpl; [ reflexivity | now rewrite IH ]. Qed.

Lemma rev_append_spec (s acc : string) :
  JS.rev_append s acc = (JS.reverse s ++ acc)%string.
Proof.
  revert acc. induction s as [ | c s IH]; intro acc; simpl; [ reflexivity | ].
  unfold JS.reverse. simpl. rewrite (IH (String c acc)), (IH (String c "")).
  now rewrite string_app_assoc.
Qed.

Lemma reverse_cons (c : ascii) (s : string) :
  JS.reverse (String c s) = (JS.reverse s ++ String c "")%string.
Proof. unfold JS.reverse at 1. simpl. now rewrite rev_append_spec. Qed.

Lemma reverse_app (a b : string) :
  JS.reverse (a ++ b) = (JS.reverse b ++ JS.reverse a)%string.
Proof.
  induction a as [ | c a IH]; simpl.
  - now rewrite string_app_nil_r.
  - now rewrite !reverse_cons, IH, string_app_assoc.
Qed.

Lemma reverse_involutive (s : string) : JS.reverse (JS.reverse s) = s.
Proof.
  induction s as [ | c s IH]; [ reflexivity | ].
  now rewrite reverse_cons, reverse_app, IH.
Qed.

Lemma string_length_app (a b : string) :
  String.length (a ++ b) = (String.length a + String.length b)%nat.
Proof. induction a as [ | x a IH]; simpl; [ reflexivity | now rewrite IH ]. Qed.

Lemma reverse_length (s : string) : String.length (JS.reverse s) = String.length s.
Proof.
  induction s as [ | c s IH]; [ reflexivity | ].
  rewrite reverse_cons, string_length_app, IH. simpl. lia.
Qed.

Lemma drop_prefix_spec (w s r : string) :
  JS.drop_prefix w s = Some r <-> s = (w ++ r)%string.
Proof.
  revert s. induction w as [ | c w IH]; intro s; simpl.
  - split; [ intro H; now injection H | intro H; now subst ].
  - destruct s as [ | d s]; [ split; discriminate | ].
    destruct (Ascii.eqb_spec c d) as [<- | N].
    + rewrite IH. split; [ now intros -> | intro H; now injection H ].
    + split; [ discriminate | intro H; injection H as H _; congruence ].
Qed.

Lemma drop_first_Some (ws : list string) (s r : string) :
  JS.drop_first ws s = Some r -> exists w, In w ws /\ s = (w ++ r)%string.
Proof.
  induction ws as [ | w ws IH]; simpl; [ discriminate | ].
  destruct (JS.drop_prefix w s) as [r' | ] eqn:E.
  - intro H. injection H as <-. exists w. split; [ now left | ].
    now apply drop_prefix_spec.
  - intro H. destruct (IH H) as [w' [Hin Hs]]. exists w'. split; [ now right | exact Hs ].
Qed.

Lemma drop_first_shorter (ws : list string) (s r : string) :
  no_empty ws -> JS.drop_first ws s = Some r ->
  (String.length r < String.length s)%nat.
Proof.
  intros Hne H. destruct (drop_first_Some ws s r H) as [w [Hin ->]].
  unfold no_empty in Hne. rewrite Forall_forall in Hne. specialize (Hne w Hin).
  rewrite string_length_app. destruct w; [ congruence | simpl; lia ].
Qed.

Lemma drop_first_empty (ws : list string) :
  no_empty ws -> JS.drop_first ws "" = None.
Proof.
  intro Hne. destruct (JS.drop_first ws "") as [r | ] eqn:E; [ | reflexivity ].
  apply (drop_first_shorter ws "" r Hne) in E. simpl in E. lia.
Qed.

(** The fuel of [strip] is enough: more fuel strips nothing more. *)
Lemma strip_fuel_enough (ws : list string) (n : nat) :
  no_empty ws ->
  forall (m : nat) (s : string),
    (String.length s <= n)%nat -> (String.length s <= m)%nat ->
    JS.strip_fuel n ws s = JS.strip_fuel m ws s.
Proof.
  intro Hne. induction n as [ | n IH]; intros m s Hn Hm.
  - destruct s; [ | simpl in Hn; lia ].
    destruct m; simpl; [ reflexivity | now rewrite drop_first_empty ].
  - destruct m as [ | m].
    + destruct s; [ | simpl in Hm; lia ]. simpl. now rewrite drop_first_empty.
    + simpl. destruct (JS.drop_first ws s) as [r | ] eqn:E; [ | reflexivity ].
      pose proof (drop_first_shorter ws s r Hne E). apply IH; lia.
Qed.

Lemma strip_step (ws : list string) (s r : string) :
  no_empty ws -> JS.drop_first ws s = Some r -> JS.strip ws s = JS.strip ws r.
Proof.
  intros Hne E. pose proof (drop_first_shorter ws s r Hne E) as Hlt.
  unfold JS.strip. destruct (String.length s) as [ | n] eqn:En; [ lia | ].
  simpl. rewrite E. apply strip_fuel_enough; [ exact Hne | lia | lia ].
Qed.

Lemma strip_fix (ws : list string) (s : string) :
  starts_clean ws s -> JS.strip ws s = s.
Proof.
  unfold starts_clean, JS.strip. intro H.
  destruct (String.length s); simpl; [ reflexivity | now rewrite H ].
Qed.

Lemma strip_fuel_clean (ws : list string) (n : nat) :
  no_empty ws ->
  forall s, (String.length s <= n)%nat -> starts_clean ws (JS.strip_fuel n ws s).
Proof.
  intro Hne. induction n as [ | n IH]; intros s Hn.
  - destruct s; [ | simpl in Hn; lia ]. simpl. now apply drop_first_empty.
  - simpl. destruct (JS.drop_first ws s) as [r | ] eqn:E; [ | exact E ].
    apply IH. pose proof (drop_first_shorter ws s r Hne E). lia.
Qed.

Lemma strip_clean (ws : list string) (s : string) :
  no_empty ws -> starts_clean ws (JS.strip ws s).
Proof. intro Hne. now apply strip_fuel_clean. Qed.

Lemma strip_fuel_split (ws : list string) (n : nat) :
  forall s, exists w : string, s = (w ++ JS.strip_fuel n ws s)%string.
Proof.
  induction n as [ | n IH]; intro s; simpl; [ now exists "" | ].
  destruct (JS.drop_first ws s) as [r | ] eqn:E; [ | now exists "" ].
  destruct (drop_first_Some ws s r E) as [w [_ ->]].
  destruct (IH r) as [w' Hw']. exists (w ++ w')%string.
  now rewrite string_app_assoc, <- Hw'.
Qed.

(** What starts a string starts every string it is the beginning of. *)
Lemma drop_prefix_app (w p q r : string) :
  JS.drop_prefix w p = Some r -> JS.drop_prefix w (p ++ q) = Some (r ++ q)%string.
Proof.
  intro H. apply drop_prefix_spec in H. subst p.
  apply drop_prefix_spec. now rewrite string_app_assoc.
Qed.

Lemma starts_clean_prefix (ws : list string) (p q : string) :
  starts_clean ws (p ++ q) -> starts_clean ws p.
Proof.
  unfold starts_clean. induction ws as [ | w ws IH]; simpl; [ reflexivity | ].
  destruct (JS.drop_prefix w p) as [r | ] eqn:E.
  - now rewrite (drop_prefix_app w p q r E).
  - destruct (JS.drop_prefix w (p ++ q)); [ discriminate | exact IH ].
Qed.

Lemma white_space_no_empty : no_empty JS.white_space.
Proof. unfold no_empty. repeat constructor; discriminate. Qed.

Lemma reversed_white_space_no_empty : no_empty (map JS.reverse JS.white_space).
Proof. unfold no_empty. repeat constructor; discriminate. Qed.

Lemma trimStart_clean (s : string) : starts_clean JS.white_space (JS.trimStart s).
Proof. apply strip_clean, white_space_no_empty. Qed.

Lemma trimStart_fix (s : string) :
  starts_clean JS.white_space s -> JS.trimStart s = s.
Proof. apply strip_fix. Qed.

Lemma trimEnd_prefix (t : string) :
  exists w : string, t = (JS.trimEnd t ++ w)%string.
Proof.
  unfold JS.trimEnd, JS.strip.
  destruct (strip_fuel_split (map JS.reverse JS.white_space)
              (String.length (JS.reverse t)) (JS.reverse t)) as [w Hw].
  exists (JS.reverse w).
  rewrite <- reverse_app, <- Hw. now rewrite reverse_involutive.
Qed.

Lemma trimEnd_keeps_clean (t : string) :
  starts_clean JS.white_space t -> starts_clean JS.white_space (JS.trimEnd t).
Proof.
  intro Ht. destruct (trimEnd_prefix t) as [w Hw].
  rewrite Hw in Ht. exact (starts_clean_prefix _ _ _ Ht).
Qed.

Lemma trim_idempotent (s : string) : JS.trim (JS.trim s) = JS.trim s.
Proof.
  unfold JS.trim at 1.
  assert (Hstart : starts_clean JS.white_space (JS.trim s)).
  { unfold JS.trim. apply trimEnd_keeps_clean, trimStart_clean. }
  rewrite (trimStart_fix _ Hstart).
  unfold JS.trimEnd at 1.
  assert (Hend : starts_clean (map JS.reverse JS.white_space)
                   (JS.reverse (JS.trim s))).
  { unfold JS.trim, JS.trimEnd. rewrite reverse_involutive.
    apply strip_clean, reversed_white_space_no_empty. }
  rewrite (strip_fix _ _ Hend). apply reverse_involutive.
Qed.

(** A white space character at the head of a string is dropped, and the
    rest is left. *)
Lemma drop_white_space (w s : string) :
  In w JS.white_space -> JS.drop_first JS.white_space (w ++ s) = Some s.
Proof.
  intro Hin. unfold JS.white_space in Hin. simpl in Hin.
  repeat (destruct Hin as [<- | Hin]; [ reflexivity | ]). destruct Hin.
Qed.

Lemma trim_white_space_only (s : string) :
  white_space_only s -> JS.trim s = "".
Proof.
  intro H. unfold JS.trim.
  assert (E : JS.trimStart s = "").
  { induction H as [ | w s Hw Hs IH]; [ reflexivity | ].
    unfold JS.trimStart in *.
    now rewrite (strip_step _ _ s white_space_no_empty (drop_white_space w s Hw)). }
  now rewrite E.
Qed.

(** X4: [addCustomSkill] either changes nothing or appends the trimmed
    input, which is then not empty, has no white space left to trim and
    was not selected before, and clears the input cell; calling it twice
    is calling it once, and an input of white space only changes
    nothing. *)
Theorem custom_skill_added_trimmed_once :
  forall st : CareerPage.State,
    (CareerPage.addCustomSkill st = st
     \/ (CareerPage.selectedSkills (CareerPage.addCustomSkill st)
         = (CareerPage.selectedSkills st ++ [JS.trim (CareerPage.customSkill st)])%list
         /\ CareerPage.customSkill (CareerPage.addCustomSkill st) = ""
         /\ JS.trim (CareerPage.customSkill st) <> ""
         /\ JS.trim (JS.trim (CareerPage.customSkill st))
            = JS.trim (CareerPage.customSkill st)
         /\ JS.includes (CareerPage.selectedSkills st)
              (JS.trim (CareerPage.customSkill st)) = false))
    /\ CareerPage.addCustomSkill (CareerPage.addCustomSkill st)
       = CareerPage.addCustomSkill st
    /\ (white_space_only (CareerPage.customSkill st) ->
        CareerPage.addCustomSkill st = st).
Proof.
  intro st. split; [ | split ].
  - unfold CareerPage.addCustomSkill, CareerPage.nonempty.
    destruct (String.eqb_spec (JS.trim (CareerPage.customSkill st)) "") as [E | E];
      simpl; [ now left | ].
    destruct (JS.includes (CareerPage.selectedSkills st)
                (JS.trim (CareerPage.customSkill st))) eqn:Hin; simpl; [ now left | ].
    right. repeat split; [ exact E | apply trim_idempotent ].
  - unfold CareerPage.addCustomSkill at 2 3.
    destruct (CareerPage.nonempty (JS.trim (CareerPage.customSkill st))
              && negb (JS.includes (CareerPage.selectedSkills st)
                         (JS.trim (CareerPage.customSkill st)))) eqn:C.
    + reflexivity.
    + unfold CareerPage.addCustomSkill. now rewrite C.
  - intro H. unfold CareerPage.addCustomSkill.
    now rewrite (trim_white_space_only _ H).
Qed.

Example trim_no_break_space :
  JS.trim (JS.utf8 [226; 128; 131] ++ "React" ++ JS.utf8 [194; 160]) = "React"
  /\ JS.trim (JS.utf8 [194; 160]) = ""
  /\ JS.trim (JS.utf8 [195; 160] ++ " ") = JS.utf8 [195; 160].
Proof. repeat split. Qed.

Example custom_skill_no_break_space :
  CareerPage.selectedSkills
    (CareerPage.addCustomSkill
       (CareerPage.setCustomSkill ("React" ++ JS.utf8 [194; 160])
          CareerPage.initialState))
  = ["React"]
  /\ CareerPage.addCustomSkill
       (CareerPage.setCustomSkill (JS.utf8 [194; 160]) CareerPage.initialState)
     = CareerPage.setCustomSkill (JS.utf8 [194; 160]) CareerPage.initialState.
Proof. repeat split. Qed.

Example custom_skill_example :
  CareerPage.selectedSkills
    (CareerPage.addCustomSkill
       (CareerPage.setCustomSkill "  Rust  "
          (CareerPage.addSkill "SQL" CareerPage.initialState)))
  = ["SQL"; "Rust"].
Proof. reflexivity. Qed.

(** ** The dashboard *)

Lemma has_key_In (props : list (string * JS.Value)) (k : string) :
  DashboardPage.has_key props k = true <-> In k (map fst props).
Proof.
  unfold DashboardPage.has_key. rewrite existsb_exists. split.
  - intros [[k' v'] [Hin E]]. simpl in E. apply String.eqb_eq in E. subst k'.
    apply in_map_iff. now exists (k, v').
  - intro Hin. apply in_map_iff in Hin. destruct Hin as [[k' v'] [E Hin]].
    simpl in E. subst k'. exists (k, v'). split; [ exact Hin | apply String.eqb_refl ].
Qed.

Lemma has_key_lookup (props : list (string * JS.Value)) (k : string) :
  DashboardPage.has_key props k = false -> JS.lookup k props = None.
Proof.
  induction props as [ | [k' v'] rest IH]; simpl; [ reflexivity | ].
  destruct (String.eqb k' k); simpl; [ discriminate | exact IH ].
Qed.

Lemma lookup_replace_same (props : list (string * JS.Value)) (k : string) (v : JS.Value) :
  DashboardPage.has_key props k = true ->
  JS.lookup k (DashboardPage.replace props k v) = Some v.
Proof.
  induction props as [ | [k' v'] rest IH]; simpl; [ discriminate | ].
  destruct (String.eqb k' k) eqn:E; simpl; rewrite E; [ reflexivity | exact IH ].
Qed.

Lemma lookup_replace_other (props : list (string * JS.Value)) (k k' : string)
  (v : JS.Value) :
  k' <> k ->
  JS.lookup k' (DashboardPage.replace props k v) = JS.lookup k' props.
Proof.
  intro Hk. induction props as [ | [k0 v0] rest IH]; simpl; [ reflexivity | ].
  destruct (String.eqb_spec k0 k) as [E | E]; simpl.
  - subst k0. destruct (String.eqb_spec k k'); [ congruence | reflexivity ].
  - destruct (String.eqb k0 k'); [ reflexivity | exact IH ].
Qed.

Lemma lookup_insert_index (props : list (string * JS.Value)) (i : Z) (k k' : string)
  (v : JS.Value) :
  JS.lookup k props = None ->
  JS.lookup k' (DashboardPage.insert_index props i k v)
  = if String.eqb k k' then Some v else JS.lookup k' props.
Proof.
  induction props as [ | [k0 v0] rest IH]; simpl; intro Hk; [ reflexivity | ].
  destruct (String.eqb_spec k0 k) as [E0 | E0]; [ discriminate | ].
  destruct (DashboardPage.array_index k0) as [j | ]; [ | reflexivity ].
  destruct (j <? i); [ | reflexivity ].
  simpl. rewrite (IH Hk).
  destruct (String.eqb_spec k0 k') as [E1 | E1]; [ | reflexivity ].
  subst k'. destruct (String.eqb_spec k k0); [ congruence | reflexivity ].
Qed.

Lemma lookup_append (props : list (string * JS.Value)) (k k' : string) (v : JS.Value) :
  JS.lookup k props = None ->
  JS.lookup k' (props ++ [(k, v)])
  = if String.eqb k k' then Some v else JS.lookup k' props.
Proof.
  induction props as [ | [k0 v0] rest IH]; simpl; intro Hk; [ reflexivity | ].
  destruct (String.eqb_spec k0 k) as [E0 | E0]; [ discriminate | ].
  rewrite (IH Hk).
  destruct (String.eqb_spec k0 k') as [E1 | E1]; [ | reflexivity ].
  subst k'. destruct (String.eqb_spec k k0); [ congruence | reflexivity ].
Qed.

Lemma lookup_assign_same (props : list (string * JS.Value)) (k : string) (v : JS.Value) :
  JS.lookup k (DashboardPage.assign props k v) = Some v.
Proof.
  unfold DashboardPage.assign.
  destruct (DashboardPage.has_key props k) eqn:H.
  - now apply lookup_replace_same.
  - apply has_key_lookup in H.
    destruct (DashboardPage.array_index k).
    + rewrite (lookup_insert_index _ _ _ _ _ H). now rewrite String.eqb_refl.
    + rewrite (lookup_append _ _ _ _ H). now rewrite String.eqb_refl.
Qed.

Lemma lookup_assign_other (props : list (string * JS.Value)) (k k' : string)
  (v : JS.Value) :
  k' <> k ->
  JS.lookup k' (DashboardPage.assign props k v) = JS.lookup k' props.
Proof.
  intro Hk. unfold DashboardPage.assign.
  destruct (DashboardPage.has_key props k) eqn:H.
  - now apply lookup_replace_other.
  - apply has_key_lookup in H.
    destruct (DashboardPage.array_index k).
    + rewrite (lookup_insert_index _ _ _ _ _ H).
      destruct (String.eqb_spec k k'); [ congruence | reflexivity ].
    + rewrite (lookup_append _ _ _ _ H).
      destruct (String.eqb_spec k k'); [ congruence | reflexivity ].
Qed.

Lemma keys_replace (props : list (string * JS.Value)) (k : string) (v : JS.Value) :
  map fst (DashboardPage.replace props k v) = map fst props.
Proof.
  induction props as [ | [k0 v0] rest IH]; simpl; [ reflexivity | ].
  destruct (String.eqb k0 k); simpl; [ reflexivity | now rewrite IH ].
Qed.

Lemma keys_assign_present (props : list (string * JS.Value)) (k : string)
  (v : JS.Value) :
  In k (map fst props) ->
  map fst (DashboardPage.assign props k v) = map fst props.
Proof.
  intro Hin. apply has_key_In in Hin. unfold DashboardPage.assign. rewrite Hin.
  apply keys_replace.
Qed.

(** A new key that is no array index goes last. *)
Lemma assign_fresh (props : list (string * JS.Value)) (k : string) (v : JS.Value) :
  ~ In k (map fst props) ->
  DashboardPage.array_index k = None ->
  DashboardPage.assign props k v = (props ++ [(k, v)])%list.
Proof.
  intros Hk Hi. unfold DashboardPage.assign. rewrite Hi.
  destruct (DashboardPage.has_key props k) eqn:H; [ | reflexivity ].
  apply has_key_In in H. contradiction.
Qed.

Lemma lookup_In_keys (props : list (string * JS.Value)) (k : string) (v : JS.Value) :
  JS.lookup k props = Some v -> In k (map fst props).
Proof.
  induction props as [ | [k0 v0] rest IH]; simpl; [ discriminate | ].
  destruct (String.eqb_spec k0 k) as [E | E]; [ now left | ].
  intro H. right. now apply IH.
Qed.

(** Spreading a list of properties over others: the last binding of a key
    wins, a key without binding keeps its old value. *)
Lemma lookup_fold_assign (new props : list (string * JS.Value)) (k : string) :
  JS.lookup k (fold_left (fun acc kv => DashboardPage.assign acc (fst kv) (snd kv)) new props)
  = match last_binding k new with
    | Some v => Some v
    | None => JS.lookup k props
    end.
Proof.
  unfold last_binding. induction new as [ | [k0 v0] new IH] using rev_ind; simpl.
  - reflexivity.
  - rewrite fold_left_app, rev_unit. simpl.
    destruct (String.eqb_spec k0 k) as [E | E].
    + subst k0. apply lookup_assign_same.
    + rewrite lookup_assign_other by congruence. exact IH.
Qed.

(** Spreading an object with distinct keys into the empty object copies
    it. *)
Lemma fold_assign_copy (props acc : list (string * JS.Value)) :
  NoDup (map fst (acc ++ props)) ->
  no_index_keys (map fst props) ->
  fold_left (fun a kv => DashboardPage.assign a (fst kv) (snd kv)) props acc
  = (acc ++ props)%list.
Proof.
  revert acc. induction props as [ | [k v] rest IH]; intros acc Hnd Hni; simpl.
  - now rewrite app_nil_r.
  - inversion Hni as [ | ? ? Hk Hrest]; subst. rewrite assign_fresh.
    + rewrite IH.
      * now rewrite <- app_assoc.
      * rewrite <- app_assoc. exact Hnd.
      * exact Hrest.
    + rewrite map_app in Hnd. simpl in Hnd.
      apply NoDup_remove_2 in Hnd. intro Hin. apply Hnd.
      apply in_or_app. now left.
    + exact Hk.
Qed.

(** Array indices come first, in ascending order, whatever the order in
    which they are assigned. *)
Example spread_orders_array_indices :
  map fst
    (DashboardPage.spread_into [("a", JS.num 0)]
       (Some (JS.JObj [("b", JS.num 1); ("10", JS.num 2); ("9", JS.num 3);
                       ("07", JS.num 4); ("a", JS.num 5)])))
  = ["9"; "10"; "a"; "b"; "07"]
  /\ DashboardPage.array_index "4294967294" = Some 4294967294
  /\ DashboardPage.array_index "4294967295" = None.
Proof. repeat split. Qed.

Lemma mock_is_object : DashboardPage.generateMockData = JS.JObj mock_props.
Proof. reflexivity. Qed.

Lemma mock_keys :
  map fst mock_props
  = [ "progress"; "recent_activity"; "achievements"; "saved_content";
      "chat_history"; "recommendations"; "analytics"; "user_role" ].
Proof. reflexivity. Qed.

Lemma mock_keys_NoDup : NoDup (map fst mock_props).
Proof. rewrite mock_keys. repeat constructor; simpl; intuition discriminate. Qed.

Lemma or_value_default (a : option JS.Value) (b : JS.Value) :
  exists x : JS.Value, DashboardPage.or_value a (Some b) = Some x.
Proof.
  unfold DashboardPage.or_value. destruct a as [ v | ]; simpl.
  - destruct (JS.truthy v); eauto.
  - eauto.
Qed.

Lemma mock_keys_no_index : no_index_keys (map fst mock_props).
Proof. rewrite mock_keys. repeat constructor. Qed.

Lemma spread_copy (props : list (string * JS.Value)) :
  NoDup (map fst props) ->
  no_index_keys (map fst props) ->
  DashboardPage.spread_into [] (Some (JS.JObj props)) = props.
Proof.
  intros Hnd Hni. unfold DashboardPage.spread_into. simpl.
  now rewrite fold_assign_copy.
Qed.

(** What the first merge makes of an object that has the three sections. *)
Lemma merge_progress_result (props : list (string * JS.Value)) (value ra ach : JS.Value) :
  NoDup (map fst props) ->
  no_index_keys (map fst props) ->
  In "progress" (map fst props) ->
  JS.lookup "recent_activity" props = Some ra ->
  JS.lookup "achievements" props = Some ach ->
  exists props1 : list (string * JS.Value),
    DashboardPage.merge_progress (JS.JObj props) value = JS.JObj props1
    /\ map fst props1 = map fst props
    /\ JS.lookup "progress" props1
       = Some (JS.JObj
                 (DashboardPage.spread_into
                    (DashboardPage.spread_into [] (JS.lookup "progress" props))
                    (JS.getProp value "progress")))
    /\ JS.lookup "recent_activity" props1
       = DashboardPage.or_value (JS.getProp value "recent_activity") (Some ra)
    /\ JS.lookup "achievements" props1
       = DashboardPage.or_value (JS.getProp value "achievements") (Some ach)
    /\ (forall k : string,
          k <> "progress" -> k <> "recent_activity" -> k <> "achievements" ->
          JS.lookup k props1 = JS.lookup k props).
Proof.
  intros Hnd Hni Hprog Hra Hach.
  unfold DashboardPage.merge_progress. cbv zeta.
  rewrite (spread_copy props Hnd Hni).
  change (JS.getProp (JS.JObj props) "recent_activity")
    with (JS.lookup "recent_activity" props).
  change (JS.getProp (JS.JObj props) "achievements")
    with (JS.lookup "achievements" props).
  change (JS.getProp (JS.JObj props) "progress") with (JS.lookup "progress" props).
  rewrite Hra, Hach.
  destruct (or_value_default (JS.getProp value "recent_activity") ra) as [ra' Era].
  destruct (or_value_default (JS.getProp value "achievements") ach) as [ach' Each].
  rewrite Era, Each. simpl DashboardPage.assign_opt.
  eexists. split; [ reflexivity | ].
  assert (K1 : map fst (DashboardPage.assign props "progress"
                          (JS.JObj
                             (DashboardPage.spread_into
                                (DashboardPage.spread_into [] (JS.lookup "progress" props))
                                (JS.getProp value "progress"))))
               = map fst props) by now apply keys_assign_present.
  assert (Hra_in : In "recent_activity" (map fst props))
    by now apply lookup_In_keys with (v := ra).
  assert (Hach_in : In "achievements" (map fst props))
    by now apply lookup_In_keys with (v := ach).
  split; [ | split; [ | split; [ | split ] ] ].
  - rewrite keys_assign_present; rewrite keys_assign_present; rewrite ?K1; auto.
  - rewrite !lookup_assign_other by discriminate. apply lookup_assign_same.
  - rewrite lookup_assign_other by discriminate. apply lookup_assign_same.
  - apply lookup_assign_same.
  - intros k H1 H2 H3. now rewrite !lookup_assign_other by congruence.
Qed.

(** What the second merge makes of an object that has recommendations. *)
Lemma merge_recommendations_result (props : list (string * JS.Value)) (value : JS.Value) :
  NoDup (map fst props) ->
  no_index_keys (map fst props) ->
  In "recommendations" (map fst props) ->
  exists props1 : list (string * JS.Value),
    DashboardPage.merge_recommendations (JS.JObj props) value = JS.JObj props1
    /\ map fst props1 = map fst props
    /\ JS.lookup "recommendations" props1
       = Some (JS.JObj
                 (DashboardPage.spread_into
                    (DashboardPage.spread_into [] (JS.lookup "recommendations" props))
                    (Some value)))
    /\ (forall k : string,
          k <> "recommendations" -> JS.lookup k props1 = JS.lookup k props).
Proof.
  intros Hnd Hni Hrec. unfold DashboardPage.merge_recommendations. cbv zeta.
  rewrite (spread_copy props Hnd Hni).
  change (JS.getProp (JS.JObj props) "recommendations")
    with (JS.lookup "recommendations" props).
  eexists. split; [ reflexivity | split; [ | split ] ].
  - now apply keys_assign_present.
  - apply lookup_assign_same.
  - intros k Hk. now apply lookup_assign_other.
Qed.

Lemma mock_recent_activity :
  exists ra : JS.Value, JS.lookup "recent_activity" mock_props = Some ra.
Proof. eexists. reflexivity. Qed.

Lemma mock_achievements :
  exists ach : JS.Value, JS.lookup "achievements" mock_props = Some ach.
Proof. eexists. reflexivity. Qed.

Lemma combine_in_two_steps (progressRes recommendationsRes : DashboardPage.Settled) :
  DashboardPage.combine progressRes recommendationsRes
  = match recommendationsRes with
    | DashboardPage.Fulfilled value =>
        if JS.truthy value
        then DashboardPage.merge_recommendations (after_progress progressRes) value
        else after_progress progressRes
    | DashboardPage.Rejected _ => after_progress progressRes
    end.
Proof. reflexivity. Qed.

Lemma after_progress_result (progressRes : DashboardPage.Settled) :
  exists props1 : list (string * JS.Value),
    after_progress progressRes = JS.JObj props1
    /\ map fst props1 = map fst mock_props
    /\ (forall k : string,
          k <> "progress" -> k <> "recent_activity" -> k <> "achievements" ->
          JS.lookup k props1 = JS.lookup k mock_props).
Proof.
  assert (Hmock : exists props1 : list (string * JS.Value),
            DashboardPage.generateMockData = JS.JObj props1
            /\ map fst props1 = map fst mock_props
            /\ (forall k : string,
                  k <> "progress" -> k <> "recent_activity" -> k <> "achievements" ->
                  JS.lookup k props1 = JS.lookup k mock_props)).
  { exists mock_props. split; [ exact mock_is_object | split; [ reflexivity | auto ] ]. }
  destruct progressRes as [ value | reason ]; simpl; [ | exact Hmock ].
  destruct (JS.truthy value); [ | exact Hmock ].
  destruct mock_recent_activity as [ra Hra]. destruct mock_achievements as [ach Hach].
  rewrite mock_is_object.
  destruct (merge_progress_result mock_props value ra ach mock_keys_NoDup
              mock_keys_no_index)
    as [props1 [E [Hk [_ [_ [_ Hother]]]]]]; auto.
  - rewrite mock_keys. now left.
  - exists props1. auto.
Qed.

Lemma combine_result (progressRes recommendationsRes : DashboardPage.Settled) :
  exists props : list (string * JS.Value),
    DashboardPage.combine progressRes recommendationsRes = JS.JObj props
    /\ map fst props = map fst mock_props
    /\ (forall k : string,
          k <> "progress" -> k <> "recent_activity" -> k <> "achievements" ->
          k <> "recommendations" ->
          JS.lookup k props = JS.lookup k mock_props).
Proof.
  rewrite combine_in_two_steps.
  destruct (after_progress_result progressRes) as [props1 [E1 [Hk1 Ho1]]].
  assert (Hsame : exists props : list (string * JS.Value),
            after_progress progressRes = JS.JObj props
            /\ map fst props = map fst mock_props
            /\ (forall k : string,
                  k <> "progress" -> k <> "recent_activity" -> k <> "achievements" ->
                  k <> "recommendations" ->
                  JS.lookup k props = JS.lookup k mock_props)).
  { exists props1. split; [ exact E1 | split; [ exact Hk1 | auto ] ]. }
  destruct recommendationsRes as [ value | reason ]; [ | exact Hsame ].
  destruct (JS.truthy value); [ | exact Hsame ].
  rewrite E1.
  destruct (merge_recommendations_result props1 value) as [props2 [E2 [Hk2 [_ Ho2]]]].
  - rewrite Hk1. exact mock_keys_NoDup.
  - rewrite Hk1. exact mock_keys_no_index.
  - rewrite Hk1, mock_keys. simpl. tauto.
  - exists props2. split; [ exact E2 | split; [ congruence | ] ].
    intros k H1 H2 H3 H4. rewrite Ho2 by exact H4. now apply Ho1.
Qed.

(** What [fetchDashboardData] leaves, with and without a signed-in user. *)
Lemma fetchDashboardData_signed_in
  (id : string) (progressFetch recommendationsFetch : FetchOutcome)
  (showRefreshToast : bool) (ui : DashboardPage.UI) :
  id <> "" ->
  DashboardPage.fetchDashboardData (Some id) progressFetch recommendationsFetch
    showRefreshToast ui
  = (Return tt,
     DashboardPage.mkUI
       (Some (DashboardPage.combine
                (DashboardPage.settle (DashboardPage.getUserProgress progressFetch))
                (DashboardPage.settle
                   (DashboardPage.getRecommendations recommendationsFetch))))
       false None false
       (DashboardPage.toasts ui
        ++ (if showRefreshToast then [DashboardPage.updated_toast] else []))).
Proof.
  intro Hid. unfold DashboardPage.fetchDashboardData.
  rewrite (no_user_given id Hid). cbv zeta.
  generalize (DashboardPage.combine
                (DashboardPage.settle (DashboardPage.getUserProgress progressFetch))
                (DashboardPage.settle
                   (DashboardPage.getRecommendations recommendationsFetch))).
  intro data. destruct showRefreshToast; cbn; rewrite ?app_nil_r; reflexivity.
Qed.

Lemma fetchDashboardData_signed_out
  (session_user_id : option string) (progressFetch recommendationsFetch : FetchOutcome)
  (showRefreshToast : bool) (ui : DashboardPage.UI) :
  DashboardPage.no_user session_user_id = true ->
  DashboardPage.fetchDashboardData session_user_id progressFetch recommendationsFetch
    showRefreshToast ui
  = (Return tt,
     DashboardPage.mkUI (Some DashboardPage.generateMockData) false
       (DashboardPage.error ui) (DashboardPage.isRefreshing ui)
       (DashboardPage.toasts ui)).
Proof.
  intro H. unfold DashboardPage.fetchDashboardData. rewrite H. reflexivity.
Qed.

(** X5: [fetchDashboardData] always completes with data on the page and
    the loading flag cleared, whoever is signed in and whatever the two
    requests do: it never throws, never sets an error, and neither the
    skeleton nor the "Unable to load dashboard data" screen is left
    showing. For a signed-in user the refreshing flag is cleared as well;
    without a user the page holds the mock data and no request counts. *)
Theorem dashboard_always_loaded :
  forall (session_user_id : option string)
         (progressFetch recommendationsFetch : FetchOutcome)
         (showRefreshToast : bool) (ui : DashboardPage.UI),
    fst (DashboardPage.fetchDashboardData session_user_id progressFetch
           recommendationsFetch showRefreshToast ui) = Return tt
    /\ DashboardPage.loading
         (DashboardPage.run
            (DashboardPage.fetchDashboardData session_user_id progressFetch
               recommendationsFetch showRefreshToast) ui) = false
    /\ (exists data : JS.Value,
          DashboardPage.dashboardData
            (DashboardPage.run
               (DashboardPage.fetchDashboardData session_user_id progressFetch
                  recommendationsFetch showRefreshToast) ui) = Some data)
    /\ (DashboardPage.no_user session_user_id = false ->
        DashboardPage.isRefreshing
          (DashboardPage.run
             (DashboardPage.fetchDashboardData session_user_id progressFetch
                recommendationsFetch showRefreshToast) ui) = false
        /\ DashboardPage.error
             (DashboardPage.run
                (DashboardPage.fetchDashboardData session_user_id progressFetch
                   recommendationsFetch showRefreshToast) ui) = None)
    /\ (DashboardPage.no_user session_user_id = true ->
        DashboardPage.run
          (DashboardPage.fetchDashboardData session_user_id progressFetch
             recommendationsFetch showRefreshToast) ui
        = DashboardPage.mkUI (Some DashboardPage.generateMockData) false
            (DashboardPage.error ui) (DashboardPage.isRefreshing ui)
            (DashboardPage.toasts ui)).
Proof.
  intros session_user_id progressFetch recommendationsFetch showRefreshToast ui.
  unfold DashboardPage.run.
  destruct (DashboardPage.no_user session_user_id) eqn:Hno.
  - rewrite (fetchDashboardData_signed_out _ _ _ _ _ Hno). simpl.
    split; [ reflexivity | split; [ reflexivity | split; [ eauto | split ] ] ].
    + discriminate.
    + reflexivity.
  - destruct session_user_id as [ id | ]; [ | discriminate ].
    assert (Hid : id <> "").
    { intro E. subst id. discriminate. }
    rewrite (fetchDashboardData_signed_in id _ _ _ _ Hid). simpl.
    split; [ reflexivity | split; [ reflexivity | split; [ eauto | split ] ] ].
    + intros _. split; reflexivity.
    + discriminate.
Qed.

(** X6: whatever the backend answers, the dashboard keeps the eight
    sections of the mock data and no other, and its saved content, chat
    history, analytics and user role are those of the mock data: only
    progress, recent activity, achievements and recommendations can come
    from the backend. *)
Theorem dashboard_sections_outside_backend_reach :
  forall (session_user_id : option string)
         (progressFetch recommendationsFetch : FetchOutcome)
         (showRefreshToast : bool) (ui : DashboardPage.UI),
    exists data : JS.Value,
      DashboardPage.dashboardData
        (DashboardPage.run
           (DashboardPage.fetchDashboardData session_user_id progressFetch
              recommendationsFetch showRefreshToast) ui) = Some data
      /\ keys data
         = [ "progress"; "recent_activity"; "achievements"; "saved_content";
             "chat_history"; "recommendations"; "analytics"; "user_role" ]
      /\ JS.getProp data "saved_content"
         = JS.getProp DashboardPage.generateMockData "saved_content"
      /\ JS.getProp data "chat_history"
         = JS.getProp DashboardPage.generateMockData "chat_history"
      /\ JS.getProp data "analytics"
         = JS.getProp DashboardPage.generateMockData "analytics"
      /\ JS.getProp data "user_role" = Some (JS.JStr "student").
Proof.
  intros session_user_id progressFetch recommendationsFetch showRefreshToast ui.
  unfold DashboardPage.run.
  destruct (DashboardPage.no_user session_user_id) eqn:Hno.
  - rewrite (fetchDashboardData_signed_out _ _ _ _ _ Hno). simpl.
    exists DashboardPage.generateMockData. repeat split.
  - destruct session_user_id as [ id | ]; [ | discriminate ].
    assert (Hid : id <> "").
    { intro E. subst id. discriminate. }
    rewrite (fetchDashboardData_signed_in id _ _ _ _ Hid).
    destruct (combine_result
                (DashboardPage.settle (DashboardPage.getUserProgress progressFetch))
                (DashboardPage.settle
                   (DashboardPage.getRecommendations recommendationsFetch)))
      as [props [E [Hk Ho]]].
    rewrite E. exists (JS.JObj props).
    split; [ reflexivity | split; [ simpl; rewrite Hk; exact mock_keys | ] ].
    change (JS.getProp (JS.JObj props)) with (fun k => JS.lookup k props).
    cbv beta. rewrite !Ho by discriminate. repeat split.
Qed.

Lemma spread_lookup (props : list (string * JS.Value)) (v : option JS.Value)
  (k : string) :
  JS.lookup k (DashboardPage.spread_into props v)
  = match last_binding k (DashboardPage.own_props v) with
    | Some x => Some x
    | None => JS.lookup k props
    end.
Proof. unfold DashboardPage.spread_into. apply lookup_fold_assign. Qed.

Lemma mock_progress_copy :
  DashboardPage.spread_into [] (JS.lookup "progress" mock_props) = mock_progress.
Proof. reflexivity. Qed.

Lemma mock_recommendations_copy :
  DashboardPage.spread_into [] (JS.lookup "recommendations" mock_props)
  = mock_recommendations.
Proof. reflexivity. Qed.

Lemma progress_data (value : JS.Value) (recommendationsRes : DashboardPage.Settled) :
  JS.truthy value = true ->
  exists props : list (string * JS.Value),
    DashboardPage.combine (DashboardPage.Fulfilled value) recommendationsRes
    = JS.JObj props
    /\ JS.lookup "progress" props
       = Some (JS.JObj (DashboardPage.spread_into mock_progress
                          (JS.getProp value "progress")))
    /\ JS.lookup "recent_activity" props
       = DashboardPage.or_value (JS.getProp value "recent_activity")
           (JS.lookup "recent_activity" mock_props)
    /\ JS.lookup "achievements" props
       = DashboardPage.or_value (JS.getProp value "achievements")
           (JS.lookup "achievements" mock_props).
Proof.
  intro Ht. rewrite combine_in_two_steps.
  destruct mock_recent_activity as [ra Hra]. destruct mock_achievements as [ach Hach].
  destruct (merge_progress_result mock_props value ra ach mock_keys_NoDup
              mock_keys_no_index)
    as [props1 [E1 [Hk1 [Hp [Hr [Ha _]]]]]]; auto.
  { rewrite mock_keys. now left. }
  assert (E0 : after_progress (DashboardPage.Fulfilled value) = JS.JObj props1).
  { simpl. rewrite Ht, mock_is_object. exact E1. }
  rewrite mock_progress_copy in Hp. rewrite <- Hra in Hr. rewrite <- Hach in Ha.
  rewrite E0.
  destruct recommendationsRes as [ rvalue | reason ].
  - destruct (JS.truthy rvalue).
    + destruct (merge_recommendations_result props1 rvalue)
        as [props2 [E2 [_ [_ Ho2]]]].
      * rewrite Hk1. exact mock_keys_NoDup.
      * rewrite Hk1. exact mock_keys_no_index.
      * rewrite Hk1, mock_keys. simpl. tauto.
      * exists props2. rewrite !Ho2 by discriminate. auto.
    + exists props1. auto.
  - exists props1. auto.
Qed.

(** X7: when the progress request of a signed-in user is answered with a
    truthy value, the progress section of the dashboard holds, key by
    key, the value the answer's [progress] gives (the last binding of the
    key), and the mock value for every key the answer does not bind. The
    recent activity and the achievements are the answer's when they are
    truthy, an empty list included, and the mock ones otherwise. *)
Theorem backend_progress_overrides_mock :
  forall (id : string) (value : JS.Value) (recommendationsFetch : FetchOutcome)
         (showRefreshToast : bool) (ui : DashboardPage.UI),
    id <> "" ->
    JS.truthy value = true ->
    exists (data : JS.Value) (merged : list (string * JS.Value)),
      DashboardPage.dashboardData
        (DashboardPage.run
           (DashboardPage.fetchDashboardData (Some id)
              (FetchResponse true (Some value)) recommendationsFetch
              showRefreshToast) ui) = Some data
      /\ JS.getProp data "progress" = Some (JS.JObj merged)
      /\ (forall k : string,
            JS.lookup k merged
            = match last_binding k
                      (DashboardPage.own_props (JS.getProp value "progress")) with
              | Some v => Some v
              | None => JS.lookup k mock_progress
              end)
      /\ JS.getProp data "recent_activity"
         = (if JS.truthy_opt (JS.getProp value "recent_activity")
            then JS.getProp value "recent_activity"
            else JS.getProp DashboardPage.generateMockData "recent_activity")
      /\ JS.getProp data "achievements"
         = (if JS.truthy_opt (JS.getProp value "achievements")
            then JS.getProp value "achievements"
            else JS.getProp DashboardPage.generateMockData "achievements").
Proof.
  intros id value recommendationsFetch showRefreshToast ui Hid Ht.
  unfold DashboardPage.run.
  rewrite (fetchDashboardData_signed_in id _ _ _ _ Hid).
  change (DashboardPage.settle
            (DashboardPage.getUserProgress (FetchResponse true (Some value))))
    with (DashboardPage.Fulfilled value).
  destruct (progress_data value
              (DashboardPage.settle (DashboardPage.getRecommendations recommendationsFetch))
              Ht) as [props [E [Hp [Hr Ha]]]].
  rewrite E.
  exists (JS.JObj props),
    (DashboardPage.spread_into mock_progress (JS.getProp value "progress")).
  split; [ reflexivity | split; [ exact Hp | split; [ | split ] ] ].
  - intro k. apply spread_lookup.
  - exact Hr.
  - exact Ha.
Qed.

Lemma backend_progress_witness :
  exists data : JS.Value,
    DashboardPage.dashboardData
      (DashboardPage.run
         (DashboardPage.fetchDashboardData (Some "user-1")
            (FetchResponse true (Some progress_answer)) FetchRejects false)
         DashboardPage.initialUI) = Some data
    /\ JS.getProp data "recent_activity" = Some (JS.JArr [])
    /\ JS.getProp data "achievements"
       = JS.getProp DashboardPage.generateMockData "achievements".
Proof.
  destruct (backend_progress_overrides_mock "user-1" progress_answer FetchRejects
              false DashboardPage.initialUI ltac:(discriminate) eq_refl)
    as [data [merged [Hd [_ [_ [Hr Ha]]]]]].
  exists data. split; [ exact Hd | split; [ exact Hr | exact Ha ] ].
Defined.

Example backend_progress_example :
  match DashboardPage.dashboardData
          (DashboardPage.run
             (DashboardPage.fetchDashboardData (Some "user-1")
                (FetchResponse true (Some progress_answer)) FetchRejects false)
             DashboardPage.initialUI) with
  | Some data =>
      match JS.getProp data "progress" with
      | Some progress =>
          (JS.getProp progress "next_milestone",
           JS.getProp progress "lessons_completed",
           JS.getProp progress "total_lessons",
           JS.getProp data "user_role")
      | None => (None, None, None, None)
      end
  | None => (None, None, None, None)
  end
  = (Some (JS.JStr "Senior Developer"), Some (JS.num 30), Some (JS.num 100),
     Some (JS.JStr "student")).
Proof. vm_compute. reflexivity. Qed.

Lemma recommendations_data (progressRes : DashboardPage.Settled) (value : JS.Value) :
  JS.truthy value = true ->
  exists props : list (string * JS.Value),
    DashboardPage.combine progressRes (DashboardPage.Fulfilled value) = JS.JObj props
    /\ JS.lookup "recommendations" props
       = Some (JS.JObj (DashboardPage.spread_into mock_recommendations (Some value))).
Proof.
  intro Ht. rewrite combine_in_two_steps, Ht.
  destruct (after_progress_result progressRes) as [props1 [E1 [Hk1 Ho1]]].
  rewrite E1.
  destruct (merge_recommendations_result props1 value) as [props2 [E2 [_ [Hr _]]]].
  - rewrite Hk1. exact mock_keys_NoDup.
  - rewrite Hk1. exact mock_keys_no_index.
  - rewrite Hk1, mock_keys. simpl. tauto.
  - exists props2. split; [ exact E2 | ].
    rewrite Hr, Ho1 by discriminate. now rewrite mock_recommendations_copy.
Qed.

(** X8: when the recommendations request of a signed-in user is answered
    with a truthy value, the recommendations section of the dashboard
    holds, key by key, the value the answer gives (the last binding of
    the key), and the mock value for every key the answer does not
    bind. *)
Theorem backend_recommendations_override_mock :
  forall (id : string) (progressFetch : FetchOutcome) (value : JS.Value)
         (showRefreshToast : bool) (ui : DashboardPage.UI),
    id <> "" ->
    JS.truthy value = true ->
    exists (data : JS.Value) (merged : list (string * JS.Value)),
      DashboardPage.dashboardData
        (DashboardPage.run
           (DashboardPage.fetchDashboardData (Some id) progressFetch
              (FetchResponse true (Some value)) showRefreshToast) ui) = Some data
      /\ JS.getProp data "recommendations" = Some (JS.JObj merged)
      /\ (forall k : string,
            JS.lookup k merged
            = match last_binding k (DashboardPage.own_props (Some value)) with
              | Some v => Some v
              | None => JS.lookup k mock_recommendations
              end).
Proof.
  intros id progressFetch value showRefreshToast ui Hid Ht.
  unfold DashboardPage.run.
  rewrite (fetchDashboardData_signed_in id _ _ _ _ Hid).
  change (DashboardPage.settle
            (DashboardPage.getRecommendations (FetchResponse true (Some value))))
    with (DashboardPage.Fulfilled value).
  destruct (recommendations_data
              (DashboardPage.settle (DashboardPage.getUserProgress progressFetch))
              value Ht) as [props [E Hr]].
  rewrite E.
  exists (JS.JObj props), (DashboardPage.spread_into mock_recommendations (Some value)).
  split; [ reflexivity | split; [ exact Hr | ] ].
  intro k. apply spread_lookup.
Qed.

Lemma backend_recommendations_witness :
  exists (data : JS.Value) (merged : list (string * JS.Value)),
    DashboardPage.dashboardData
      (DashboardPage.run
         (DashboardPage.fetchDashboardData (Some "user-1") FetchRejects
            (FetchResponse true (Some (JS.JObj [("skill_gaps", JS.JArr [])]))) true)
         DashboardPage.initialUI) = Some data
    /\ JS.getProp data "recommendations" = Some (JS.JObj merged)
    /\ JS.lookup "skill_gaps" merged = Some (JS.JArr []).
Proof.
  destruct (backend_recommendations_override_mock "user-1" FetchRejects
              (JS.JObj [("skill_gaps", JS.JArr [])]) true DashboardPage.initialUI
              ltac:(discriminate) eq_refl)
    as [data [merged [Hd [Hr Hk]]]].
  exists data, merged. split; [ exact Hd | split; [ exact Hr | ] ].
  rewrite Hk. reflexivity.
Defined.

(** X9: [fetchDashboardData] shows at most one toast, "Dashboard
    Updated", and only for a signed-in user who asked for a refresh
    toast; the toast "Using Demo Data" of its [catch] block is never
    shown, whatever the two requests do. *)
Theorem dashboard_never_announces_demo_data :
  forall (session_user_id : option string)
         (progressFetch recommendationsFetch : FetchOutcome)
         (showRefreshToast : bool) (ui : DashboardPage.UI),
    exists shown : list DashboardPage.Toast,
      DashboardPage.toasts
        (DashboardPage.run
           (DashboardPage.fetchDashboardData session_user_id progressFetch
              recommendationsFetch showRefreshToast) ui)
      = (DashboardPage.toasts ui ++ shown)%list
      /\ (shown = []
          \/ (shown = [DashboardPage.updated_toast]
              /\ showRefreshToast = true
              /\ DashboardPage.no_user session_user_id = false))
      /\ ~ In DashboardPage.demo_toast shown.
Proof.
  intros session_user_id progressFetch recommendationsFetch showRefreshToast ui.
  unfold DashboardPage.run.
  destruct (DashboardPage.no_user session_user_id) eqn:Hno.
  - rewrite (fetchDashboardData_signed_out _ _ _ _ _ Hno). simpl.
    exists []. rewrite app_nil_r. split; [ reflexivity | split; [ now left | ] ].
    intros [].
  - destruct session_user_id as [ id | ]; [ | discriminate ].
    assert (Hid : id <> "").
    { intro E. subst id. discriminate. }
    rewrite (fetchDashboardData_signed_in id _ _ _ _ Hid). simpl.
    destruct showRefreshToast.
    + exists [DashboardPage.updated_toast].
      split; [ reflexivity | split; [ right; auto | ] ].
      intros [H | []]. discriminate.
    + exists []. split; [ reflexivity | split; [ now left | ] ]. intros [].
Qed.

(** ** The interests route *)

Lemma interests_GET_readable (data : JS.Value) :
  data <> JS.JNull ->
  InterestsRoute.GET (FetchResponse true (Some data))
  = mkResponse 200
      (JS.JObj
         [("interests",
           if JS.truthy_opt (JS.getProp data "interests")
           then match JS.getProp data "interests" with
                | Some v => v
                | None => JS.JArr []
                end
           else JS.JArr [])]).
Proof.
  intro Hn. unfold InterestsRoute.GET.
  assert (Hr : read_prop data "interests" = Return (JS.getProp data "interests")).
  { destruct data; try reflexivity. contradiction. }
  cbn. rewrite Hr. cbn.
  destruct (JS.getProp data "interests") as [ v | ]; cbn; [ | reflexivity ].
  destruct (JS.truthy v); reflexivity.
Qed.

Lemma value_null_or_not (data : JS.Value) : data = JS.JNull \/ data <> JS.JNull.
Proof. destruct data; (now left) || (right; discriminate). Qed.

(** X10: the interests route always answers 200 or 500 with an
    [interests] property. It answers 500, with the fallback list, exactly
    when the fetch rejects or an ok answer has a body that is not JSON or
    is [null]. An ok answer with a readable body is passed on with status
    200: its [interests] when truthy, and otherwise the empty list, not
    the fallback list. *)
Theorem interests_route_answers :
  forall interestsFetch : FetchOutcome,
    (status (InterestsRoute.GET interestsFetch) = 200
     \/ status (InterestsRoute.GET interestsFetch) = 500)
    /\ (exists v : JS.Value,
          JS.getProp (body (InterestsRoute.GET interestsFetch)) "interests" = Some v)
    /\ (status (InterestsRoute.GET interestsFetch) = 500 <->
        interestsFetch = FetchRejects
        \/ interestsFetch = FetchResponse true None
        \/ interestsFetch = FetchResponse true (Some JS.JNull))
    /\ (status (InterestsRoute.GET interestsFetch) = 500 ->
        JS.getProp (body (InterestsRoute.GET interestsFetch)) "interests"
        = Some (JS.JArr InterestsRoute.fallbackInterests))
    /\ (forall data : JS.Value,
          interestsFetch = FetchResponse true (Some data) ->
          data <> JS.JNull ->
          InterestsRoute.GET interestsFetch
          = mkResponse 200
              (JS.JObj
                 [("interests",
                   if JS.truthy_opt (JS.getProp data "interests")
                   then match JS.getProp data "interests" with
                        | Some v => v
                        | None => JS.JArr []
                        end
                   else JS.JArr [])])).
Proof.
  intro interestsFetch.
  destruct interestsFetch as [ | ok json ].
  - (* the fetch rejects *)
    cbn. split; [ now right | split; [ eauto | split; [ | split ] ] ].
    + split; auto.
    + reflexivity.
    + intros data H. discriminate.
  - destruct ok.
    + destruct json as [ data | ].
      * destruct (value_null_or_not data) as [E | Hn].
        { (* ok, the body is null *)
          subst data. cbn. split; [ now right | split; [ eauto | split; [ | split ] ] ].
          - split; auto.
          - reflexivity.
          - intros data H Hn. injection H as <-. contradiction. }
        { (* ok, a readable body *)
          rewrite (interests_GET_readable data Hn).
          cbn [status body]. split; [ now left | split; [ | split; [ | split ] ] ].
          - cbn. eauto.
          - split; [ discriminate | ].
            intros [H | [H | H]]; try discriminate.
            injection H as H. contradiction.
          - discriminate.
          - intros d H _. now injection H as <-. }
      * (* ok, the body is not JSON *)
        cbn. split; [ now right | split; [ eauto | split; [ | split ] ] ].
        { split; auto. }
        { reflexivity. }
        { intros data H. discriminate. }
    + (* not ok *)
      cbn. split; [ now left | split; [ eauto | split; [ | split ] ] ].
      * split; [ discriminate | intros [H | [H | H]]; discriminate ].
      * discriminate.
      * intros d H. discriminate.
Qed.

(** ** The union of the skills route *)

Lemma same_value_zero_string (a : string) (z : JS.Value) :
  SkillsRoute.same_value_zero (JS.JStr a) z = true -> z = JS.JStr a.
Proof.
  destruct z; simpl; try discriminate.
  intro H. apply String.eqb_eq in H. now subst.
Qed.

Lemma existsb_same_string (x : JS.Value) (l : list JS.Value) :
  SkillsRoute.is_string x ->
  existsb (SkillsRoute.same_value_zero x) l = true <-> In x l.
Proof.
  intro Hx. destruct x as [ | | | a | | ]; simpl in Hx; try contradiction.
  split.
  - intro H. apply existsb_exists in H. destruct H as [z [Hz Hs]].
    apply same_value_zero_string in Hs. now subst z.
  - intro H. apply existsb_exists. exists (JS.JStr a).
    split; [ exact H | simpl; apply String.eqb_refl ].
Qed.

Lemma Set_add_keeps (acc : list JS.Value) (x y : JS.Value) :
  In y acc -> In y (SkillsRoute.Set_add acc x).
Proof.
  intro H. unfold SkillsRoute.Set_add.
  destruct (existsb _ acc); [ exact H | apply in_or_app; now left ].
Qed.

Lemma Set_add_from (acc : list JS.Value) (x y : JS.Value) :
  In y (SkillsRoute.Set_add acc x) -> In y acc \/ y = x.
Proof.
  unfold SkillsRoute.Set_add. destruct (existsb _ acc); intro H; [ now left | ].
  apply in_app_or in H. destruct H as [H | [H | []]]; [ now left | now right ].
Qed.

Lemma Set_add_string (acc : list JS.Value) (x : JS.Value) :
  SkillsRoute.is_string x -> In x (SkillsRoute.Set_add acc x).
Proof.
  intro Hx. unfold SkillsRoute.Set_add.
  destruct (existsb (SkillsRoute.same_value_zero x) acc) eqn:E.
  - now apply (existsb_same_string x acc Hx).
  - apply in_or_app. right. now left.
Qed.

Lemma fold_Set_add_members (items acc : list JS.Value) (x : JS.Value) :
  Forall SkillsRoute.is_string items ->
  In x (fold_left SkillsRoute.Set_add items acc) <-> In x acc \/ In x items.
Proof.
  revert acc. induction items as [ | y items IH]; intros acc Hstr; simpl.
  - tauto.
  - inversion Hstr as [ | ? ? Hy Hrest]; subst. rewrite (IH _ Hrest). split.
    + intros [H | H]; [ | tauto ].
      apply Set_add_from in H. destruct H as [H | H]; [ tauto | subst; tauto ].
    + intros [H | [H | H]].
      * left. now apply Set_add_keeps.
      * subst y. left. now apply Set_add_string.
      * now right.
Qed.

Lemma skills_GET_arrays (payload : JS.Value) (s f : list JS.Value) :
  skills_payload payload s ->
  SkillsRoute.GET (FetchResponse true (Some payload))
    (FetchResponse true (Some (JS.JArr f)))
  = mkResponse 200
      (SkillsRoute.mkBody
         (match SkillsRoute.Array_from_Set (s ++ f) with
          | [] => SkillsRoute.fallbackSkills
          | x :: rest => x :: rest
          end)).
Proof.
  intros [E | [props [E Hs]]]; subst payload; unfold SkillsRoute.GET; cbn.
  - destruct (SkillsRoute.Array_from_Set (s ++ f)); reflexivity.
  - rewrite Hs. cbn. destruct (SkillsRoute.Array_from_Set (s ++ f)); reflexivity.
Qed.






Example code_points_and_units :
  JS.code_points ("a" ++ JS.utf8 [195; 169] ++ JS.utf8 [240; 159; 152; 128])
  = ["a"; JS.utf8 [195; 169]; JS.utf8 [240; 159; 152; 128]]
  /\ JS.code_units ("a" ++ JS.utf8 [195; 169] ++ JS.utf8 [240; 159; 152; 128])
     = ["a"; JS.utf8 [195; 169]; JS.utf8 [237; 160; 189]; JS.utf8 [237; 184; 128]].
Proof. split; reflexivity. Qed.

(** A string under [skills] is spread into its code points. *)
Example skills_of_a_string :
  SkillsRoute.GET
    (FetchResponse true (Some (JS.JObj [("skills", JS.JStr (JS.utf8 [195; 169; 195; 169; 97]))])))
    (FetchResponse false None)
  = mkResponse 200
      (SkillsRoute.mkBody [JS.JStr (JS.utf8 [195; 169]); JS.JStr "a"]).
Proof. reflexivity. Qed.

(** X11: when /api/skills answers with a list of strings, as an array or
    under [skills], and /api/frameworks with an array of strings, not
    both empty, the route answers 200 with exactly the strings of the two
    lists, each once: nothing is lost and nothing is added. *)
Theorem skills_are_the_union :
  forall (payload : JS.Value) (s f : list JS.Value),
    skills_payload payload s ->
    Forall SkillsRoute.is_string s ->
    Forall SkillsRoute.is_string f ->
    (s ++ f)%list <> [] ->
    status (SkillsRoute.GET (FetchResponse true (Some payload))
              (FetchResponse true (Some (JS.JArr f)))) = 200
    /\ (forall x : JS.Value,
          In x (SkillsRoute.skills
                  (body (SkillsRoute.GET (FetchResponse true (Some payload))
                           (FetchResponse true (Some (JS.JArr f))))))
          <-> In x s \/ In x f)
    /\ NoDup (SkillsRoute.skills
                (body (SkillsRoute.GET (FetchResponse true (Some payload))
                         (FetchResponse true (Some (JS.JArr f)))))).
Proof.
  intros payload s f Hp Hs Hf Hne.
  rewrite (skills_GET_arrays payload s f Hp). cbn [status body SkillsRoute.skills].
  assert (Hstr : Forall SkillsRoute.is_string (s ++ f)) by now apply Forall_app.
  assert (Hmem : forall x, In x (SkillsRoute.Array_from_Set (s ++ f))
                           <-> In x s \/ In x f).
  { intro x. unfold SkillsRoute.Array_from_Set.
    rewrite (fold_Set_add_members _ _ x Hstr), in_app_iff. simpl. tauto. }
  destruct (SkillsRoute.Array_from_Set (s ++ f)) as [ | y rest ] eqn:E.
  - exfalso. destruct (s ++ f)%list as [ | z l ] eqn:Ez; [ now apply Hne | ].
    assert (Hz : In z []).
    { apply Hmem. apply in_app_or. rewrite Ez. now left. }
    exact Hz.
  - split; [ reflexivity | split; [ exact Hmem | ] ].
    apply Distinct_strings_NoDup.
    + apply Forall_forall. intros x Hx. apply Hmem in Hx.
      rewrite Forall_forall in Hs, Hf. destruct Hx; auto.
    + rewrite <- E. apply Array_from_Set_Distinct.
Qed.

Lemma skills_are_the_union_witness :
  NoDup (SkillsRoute.skills
           (body (SkillsRoute.GET
                    (FetchResponse true
                       (Some (JS.JObj [("skills", JS.JArr [JS.JStr "Go"; JS.JStr "Go"])])))
                    (FetchResponse true (Some (JS.JArr [JS.JStr "Vue"; JS.JStr "Go"])))))).
Proof.
  apply (skills_are_the_union
           (JS.JObj [("skills", JS.JArr [JS.JStr "Go"; JS.JStr "Go"])])
           [JS.JStr "Go"; JS.JStr "Go"] [JS.JStr "Vue"; JS.JStr "Go"]).
  - right. eexists. split; reflexivity.
  - repeat constructor.
  - repeat constructor.
  - discriminate.
Defined.

Lemma Distinct_middle (l1 l2 : list JS.Value) (x : JS.Value) :
  SkillsRoute.Distinct (l1 ++ x :: l2) ->
  existsb (SkillsRoute.same_value_zero x) l1 = false.
Proof.
  induction l1 as [ | y l1 IH]; simpl; intro H; [ reflexivity | ].
  inversion H as [ | ? ? Hy Hrest]; subst.
  rewrite (IH Hrest), orb_false_r.
  rewrite existsb_app in Hy. simpl in Hy.
  apply orb_false_iff in Hy. destruct Hy as [_ Hy].
  apply orb_false_iff in Hy. destruct Hy as [Hy _].
  now rewrite same_value_zero_sym.
Qed.

Lemma fold_Set_add_distinct (items acc : list JS.Value) :
  SkillsRoute.Distinct (acc ++ items) ->
  fold_left SkillsRoute.Set_add items acc = (acc ++ items)%list.
Proof.
  revert acc. induction items as [ | x items IH]; intros acc H; simpl.
  - now rewrite app_nil_r.
  - unfold SkillsRoute.Set_add at 2. rewrite (Distinct_middle acc items x H).
    rewrite IH; rewrite <- app_assoc; [ reflexivity | exact H ].
Qed.

Lemma fold_Set_add_extends (items acc : list JS.Value) :
  exists rest : list JS.Value,
    fold_left SkillsRoute.Set_add items acc = (acc ++ rest)%list
    /\ incl rest items.
Proof.
  revert acc. induction items as [ | x items IH]; intro acc; simpl.
  - exists []. split; [ now rewrite app_nil_r | intros y [] ].
  - destruct (IH (SkillsRoute.Set_add acc x)) as [rest [E Hincl]].
    unfold SkillsRoute.Set_add in E |- *.
    destruct (existsb (SkillsRoute.same_value_zero x) acc).
    + exists rest. split; [ exact E | ]. intros y Hy. right. now apply Hincl.
    + exists (x :: rest). split.
      * rewrite E, <- app_assoc. reflexivity.
      * intros y [Hy | Hy]; [ now left | right; now apply Hincl ].
Qed.

(** X12: when the list of /api/skills is not empty and has no value
    twice, the route lists these skills first, in the order received, and
    after them only values of /api/frameworks. *)
Theorem skills_come_first_in_order :
  forall (payload : JS.Value) (s f : list JS.Value),
    skills_payload payload s ->
    SkillsRoute.Distinct s ->
    s <> [] ->
    exists rest : list JS.Value,
      SkillsRoute.skills
        (body (SkillsRoute.GET (FetchResponse true (Some payload))
                 (FetchResponse true (Some (JS.JArr f)))))
      = (s ++ rest)%list
      /\ incl rest f.
Proof.
  intros payload s f Hp Hd Hne.
  rewrite (skills_GET_arrays payload s f Hp). cbn [body SkillsRoute.skills].
  unfold SkillsRoute.Array_from_Set. rewrite fold_left_app.
  rewrite (fold_Set_add_distinct s []) by exact Hd. simpl app.
  destruct (fold_Set_add_extends f s) as [rest [E Hincl]].
  rewrite E. exists rest. split; [ | exact Hincl ].
  destruct s as [ | x s ]; [ contradiction | reflexivity ].
Qed.

Lemma skills_come_first_witness :
  exists rest : list JS.Value,
    SkillsRoute.skills
      (body (SkillsRoute.GET
               (FetchResponse true (Some (JS.JArr [JS.JStr "Go"; JS.JStr "SQL"])))
               (FetchResponse true (Some (JS.JArr [JS.JStr "SQL"; JS.JStr "Vue"])))))
    = ([JS.JStr "Go"; JS.JStr "SQL"] ++ rest)%list
    /\ incl rest [JS.JStr "SQL"; JS.JStr "Vue"].
Proof.
  apply (skills_come_first_in_order (JS.JArr [JS.JStr "Go"; JS.JStr "SQL"])
           [JS.JStr "Go"; JS.JStr "SQL"] [JS.JStr "SQL"; JS.JStr "Vue"]).
  - now left.
  - repeat (constructor; [ reflexivity | ]). constructor.
  - discriminate.
Defined.

(** ** More on the write endpoints *)

(** X13: chat-save reports the first missing field only, in the order
    user, conversation, messages, whatever else is missing; and a saved
    conversation is answered with the conversation id that was sent. *)
Theorem chat_save_first_failure_and_echo :
  forall (req : NextRequest) (data : JS.Value),
    json_body req = Some data ->
    data <> JS.JNull ->
    (Falsy (JS.getProp data "userId") ->
     ChatSaveRoute.POST req
     = mkResponse 400 (JS.JObj [("message", JS.JStr "User ID is required")]))
    /\ (JS.truthy_opt (JS.getProp data "userId") = true ->
        Falsy (JS.getProp data "conversationId") ->
        ChatSaveRoute.POST req
        = mkResponse 400 (JS.JObj [("message", JS.JStr "Conversation ID is required")]))
    /\ (JS.truthy_opt (JS.getProp data "userId") = true ->
        JS.truthy_opt (JS.getProp data "conversationId") = true ->
        Falsy (JS.getProp data "messages") \/ EmptyLength (JS.getProp data "messages") ->
        ChatSaveRoute.POST req
        = mkResponse 400 (JS.JObj [("message", JS.JStr "No messages to save")]))
    /\ (status (ChatSaveRoute.POST req) = 200 ->
        exists c : JS.Value,
          JS.getProp data "conversationId" = Some c
          /\ ChatSaveRoute.POST req
             = mkResponse 200
                 (JS.JObj [("message", JS.JStr "Conversation saved successfully");
                           ("conversationId", c)])).
Proof.
  intros req data E Hnull.
  assert (Hd : destructure data = Return data).
  { destruct data; try reflexivity. contradiction. }
  unfold ChatSaveRoute.POST. rewrite E. cbn [bind await_json]. rewrite Hd.
  cbn [bind]. cbv zeta.
  split; [ | split; [ | split ] ].
  - intro H. apply truthy_opt_false_iff in H. now rewrite H.
  - intros Hu H. apply truthy_opt_false_iff in H. now rewrite Hu, H.
  - intros Hu Hc H. apply messages_rejected_iff in H. now rewrite Hu, Hc, H.
  - destruct (JS.truthy_opt (JS.getProp data "userId")); cbn [negb];
      [ | discriminate ].
    destruct (JS.truthy_opt (JS.getProp data "conversationId")) eqn:Hc; cbn [negb];
      [ | discriminate ].
    destruct (negb (JS.truthy_opt (JS.getProp data "messages"))
              || JS.strict_eq_zero
                   (ChatSaveRoute.messages_length (JS.getProp data "messages")));
      [ discriminate | ].
    destruct (JS.template_literal
                [JS.getProp data "userId"; JS.getProp data "conversationId"]);
      [ discriminate | ].
    intros _. destruct (JS.getProp data "conversationId") as [ c | ];
      [ | discriminate ].
    exists c. split; reflexivity.
Qed.

Lemma chat_save_first_failure_witness :
  ChatSaveRoute.POST chat_request_without_user
  = mkResponse 400 (JS.JObj [("message", JS.JStr "User ID is required")])
  /\ exists c : JS.Value,
       JS.getProp (JS.JObj [("userId", JS.JStr "u1"); ("conversationId", JS.JStr "c1");
                            ("messages", JS.JArr [JS.JStr "hello"])]) "conversationId"
       = Some c
       /\ ChatSaveRoute.POST chat_request
          = mkResponse 200
              (JS.JObj [("message", JS.JStr "Conversation saved successfully");
                        ("conversationId", c)]).
Proof.
  split.
  - apply (proj1 (chat_save_first_failure_and_echo chat_request_without_user
                    (JS.JObj [("conversationId", JS.JStr ""); ("messages", JS.JArr [])])
                    eq_refl ltac:(discriminate))).
    constructor.
  - apply (proj2 (proj2 (proj2
      (chat_save_first_failure_and_echo chat_request
         (JS.JObj [("userId", JS.JStr "u1"); ("conversationId", JS.JStr "c1");
                   ("messages", JS.JArr [JS.JStr "hello"])])
         eq_refl ltac:(discriminate))))).
    reflexivity.
Defined.

(** X14: lesson-save reads the body before its [try] block: the handler
    itself throws, and builds no response, exactly when the body is not
    JSON or is [null]; the store is then not asked. *)
Theorem lesson_save_throws_on_unreadable_body :
  forall (insert : string -> list JS.Value -> LessonSaveRoute.InsertOutcome)
         (req : NextRequest),
    ((exists e : string, LessonSaveRoute.POST insert req = Throw e) <->
     json_body req = None \/ json_body req = Some JS.JNull)
    /\ (json_body req = None \/ json_body req = Some JS.JNull ->
        forall insert' : string -> list JS.Value -> LessonSaveRoute.InsertOutcome,
          LessonSaveRoute.POST insert' req = LessonSaveRoute.POST insert req).
Proof.
  intros insert req. split.
  - split.
    + intros [e He].
      destruct (json_body_cases req) as [Hbad | [data [E Hnull]]]; [ exact Hbad | ].
      destruct (lesson_save_status insert req data E Hnull) as [resp [Hr _]].
      congruence.
    + intros [E | E]; unfold LessonSaveRoute.POST; rewrite E; simpl; eauto.
  - intros [E | E] insert'; unfold LessonSaveRoute.POST; rewrite E; reflexivity.
Qed.

Lemma lookup_prop_app (k k' : string) (o : option JS.Value)
  (rest : list (string * JS.Value)) :
  JS.lookup k (prop k' o ++ rest)
  = if String.eqb k' k
    then match o with
         | Some v => Some v
         | None => JS.lookup k rest
         end
    else JS.lookup k rest.
Proof.
  destruct o as [ v | ]; simpl.
  - reflexivity.
  - now destruct (String.eqb k' k).
Qed.

Lemma row_lookup (data : JS.Value) (k : string) :
  JS.getProp (LessonSaveRoute.row data) k
  = if JS.includes lesson_fields k then JS.getProp data k else None.
Proof.
  unfold LessonSaveRoute.row, lesson_fields, JS.includes.
  change (JS.getProp (JS.JObj ?l) k) with (JS.lookup k l).
  rewrite <- (app_nil_r (prop "explanation_level" _)).
  rewrite !lookup_prop_app. cbn [existsb JS.lookup].
  destruct (String.eqb_spec "lesson_id" k) as [<- | N1];
    [ destruct (JS.getProp data "lesson_id"); reflexivity | ].
  destruct (String.eqb_spec "user_id" k) as [<- | N2];
    [ destruct (JS.getProp data "user_id"); reflexivity | ].
  destruct (String.eqb_spec "file_name" k) as [<- | N3];
    [ destruct (JS.getProp data "file_name"); reflexivity | ].
  destruct (String.eqb_spec "framework" k) as [<- | N4];
    [ destruct (JS.getProp data "framework"); reflexivity | ].
  destruct (String.eqb_spec "explanation_level" k) as [<- | N5];
    [ destruct (JS.getProp data "explanation_level"); reflexivity | ].
  reflexivity.
Qed.

(** X15: lesson-save hands the store one row made of the five known
    fields as the body has them, and of nothing else the body may carry;
    and it asks the store only after the validation: a request that is
    unreadable or misses a required field gets the same outcome whatever
    the store would do. A valid request is answered with what the store
    returns. *)
Theorem lesson_save_inserts_known_fields_after_validation :
  (forall (data : JS.Value) (k : string),
      JS.getProp (LessonSaveRoute.row data) k
      = if JS.includes lesson_fields k then JS.getProp data k else None)
  /\ (forall (insert insert' : string -> list JS.Value -> LessonSaveRoute.InsertOutcome)
             (req : NextRequest),
        (forall data : JS.Value,
            json_body req = Some data -> data <> JS.JNull ->
            Falsy (JS.getProp data "lesson_id")
            \/ Falsy (JS.getProp data "user_id")
            \/ Falsy (JS.getProp data "file_name")) ->
        LessonSaveRoute.POST insert req = LessonSaveRoute.POST insert' req)
  /\ (forall (insert : string -> list JS.Value -> LessonSaveRoute.InsertOutcome)
             (req : NextRequest) (data stored : JS.Value),
        json_body req = Some data -> data <> JS.JNull ->
        JS.truthy_opt (JS.getProp data "lesson_id") = true ->
        JS.truthy_opt (JS.getProp data "user_id") = true ->
        JS.truthy_opt (JS.getProp data "file_name") = true ->
        insert "user_lessons" [LessonSaveRoute.row data]
        = LessonSaveRoute.InsertResolves stored None ->
        LessonSaveRoute.POST insert req
        = Return (mkResponse 200
                    (JS.JObj [("message", JS.JStr "Lesson saved successfully");
                              ("data", stored)]))).
Proof.
  split; [ exact row_lookup | split ].
  - intros insert insert' req Hmiss.
    destruct (json_body_cases req) as [[E | E] | [data [E Hnull]]].
    + unfold LessonSaveRoute.POST. now rewrite E.
    + unfold LessonSaveRoute.POST. now rewrite E.
    + assert (Hd : destructure data = Return data).
      { destruct data; try reflexivity. contradiction. }
      unfold LessonSaveRoute.POST. rewrite E. simpl. rewrite Hd. simpl.
      destruct (Hmiss data E Hnull) as [H | [H | H]];
        apply truthy_opt_false_iff in H; rewrite H; simpl;
        rewrite ?orb_true_r; reflexivity.
  - intros insert req data stored E Hnull H1 H2 H3 Hins.
    assert (Hd : destructure data = Return data).
    { destruct data; try reflexivity. contradiction. }
    unfold LessonSaveRoute.POST. rewrite E. simpl. rewrite Hd. simpl.
    rewrite H1, H2, H3. simpl. now rewrite Hins.
Qed.

Lemma lesson_save_inserts_witness :
  LessonSaveRoute.POST failing_insert lesson_request_without_file
  = LessonSaveRoute.POST succeeding_insert lesson_request_without_file
  /\ LessonSaveRoute.POST succeeding_insert lesson_request
     = Return (mkResponse 200
                 (JS.JObj [("message", JS.JStr "Lesson saved successfully");
                           ("data",
                            JS.JArr
                              [LessonSaveRoute.row
                                 (JS.JObj [("lesson_id", JS.JStr "l1");
                                           ("user_id", JS.JStr "u1");
                                           ("file_name", JS.JStr "notes.pdf")])])])).
Proof.
  split.
  - apply (proj1 (proj2 lesson_save_inserts_known_fields_after_validation)).
    intros data E Hnull. injection E as <-. right; right. constructor.
  - apply (proj2 (proj2 lesson_save_inserts_known_fields_after_validation)
             succeeding_insert lesson_request
             (JS.JObj [("lesson_id", JS.JStr "l1"); ("user_id", JS.JStr "u1");
                       ("file_name", JS.JStr "notes.pdf")]));
      try reflexivity. discriminate.
Defined.

Example row_drops_unknown_fields :
  LessonSaveRoute.row
    (JS.JObj [("lesson_id", JS.JStr "l1"); ("user_id", JS.JStr "u1");
              ("is_admin", JS.JBool true); ("file_name", JS.JStr "a.pdf")])
  = JS.JObj [("lesson_id", JS.JStr "l1"); ("user_id", JS.JStr "u1");
             ("file_name", JS.JStr "a.pdf")].
Proof. reflexivity. Qed.

(** X16: a successful upload is answered with the first uuid as file id,
    with the url /uploaded-files/<file id>-<file name>, and with the
    conversation id of the query string when one is given and not empty,
    the second uuid otherwise; the first [file] entry of the form is the
    one used. *)
Theorem chat_upload_success_fields :
  forall (uuid1 uuid2 : string) (req : NextRequest),
    status (ChatUploadRoute.POST uuid1 uuid2 req) = 200 ->
    exists (entries : list (string * FormEntry)) (file : FormEntry),
      form_body req = Some entries
      /\ ChatUploadRoute.formData_get entries "file" = Some file
      /\ file <> FormText ""
      /\ JS.getProp (body (ChatUploadRoute.POST uuid1 uuid2 req)) "fileId"
         = Some (JS.JStr uuid1)
      /\ JS.getProp (body (ChatUploadRoute.POST uuid1 uuid2 req)) "url"
         = Some (JS.JStr ("/uploaded-files/" ++ uuid1 ++ "-"
                          ++ match file with
                             | FormFile name _ => name
                             | FormText _ => "undefined"
                             end))
      /\ JS.getProp (body (ChatUploadRoute.POST uuid1 uuid2 req)) "conversation_id"
         = Some (JS.JStr
                   (match searchParams_get (searchParams req) "conversation_id" with
                    | Some c => if String.eqb c "" then uuid2 else c
                    | None => uuid2
                    end)).
Proof.
  intros uuid1 uuid2 req. unfold ChatUploadRoute.POST.
  destruct (form_body req) as [ entries | ]; simpl; [ | discriminate ].
  destruct (ChatUploadRoute.formData_get entries "file")
    as [ [ text | name content ] | ] eqn:Efile; simpl; [ | | discriminate ].
  - destruct (String.eqb_spec text "") as [Ht | Ht]; simpl; [ discriminate | ].
    intros _. exists entries, (FormText text).
    split; [ reflexivity | split; [ exact Efile | split; [ congruence | ] ] ].
    repeat split.
  - intros _. exists entries, (FormFile name content).
    split; [ reflexivity | split; [ exact Efile | split; [ discriminate | ] ] ].
    repeat split.
Qed.

Lemma chat_upload_success_witness :
  exists (entries : list (string * FormEntry)) (file : FormEntry),
    form_body upload_request = Some entries
    /\ ChatUploadRoute.formData_get entries "file" = Some file
    /\ JS.getProp (body (ChatUploadRoute.POST "id-1" "id-2" upload_request)) "url"
       = Some (JS.JStr "/uploaded-files/id-1-notes.pdf")
    /\ JS.getProp (body (ChatUploadRoute.POST "id-1" "id-2" upload_request))
         "conversation_id" = Some (JS.JStr "c7").
Proof.
  destruct (chat_upload_success_fields "id-1" "id-2" upload_request eq_refl)
    as [entries [file [E [Hf [_ [_ [Hu Hc]]]]]]].
  exists entries, file. split; [ exact E | split; [ exact Hf | split ] ].
  - reflexivity.
  - exact Hc.
Defined.

(** ** Interests, roles and the second page *)

Lemma interest_membership (st : CareerPage.State) (i y : string) :
  JS.includes (CareerPage.selectedInterests (CareerPage.addInterest i st)) y
  = JS.includes (CareerPage.selectedInterests st) y || String.eqb y i.
Proof.
  unfold CareerPage.addInterest.
  destruct (JS.includes (CareerPage.selectedInterests st) i) eqn:E; simpl.
  - destruct (String.eqb_spec y i) as [Eyi | _]; [ subst y; now rewrite E | ].
    now rewrite orb_false_r.
  - apply includes_push.
Qed.

Lemma filter_out_length (l : list string) (x : string) :
  NoDup l ->
  (List.length (filter (fun r => negb (String.eqb r x)) l)
   = List.length l - (if JS.includes l x then 1 else 0))%nat.
Proof.
  unfold JS.includes. induction l as [ | y l IH]; simpl; intro Hnd; [ reflexivity | ].
  inversion Hnd as [ | ? ? Hy Hl]; subst.
  destruct (String.eqb_spec y x) as [E | E]; simpl.
  - subst y.
    assert (Hx : existsb (fun y => String.eqb y x) l = false).
    { now apply includes_false_not_In. }
    rewrite (IH Hl), Hx. lia.
  - rewrite (IH Hl). destruct (existsb (fun y => String.eqb y x) l) eqn:Hx; [ | lia ].
    apply existsb_exists in Hx. destruct Hx as [z [Hz _]].
    destruct l; [ contradiction | simpl; lia ].
Qed.

(** X17: the interests offered never include a selected interest, and
    selecting an interest takes exactly the suggestions of that name out
    of them; the roles offered never include the target role, and at
    least five of the six popular roles are always offered. *)
Theorem interest_and_role_suggestions :
  forall (st : CareerPage.State) (i : string),
    Forall (fun interest =>
              ~ In (CareerPage.interest_name interest) (CareerPage.selectedInterests st))
      (CareerPage.getAvailableInterestSuggestions st)
    /\ CareerPage.getAvailableInterestSuggestions (CareerPage.addInterest i st)
       = filter (fun interest => negb (String.eqb (CareerPage.interest_name interest) i))
           (CareerPage.getAvailableInterestSuggestions st)
    /\ ~ In (CareerPage.targetRole st) (CareerPage.getAvailableRoleSuggestions st)
    /\ (5 <= List.length (CareerPage.getAvailableRoleSuggestions st) <= 6)%nat
    /\ CareerPage.getAvailableRoleSuggestions (CareerPage.setTargetRole i st)
       = filter (fun role => negb (String.eqb role i)) CareerPage.popularRoles.
Proof.
  intros st i. split; [ | split; [ | split; [ | split ] ] ].
  - apply Forall_forall. intros interest Hin.
    unfold CareerPage.getAvailableInterestSuggestions in Hin.
    apply filter_In in Hin. destruct Hin as [_ H].
    apply negb_true_iff in H. now apply includes_false_not_In.
  - unfold CareerPage.getAvailableInterestSuggestions.
    apply filter_compose. intros interest _.
    now rewrite interest_membership, negb_orb.
  - unfold CareerPage.getAvailableRoleSuggestions. intro Hin.
    apply filter_In in Hin. destruct Hin as [_ H].
    now rewrite String.eqb_refl in H.
  - unfold CareerPage.getAvailableRoleSuggestions.
    rewrite filter_out_length.
    + simpl List.length. destruct (JS.includes CareerPage.popularRoles _); lia.
    + unfold CareerPage.popularRoles. repeat constructor; simpl; intuition discriminate.
  - reflexivity.
Qed.

(** X18: the selection handlers of the roadmap generator page do what
    those of the career page do: from states with equal selections and
    inputs, the same handler leads both pages to states with equal
    selections and inputs. *)
Theorem selection_pages_agree :
  forall (c : CareerPage.State) (r : RoadmapGeneratorPage.State)
         (ev : RoadmapGeneratorPage.Event),
    same_selection c r ->
    same_selection (CareerPage.step c (career_event ev)) (RoadmapGeneratorPage.step r ev).
Proof.
  intros c r ev [Hs [Hi [Hcs Hci]]].
  destruct ev; simpl;
    unfold CareerPage.addSkill, RoadmapGeneratorPage.addSkill,
      CareerPage.addCustomSkill, RoadmapGeneratorPage.addCustomSkill,
      CareerPage.addInterest, RoadmapGeneratorPage.addInterest,
      CareerPage.addCustomInterest, RoadmapGeneratorPage.addCustomInterest,
      CareerPage.removeSkill, RoadmapGeneratorPage.removeSkill,
      CareerPage.removeInterest, RoadmapGeneratorPage.removeInterest;
    rewrite ?Hs, ?Hi, ?Hcs, ?Hci;
    repeat match goal with
           | |- context [ if ?b then _ else _ ] => destruct b
           end;
    unfold same_selection; simpl; rewrite ?Hs, ?Hi, ?Hcs, ?Hci; auto.
Qed.

Lemma selection_pages_agree_witness :
  same_selection
    (CareerPage.step
       (CareerPage.mkState true 3 [] false false ["SQL"] [] " Go " "" "Data Scientist")
       (career_event RoadmapGeneratorPage.AddCustomSkill))
    (RoadmapGeneratorPage.step
       (RoadmapGeneratorPage.mkState ["SQL"] [] " Go " "" "goal" "1 year" "student")
       RoadmapGeneratorPage.AddCustomSkill).
Proof.
  apply selection_pages_agree. repeat split.
Defined.

(* ------------------------------------------------------------------ *)
(** ** The roadmap timeline *)
(* ------------------------------------------------------------------ *)

Lemma timeline_includes_In (l : list Z) (n : Z) :
  RoadmapTimeline.includes l n = true <-> In n l.
Proof.
  unfold RoadmapTimeline.includes. rewrite existsb_exists. split.
  - intros [x [Hx E]]. apply Z.eqb_eq in E. now subst.
  - intro H. exists n. split; [ exact H | apply Z.eqb_refl ].
Qed.

Lemma timeline_includes_filter (l : list Z) (n m : Z) :
  RoadmapTimeline.includes (filter (fun s => negb (s =? n)) l) m
  = RoadmapTimeline.includes l m && negb (m =? n).
Proof.
  unfold RoadmapTimeline.includes.
  induction l as [ | x l IH]; simpl; [ reflexivity | ].
  destruct (Z.eqb_spec x n) as [-> | Hxn]; simpl.
  - rewrite IH. destruct (Z.eqb_spec n m) as [-> | Hnm]; simpl.
    + rewrite Z.eqb_refl. simpl. now rewrite andb_false_r.
    + reflexivity.
  - rewrite IH. destruct (Z.eqb_spec x m) as [-> | Hxm]; simpl.
    + destruct (Z.eqb_spec m n); [ contradiction | reflexivity ].
    + reflexivity.
Qed.

Lemma timeline_toggle_includes (l : list Z) (n m : Z) :
  RoadmapTimeline.includes (RoadmapTimeline.toggle l n) m
  = if m =? n then negb (RoadmapTimeline.includes l n)
    else RoadmapTimeline.includes l m.
Proof.
  unfold RoadmapTimeline.toggle.
  destruct (RoadmapTimeline.includes l n) eqn:E.
  - rewrite timeline_includes_filter.
    destruct (Z.eqb_spec m n) as [-> | Hmn]; simpl.
    + now rewrite andb_false_r.
    + now rewrite andb_true_r.
  - unfold RoadmapTimeline.includes in *. rewrite existsb_app. simpl.
    rewrite orb_false_r, (Z.eqb_sym n m).
    destruct (Z.eqb_spec m n) as [-> | Hmn]; simpl.
    + now rewrite orb_true_r.
    + now rewrite orb_false_r.
Qed.

Lemma timeline_toggle_Toggled (steps : list RoadmapTimeline.RoadmapStep)
  (l : list Z) (n : Z) :
  RoadmapTimeline.Toggled steps l ->
  In n (map RoadmapTimeline.step steps) ->
  RoadmapTimeline.Toggled steps (RoadmapTimeline.toggle l n).
Proof.
  intros [Hnd Hincl] Hn. unfold RoadmapTimeline.toggle.
  destruct (RoadmapTimeline.includes l n) eqn:E.
  - split.
    + now apply NoDup_filter.
    + intros x Hx. apply filter_In in Hx. apply Hincl. tauto.
  - split.
    + assert (Hnot : ~ In n l).
      { intro H. apply timeline_includes_In in H. congruence. }
      clear E Hincl. induction l as [ | y l IH]; simpl.
      * constructor; [ intros [] | constructor ].
      * inversion Hnd as [ | ? ? Hy Hl]; subst. constructor.
        -- rewrite in_app_iff. simpl. intros [H | [H | []]]; [ tauto | ].
           apply Hnot. left. now symmetry.
        -- apply IH; [ exact Hl | ]. intro H. apply Hnot. now right.
    + intros x Hx. apply in_app_or in Hx. destruct Hx as [Hx | [<- | []]].
      * now apply Hincl.
      * exact Hn.
Qed.

Lemma timeline_click_Toggled (steps : list RoadmapTimeline.RoadmapStep)
  (st st' : RoadmapTimeline.State) (ev : RoadmapTimeline.Event) :
  RoadmapTimeline.Toggled steps (RoadmapTimeline.completedSteps st) ->
  RoadmapTimeline.Toggled steps (RoadmapTimeline.expandedSteps st) ->
  RoadmapTimeline.click steps st ev = Some st' ->
  RoadmapTimeline.Toggled steps (RoadmapTimeline.completedSteps st')
  /\ RoadmapTimeline.Toggled steps (RoadmapTimeline.expandedSteps st').
Proof.
  intros Hc He Hclick. destruct ev as [index | index]; simpl in Hclick;
    destruct (nth_error steps index) as [s | ] eqn:Es; try discriminate;
    injection Hclick as <-; simpl; (split; [ | ]); try assumption;
    apply timeline_toggle_Toggled; try assumption;
    apply in_map; eapply nth_error_In; exact Es.
Qed.

Lemma timeline_clicks_Toggled (steps : list RoadmapTimeline.RoadmapStep)
  (evs : list RoadmapTimeline.Event) :
  forall st st',
  RoadmapTimeline.Toggled steps (RoadmapTimeline.completedSteps st) ->
  RoadmapTimeline.Toggled steps (RoadmapTimeline.expandedSteps st) ->
  RoadmapTimeline.clicks steps st evs = Some st' ->
  RoadmapTimeline.Toggled steps (RoadmapTimeline.completedSteps st')
  /\ RoadmapTimeline.Toggled steps (RoadmapTimeline.expandedSteps st').
Proof.
  induction evs as [ | ev evs IH]; intros st st' Hc He Hrun; simpl in Hrun.
  - injection Hrun as <-. now split.
  - destruct (RoadmapTimeline.click steps st ev) as [st1 | ] eqn:E; [ | discriminate ].
    destruct (timeline_click_Toggled _ _ _ _ Hc He E) as [Hc1 He1].
    exact (IH _ _ Hc1 He1 Hrun).
Qed.

Lemma Toggled_initial (steps : list RoadmapTimeline.RoadmapStep) :
  RoadmapTimeline.Toggled steps [].
Proof. split; [ constructor | intros x [] ]. Qed.

(** X19: a click on the completion circle of a card flips the completed
    mark of every card with that step number, changes the mark of no other
    card and leaves every card as expanded or collapsed as it was; the
    "Expand" button does the same with the two roles exchanged.  Two
    clicks on the same circle give back the marks of before. *)
Theorem timeline_toggle_flips_one_step (st : RoadmapTimeline.State)
  (clicked other : RoadmapTimeline.RoadmapStep) :
  RoadmapTimeline.isCompleted
    (RoadmapTimeline.toggleStepCompletion (RoadmapTimeline.step clicked) st) other
  = (if RoadmapTimeline.step other =? RoadmapTimeline.step clicked
     then negb (RoadmapTimeline.isCompleted st other)
     else RoadmapTimeline.isCompleted st other)
  /\ RoadmapTimeline.isExpanded
       (RoadmapTimeline.toggleStepCompletion (RoadmapTimeline.step clicked) st) other
     = RoadmapTimeline.isExpanded st other
  /\ RoadmapTimeline.isExpanded
       (RoadmapTimeline.toggleStepExpansion (RoadmapTimeline.step clicked) st) other
     = (if RoadmapTimeline.step other =? RoadmapTimeline.step clicked
        then negb (RoadmapTimeline.isExpanded st other)
        else RoadmapTimeline.isExpanded st other)
  /\ RoadmapTimeline.isCompleted
       (RoadmapTimeline.toggleStepExpansion (RoadmapTimeline.step clicked) st) other
     = RoadmapTimeline.isCompleted st other
  /\ RoadmapTimeline.isCompleted
       (RoadmapTimeline.toggleStepCompletion (RoadmapTimeline.step clicked)
          (RoadmapTimeline.toggleStepCompletion (RoadmapTimeline.step clicked) st))
       other
     = RoadmapTimeline.isCompleted st other.
Proof.
  unfold RoadmapTimeline.isCompleted, RoadmapTimeline.isExpanded. simpl.
  rewrite !timeline_toggle_includes.
  destruct (Z.eqb_spec (RoadmapTimeline.step other) (RoadmapTimeline.step clicked))
    as [-> | Hne].
  - rewrite Z.eqb_refl, negb_involutive. repeat split; reflexivity.
  - repeat split; reflexivity.
Qed.

(** X20: whatever cards of the timeline are clicked, starting from the
    fresh component, the list of completed steps holds no step number
    twice and only step numbers of the cards shown, so the count of the
    progress summary never exceeds the number of steps; the same holds of
    the expanded steps. *)
Theorem timeline_progress_within_steps
  (steps : list RoadmapTimeline.RoadmapStep)
  (evs : list RoadmapTimeline.Event) (st : RoadmapTimeline.State) :
  RoadmapTimeline.clicks steps RoadmapTimeline.initialState evs = Some st ->
  NoDup (RoadmapTimeline.completedSteps st)
  /\ (forall n, In n (RoadmapTimeline.completedSteps st) ->
      exists s, In s steps /\ RoadmapTimeline.step s = n)
  /\ (List.length (RoadmapTimeline.completedSteps st) <= List.length steps)%nat
  /\ NoDup (RoadmapTimeline.expandedSteps st)
  /\ (List.length (RoadmapTimeline.expandedSteps st) <= List.length steps)%nat.
Proof.
  intro Hrun.
  destruct (timeline_clicks_Toggled steps evs RoadmapTimeline.initialState st
              (Toggled_initial steps) (Toggled_initial steps) Hrun)
    as [[Hc1 Hc2] [He1 He2]].
  split; [ exact Hc1 | ]. split.
  - intros n Hn. apply Hc2 in Hn. apply in_map_iff in Hn.
    destruct Hn as [s [E Hs]]. exists s. now split.
  - split; [ | split; [ exact He1 | ] ].
    + rewrite <- (length_map RoadmapTimeline.step steps).
      now apply NoDup_incl_length.
    + rewrite <- (length_map RoadmapTimeline.step steps).
      now apply NoDup_incl_length.
Qed.

Lemma timeline_progress_witness :
  RoadmapTimeline.clicks
    [ RoadmapTimeline.mkStep 1 "Basics" "" "2 weeks" [] [] [];
      RoadmapTimeline.mkStep 2 "Projects" "" "4 weeks" [] [] [] ]
    RoadmapTimeline.initialState
    [ RoadmapTimeline.Complete 0%nat; RoadmapTimeline.Expand 1%nat;
      RoadmapTimeline.Complete 1%nat; RoadmapTimeline.Complete 0%nat ]
  = Some (RoadmapTimeline.mkState [2] [2])
  /\ NoDup (RoadmapTimeline.completedSteps (RoadmapTimeline.mkState [2] [2])).
Proof.
  split; [ reflexivity | ].
  apply (timeline_progress_within_steps
           [ RoadmapTimeline.mkStep 1 "Basics" "" "2 weeks" [] [] [];
             RoadmapTimeline.mkStep 2 "Projects" "" "4 weeks" [] [] [] ]
           [ RoadmapTimeline.Complete 0%nat; RoadmapTimeline.Expand 1%nat;
             RoadmapTimeline.Complete 1%nat; RoadmapTimeline.Complete 0%nat ]).
  reflexivity.
Defined.

(* ------------------------------------------------------------------ *)
(** ** Flashcards *)
(* ------------------------------------------------------------------ *)

Lemma flashcard_next_index (flashcards : list FlashcardPlayer.Flashcard)
  (st : FlashcardPlayer.State) :
  flashcards <> [] ->
  0 <= FlashcardPlayer.currentIndex st ->
  FlashcardPlayer.currentIndex (FlashcardPlayer.handleNext flashcards st)
  = (FlashcardPlayer.currentIndex st + 1) mod Z.of_nat (List.length flashcards).
Proof.
  intros Hne Hi. simpl. apply Z.rem_mod_nonneg; [ lia | ].
  destruct flashcards; [ congruence | simpl; lia ].
Qed.

Lemma flashcard_presses_index (flashcards : list FlashcardPlayer.Flashcard) (k : nat) :
  forall st,
  flashcards <> [] ->
  0 <= FlashcardPlayer.currentIndex st ->
  FlashcardPlayer.currentIndex (FlashcardPlayer.presses flashcards k st)
  = (if (k =? 0)%nat then FlashcardPlayer.currentIndex st
     else (FlashcardPlayer.currentIndex st + Z.of_nat k)
            mod Z.of_nat (List.length flashcards)).
Proof.
  induction k as [ | k IH]; intros st Hne Hi; [ reflexivity | ].
  assert (Hn : 0 < Z.of_nat (List.length flashcards)).
  { destruct flashcards; [ congruence | simpl; lia ]. }
  change (FlashcardPlayer.presses flashcards (S k) st)
    with (FlashcardPlayer.presses flashcards k (FlashcardPlayer.handleNext flashcards st)).
  rewrite IH; [ | exact Hne | ].
  - rewrite flashcard_next_index by assumption.
    destruct k as [ | k]; simpl Nat.eqb; cbv iota.
    + reflexivity.
    + rewrite Zplus_mod_idemp_l. f_equal. lia.
  - rewrite flashcard_next_index by assumption.
    apply Z.mod_pos_bound. exact Hn.
Qed.

(** X21: with at least one flashcard and the index on a card, [k] presses
    of "Next Card" leave the index at [(index + k) mod length]: it stays
    on a card of the deck, so a card is always shown, one press per card
    of the deck comes back to the card the player was on, and after a
    press the card shows its front. *)
Theorem flashcards_cycle_through_the_deck
  (flashcards : list FlashcardPlayer.Flashcard)
  (st : FlashcardPlayer.State) (k : nat) :
  flashcards <> [] ->
  0 <= FlashcardPlayer.currentIndex st < Z.of_nat (List.length flashcards) ->
  FlashcardPlayer.currentIndex (FlashcardPlayer.presses flashcards k st)
  = (FlashcardPlayer.currentIndex st + Z.of_nat k) mod Z.of_nat (List.length flashcards)
  /\ (exists c, FlashcardPlayer.card flashcards (FlashcardPlayer.presses flashcards k st)
                = Some c)
  /\ FlashcardPlayer.currentIndex
       (FlashcardPlayer.presses flashcards (List.length flashcards) st)
     = FlashcardPlayer.currentIndex st
  /\ FlashcardPlayer.isFlipped
       (FlashcardPlayer.presses flashcards (S k) st) = false.
Proof.
  intros Hne Hi.
  assert (Hn : 0 < Z.of_nat (List.length flashcards)) by lia.
  assert (Hidx : forall j,
    FlashcardPlayer.currentIndex (FlashcardPlayer.presses flashcards j st)
    = (FlashcardPlayer.currentIndex st + Z.of_nat j)
        mod Z.of_nat (List.length flashcards)).
  { intro j. rewrite flashcard_presses_index; [ | exact Hne | lia ].
    destruct j as [ | j]; simpl Nat.eqb; cbv iota; [ | reflexivity ].
    rewrite Z.add_0_r. symmetry. apply Z.mod_small. exact Hi. }
  split; [ apply Hidx | ]. split; [ | split ].
  - unfold FlashcardPlayer.card. rewrite Hidx.
    pose proof (Z.mod_pos_bound
                  (FlashcardPlayer.currentIndex st + Z.of_nat k)
                  (Z.of_nat (List.length flashcards)) Hn) as Hb.
    destruct (Z.ltb_spec
                ((FlashcardPlayer.currentIndex st + Z.of_nat k)
                   mod Z.of_nat (List.length flashcards)) 0) as [Hlt | _]; [ lia | ].
    destruct (nth_error flashcards
                (Z.to_nat ((FlashcardPlayer.currentIndex st + Z.of_nat k)
                             mod Z.of_nat (List.length flashcards)))) as [c | ] eqn:E.
    + now exists c.
    + apply nth_error_None in E. lia.
  - rewrite Hidx.
    rewrite <- (Z.mul_1_l (Z.of_nat (List.length flashcards))) at 1.
    rewrite Z.mod_add by lia. apply Z.mod_small. exact Hi.
  - clear Hidx. revert st Hi. induction k as [ | k IH]; intros st Hi.
    + reflexivity.
    + change (FlashcardPlayer.presses flashcards (S (S k)) st)
        with (FlashcardPlayer.presses flashcards (S k)
                (FlashcardPlayer.handleNext flashcards st)).
      apply IH. rewrite flashcard_next_index; [ | exact Hne | lia ].
      apply Z.mod_pos_bound. exact Hn.
Qed.

Lemma flashcards_cycle_witness :
  FlashcardPlayer.currentIndex
    (FlashcardPlayer.presses
       [ FlashcardPlayer.mkFlashcard "a" "1"; FlashcardPlayer.mkFlashcard "b" "2";
         FlashcardPlayer.mkFlashcard "c" "3" ]
       5 FlashcardPlayer.initialState)
  = (0 + 5) mod 3.
Proof.
  apply (flashcards_cycle_through_the_deck
           [ FlashcardPlayer.mkFlashcard "a" "1"; FlashcardPlayer.mkFlashcard "b" "2";
             FlashcardPlayer.mkFlashcard "c" "3" ]
           FlashcardPlayer.initialState 5).
  - discriminate.
  - simpl. lia.
Defined.

(* ------------------------------------------------------------------ *)
(** ** The quiz *)
(* ------------------------------------------------------------------ *)

Lemma quiz_Inv_initial (quizItems : list QuizPlayer.QuizItem) :
  quizItems <> [] -> QuizPlayer.Inv quizItems QuizPlayer.initialState.
Proof.
  intro Hne. unfold QuizPlayer.Inv. simpl.
  assert (0 < Z.of_nat (List.length quizItems)).
  { destruct quizItems; [ congruence | simpl; lia ]. }
  split; [ lia | ]. split; [ lia | ]. split; [ now left | discriminate ].
Qed.

Lemma quiz_option_not_empty (quizItems : list QuizPlayer.QuizItem)
  (st : QuizPlayer.State) (q : QuizPlayer.QuizItem) (o : string) :
  QuizPlayer.options_not_empty quizItems ->
  QuizPlayer.currentQuestion quizItems st = Some q ->
  JS.includes (QuizPlayer.options q) o = true ->
  String.eqb o "" = false.
Proof.
  intros Hopt Hq Ho. unfold QuizPlayer.currentQuestion in Hq.
  destruct (QuizPlayer.currentIndex st <? 0); [ discriminate | ].
  apply nth_error_In in Hq.
  unfold QuizPlayer.options_not_empty in Hopt.
  rewrite Forall_forall in Hopt. specialize (Hopt q Hq).
  rewrite Forall_forall in Hopt.
  unfold JS.includes in Ho. apply existsb_exists in Ho.
  destruct Ho as [y [Hy E]]. apply String.eqb_eq in E. subst y.
  apply String.eqb_neq. now apply Hopt.
Qed.

Lemma quiz_Inv_click (quizItems : list QuizPlayer.QuizItem)
  (st st' : QuizPlayer.State) (ev : QuizPlayer.Event) :
  QuizPlayer.options_not_empty quizItems ->
  QuizPlayer.Inv quizItems st ->
  QuizPlayer.click quizItems st ev = Some st' ->
  QuizPlayer.Inv quizItems st'.
Proof.
  intros Hopt [Hidx [Hscore [Hsel Hres]]] Hclick.
  unfold QuizPlayer.click in Hclick.
  destruct (QuizPlayer.showResults st) eqn:Eres.
  - destruct ev; try discriminate. injection Hclick as <-.
    unfold QuizPlayer.Inv. simpl.
    split; [ lia | ]. split; [ lia | ]. split; [ now left | discriminate ].
  - destruct ev as [o | | ]; [ | | discriminate ].
    + destruct (QuizPlayer.currentQuestion quizItems st) as [q | ] eqn:Eq;
        [ | discriminate ].
      destruct (JS.includes (QuizPlayer.options q) o) eqn:Eo; simpl in Hclick;
        [ | discriminate ].
      destruct (QuizPlayer.selected st) eqn:Es; simpl in Hclick; [ discriminate | ].
      unfold QuizPlayer.handleOptionSelect in Hclick. rewrite Es, Eq in Hclick.
      injection Hclick as <-.
      pose proof (quiz_option_not_empty _ _ _ _ Hopt Eq Eo) as Hne.
      unfold QuizPlayer.Inv, QuizPlayer.selected. simpl. rewrite Hne. simpl.
      split; [ exact Hidx | ]. split.
      * destruct (String.eqb o (QuizPlayer.answer q)); lia.
      * split; [ now right | ]. rewrite Eres. discriminate.
    + destruct (QuizPlayer.selected st) eqn:Es; [ | discriminate ].
      injection Hclick as <-. unfold QuizPlayer.handleNext.
      destruct (Z.ltb_spec (QuizPlayer.currentIndex st)
                  (Z.of_nat (List.length quizItems) - 1)) as [Hlt | Hge].
      * unfold QuizPlayer.Inv, QuizPlayer.selected. simpl.
        split; [ lia | ]. split; [ lia | ]. split; [ now left | ].
        rewrite Eres. discriminate.
      * unfold QuizPlayer.Inv. 
        change (QuizPlayer.selected
                  (QuizPlayer.mkState (QuizPlayer.currentIndex st)
                     (QuizPlayer.selectedOption st) (QuizPlayer.isCorrect st)
                     (QuizPlayer.score st) true))
          with (QuizPlayer.selected st).
        simpl. rewrite Es.
        split; [ exact Hidx | ]. split; [ lia | ]. split; [ now right | ].
        intros _. split; [ lia | reflexivity ].
Qed.

Lemma quiz_Inv_clicks (quizItems : list QuizPlayer.QuizItem)
  (evs : list QuizPlayer.Event) :
  forall st st',
  QuizPlayer.options_not_empty quizItems ->
  QuizPlayer.Inv quizItems st ->
  QuizPlayer.clicks quizItems st evs = Some st' ->
  QuizPlayer.Inv quizItems st'.
Proof.
  induction evs as [ | ev evs IH]; intros st st' Hopt Hinv Hrun; simpl in Hrun.
  - now injection Hrun as <-.
  - destruct (QuizPlayer.click quizItems st ev) as [st1 | ] eqn:E; [ | discriminate ].
    exact (IH _ _ Hopt (quiz_Inv_click _ _ _ _ Hopt Hinv E) Hrun).
Qed.

Lemma quiz_empty_clicks (evs : list QuizPlayer.Event) (st : QuizPlayer.State) :
  QuizPlayer.clicks [] QuizPlayer.initialState evs = Some st ->
  st = QuizPlayer.initialState.
Proof.
  destruct evs as [ | ev evs]; simpl.
  - intro H. now injection H.
  - destruct ev as [o | | ]; simpl; discriminate.
Qed.

(** X22: in a quiz none of whose options is the empty string, whatever
    is clicked from the fresh component, the score counts at most the
    questions answered so far (the questions before the current one, and
    the current one once an option is selected), so it lies between 0 and
    the number of questions; and the results are shown only on the last
    question, after an option was selected for it. *)
Theorem quiz_score_within_answered (quizItems : list QuizPlayer.QuizItem)
  (evs : list QuizPlayer.Event) (st : QuizPlayer.State) :
  QuizPlayer.options_not_empty quizItems ->
  QuizPlayer.clicks quizItems QuizPlayer.initialState evs = Some st ->
  0 <= QuizPlayer.score st
  /\ QuizPlayer.score st
     <= QuizPlayer.currentIndex st + (if QuizPlayer.selected st then 1 else 0)
  /\ QuizPlayer.score st <= Z.of_nat (List.length quizItems)
  /\ (QuizPlayer.showResults st = true ->
      quizItems <> []
      /\ QuizPlayer.currentIndex st = Z.of_nat (List.length quizItems) - 1
      /\ QuizPlayer.selected st = true).
Proof.
  intros Hopt Hrun. destruct quizItems as [ | q0 rest] eqn:Eitems.
  - apply quiz_empty_clicks in Hrun. subst st. simpl.
    split; [ lia | ]. split; [ lia | ]. split; [ lia | discriminate ].
  - rewrite <- Eitems in *.
    assert (Hne : quizItems <> []) by (rewrite Eitems; discriminate).
    destruct (quiz_Inv_clicks _ _ _ _ Hopt (quiz_Inv_initial _ Hne) Hrun)
      as [Hidx [Hscore [Hsel Hres]]].
    split; [ lia | ]. split; [ lia | ]. split.
    + destruct (QuizPlayer.selected st); lia.
    + intro H. destruct (Hres H) as [H1 H2]. now repeat split.
Qed.

Lemma quiz_score_witness :
  QuizPlayer.clicks QuizPlayer.two_questions QuizPlayer.initialState
    [ QuizPlayer.Select "4"; QuizPlayer.Next; QuizPlayer.Select "Rome";
      QuizPlayer.Next ]
  = Some (QuizPlayer.mkState 1 (Some "Rome") (Some false) 1 true)
  /\ QuizPlayer.score (QuizPlayer.mkState 1 (Some "Rome") (Some false) 1 true) <= 2.
Proof.
  split; [ reflexivity | ].
  apply (quiz_score_within_answered QuizPlayer.two_questions
           [ QuizPlayer.Select "4"; QuizPlayer.Next; QuizPlayer.Select "Rome";
             QuizPlayer.Next ]).
  - repeat constructor; discriminate.
  - reflexivity.
Defined.

(** The empty string is not a selection: the options stay enabled, and
    each further click on a right answer that is the empty string counts
    again. *)
Example quiz_empty_option_counts_twice :
  QuizPlayer.clicks QuizPlayer.empty_option_quiz QuizPlayer.initialState
    [ QuizPlayer.Select ""; QuizPlayer.Select "" ]
  = Some (QuizPlayer.mkState 0 (Some "") (Some true) 2 false).
Proof. reflexivity. Qed.

(* ------------------------------------------------------------------ *)
(** ** The upload card *)
(* ------------------------------------------------------------------ *)

Lemma upload_card_step_pdf (st : UploadCard.State) (ev : UploadCard.Event) :
  (forall f, UploadCard.uploadedFile st = Some f -> UploadCard.is_pdf f) ->
  Forall UploadCard.is_pdf (UploadCard.uploaded st) ->
  (forall f, UploadCard.uploadedFile (UploadCard.step st ev) = Some f ->
             UploadCard.is_pdf f)
  /\ Forall UploadCard.is_pdf (UploadCard.uploaded (UploadCard.step st ev)).
Proof.
  intros Hfile Hup. destruct ev as [[f | ] | | ]; simpl.
  - destruct (String.eqb_spec (Web.type f) "application/pdf") as [E | N]; simpl.
    + split; [ | exact Hup ]. intros g Hg. injection Hg as <-. exact E.
    + split; [ discriminate | exact Hup ].
  - split; [ discriminate | exact Hup ].
  - unfold UploadCard.handleUploadClick.
    destruct (UploadCard.uploadedFile st) as [f | ] eqn:E; simpl.
    + split; [ intros g Hg; apply Hfile; exact Hg | ].
      apply Forall_app. split; [ exact Hup | ]. constructor; [ now apply Hfile | constructor ].
    + split; [ discriminate | exact Hup ].
  - split; [ discriminate | exact Hup ].
Qed.

(** X23: whatever files are chosen, removed and sent for processing on
    the upload card, every file handed to [onUpload] has the type
    [application/pdf], and so has the file the card holds, if it holds
    one. *)
Theorem upload_card_hands_over_only_pdf (evs : list UploadCard.Event) :
  Forall UploadCard.is_pdf
    (UploadCard.uploaded (UploadCard.run UploadCard.initialState evs))
  /\ (forall f,
      UploadCard.uploadedFile (UploadCard.run UploadCard.initialState evs) = Some f ->
      UploadCard.is_pdf f).
Proof.
  unfold UploadCard.run.
  assert (H : forall st,
    (forall f, UploadCard.uploadedFile st = Some f -> UploadCard.is_pdf f) ->
    Forall UploadCard.is_pdf (UploadCard.uploaded st) ->
    Forall UploadCard.is_pdf (UploadCard.uploaded (fold_left UploadCard.step evs st))
    /\ (forall f, UploadCard.uploadedFile (fold_left UploadCard.step evs st) = Some f ->
                  UploadCard.is_pdf f)).
  { induction evs as [ | ev evs IH]; intros st Hfile Hup; simpl.
    - now split.
    - destruct (upload_card_step_pdf st ev Hfile Hup) as [H1 H2].
      now apply IH. }
  apply H; [ discriminate | constructor ].
Qed.

Example upload_card_refuses_text_file :
  UploadCard.run UploadCard.initialState
    [ UploadCard.FileChange (Some (Web.mkFile "notes.txt" "text/plain"));
      UploadCard.UploadClick;
      UploadCard.FileChange (Some (Web.mkFile "a.pdf" "application/pdf"));
      UploadCard.UploadClick ]
  = UploadCard.mkState
      (Some (Web.mkFile "a.pdf" "application/pdf"))
      [ Web.mkFile "a.pdf" "application/pdf" ]
      [ "Please select a PDF file."; "Please choose a PDF file first." ].
Proof. reflexivity. Qed.

(* ------------------------------------------------------------------ *)
(** ** The learning hub *)
(* ------------------------------------------------------------------ *)

Lemma filter_index_all {A : Type} (keep : nat -> bool) (l : list A) :
  forall k, (forall j, (k <= j)%nat -> keep j = true) ->
  Web.filter_index keep k l = l.
Proof.
  induction l as [ | x l IH]; intros k Hk; simpl; [ reflexivity | ].
  rewrite (Hk k) by lia. f_equal. apply IH. intros j Hj. apply Hk. lia.
Qed.

Lemma filter_index_remove {A : Type} (l : list A) :
  forall k i,
  Web.filter_index (fun j => negb (j =? k + i)%nat) k l
  = (firstn i l ++ skipn (S i) l)%list.
Proof.
  induction l as [ | x l IH]; intros k i; simpl.
  - now destruct i.
  - destruct i as [ | i].
    + rewrite Nat.add_0_r, Nat.eqb_refl. simpl.
      apply filter_index_all. intros j Hj.
      destruct (Nat.eqb_spec j k); [ lia | reflexivity ].
    + destruct (Nat.eqb_spec k (k + S i)) as [E | _]; [ lia | ].
      cbn [negb]. replace (k + S i)%nat with (S k + i)%nat by lia.
      rewrite (IH (S k) i). reflexivity.
Qed.

Lemma filter_index_Forall {A : Type} (P : A -> Prop) (keep : nat -> bool)
  (l : list A) :
  forall k, Forall P l -> Forall P (Web.filter_index keep k l).
Proof.
  induction l as [ | x l IH]; intros k Hl; simpl; [ constructor | ].
  inversion Hl as [ | ? ? Hx Hl']; subst.
  destruct (keep k); [ constructor; [ exact Hx | now apply IH ] | now apply IH ].
Qed.

Lemma filter_accepted_Forall (files : list Web.File) :
  Forall (fun f => ChatInterface.accepted f = true)
    (filter ChatInterface.accepted files).
Proof.
  apply Forall_forall. intros f Hf. apply filter_In in Hf. tauto.
Qed.

Lemma count_sent_push (who : ChatInterface.Sender) (l : list ChatInterface.Message)
  (m : ChatInterface.Message) :
  List.length (filter (ChatInterface.sent_by who) (l ++ [m])%list)
  = (List.length (filter (ChatInterface.sent_by who) l)
     + (if ChatInterface.sent_by who m then 1 else 0))%nat.
Proof.
  rewrite filter_app, length_app. simpl.
  destruct (ChatInterface.sent_by who m); reflexivity.
Qed.

Lemma awaited_answers (o : FetchOutcome) :
  (ChatInterface.answers o = true ->
   exists data, o = FetchResponse true (Some data)
     /\ ChatInterface.awaited o = Return (JS.getProp data "response"))
  /\ (ChatInterface.answers o = false ->
      exists e, ChatInterface.awaited o = Throw e).
Proof.
  destruct o as [ | ok [data | ]]; simpl.
  - split; [ discriminate | intros _; eexists; reflexivity ].
  - destruct ok; simpl.
    + destruct data; simpl;
        (split; [ first [ discriminate | intros _; eexists; split; reflexivity ]
                | first [ discriminate | intros _; eexists; reflexivity ] ]).
    + split; [ discriminate | intros _; eexists; reflexivity ].
  - destruct ok; simpl; (split; [ discriminate | intros _; eexists; reflexivity ]).
Qed.

(** What the chat keeps true at each of its events, for props whose files
    are accepted ones. *)
Lemma chat_step_Inv (st : LearnPage.State) (c c' : ChatInterface.State)
  (ev : ChatInterface.Event) :
  LearnPage.Inv (LearnPage.mkHub st c) ->
  ChatInterface.step (LearnPage.chatProps st) c ev = Some c' ->
  LearnPage.Inv (LearnPage.mkHub st c').
Proof.
  intros [Hsel [Hup [Hmsg [Hreq [Hcount Hanswered]]]]] Hstep.
  unfold LearnPage.Inv, LearnPage.count_sent in *. simpl in *.
  assert (Hsends : forall now c1,
    ChatInterface.isLoading c = false ->
    ChatInterface.handleSendMessage_sends (LearnPage.chatProps st) now c = Some c1 ->
    Forall (fun f => ChatInterface.accepted f = true) (LearnPage.selectedFiles st)
    /\ Forall (fun f => ChatInterface.accepted f = true)
         (ChatInterface.uploadedFiles c1)
    /\ Forall (fun m => Forall (fun f => ChatInterface.accepted f = true)
                          (LearnPage.message_files m))
         (ChatInterface.messages c1)
    /\ Forall (fun r => Forall (fun f => ChatInterface.accepted f = true)
                          (ChatInterface.request_files r))
         (ChatInterface.requests c1)
    /\ List.length (filter (ChatInterface.sent_by ChatInterface.user)
                      (ChatInterface.messages c1))
       = List.length (ChatInterface.requests c1)
    /\ (List.length (filter (ChatInterface.sent_by ChatInterface.ai)
                       (ChatInterface.messages c1))
        + List.length (ChatInterface.toasts c1)
        + (if ChatInterface.isLoading c1 then 1 else 0)
        = List.length (ChatInterface.requests c1))%nat).
  { intros now c1 El Hs. unfold ChatInterface.handleSendMessage_sends in Hs.
    destruct (ChatInterface.nothing_to_send c); [ discriminate | ].
    injection Hs as <-. simpl. rewrite El in Hanswered.
    rewrite !count_sent_push, !length_app. simpl.
    split; [ exact Hsel | ]. split; [ constructor | ]. split.
    - apply Forall_app. split; [ exact Hmsg | ]. constructor; [ | constructor ].
      unfold LearnPage.message_files. simpl.
      destruct (0 <? List.length (ChatInterface.uploadedFiles c))%nat;
        [ exact Hup | constructor ].
    - split.
      + apply Forall_app. split; [ exact Hreq | ].
        constructor; [ exact Hup | constructor ].
      + split; lia. }
  destruct ev as [v | files | index | now | now | now o]; simpl in Hstep.
  - destruct (ChatInterface.isLoading c) eqn:El; [ discriminate | ].
    injection Hstep as <-. simpl. rewrite El. repeat split; assumption.
  - injection Hstep as <-. destruct files as [files | ]; simpl.
    + repeat split; try assumption.
      apply Forall_app. split; [ exact Hup | apply filter_accepted_Forall ].
    + repeat split; assumption.
  - destruct (index <? List.length (ChatInterface.uploadedFiles c))%nat;
      [ | discriminate ].
    injection Hstep as <-. simpl. repeat split; try assumption.
    now apply filter_index_Forall.
  - destruct (ChatInterface.isLoading c) eqn:El; simpl in Hstep; [ discriminate | ].
    destruct (ChatInterface.nothing_to_send c) eqn:En; simpl in Hstep;
      [ discriminate | ].
    exact (Hsends now c' eq_refl Hstep).
  - destruct (ChatInterface.isLoading c) eqn:El; [ discriminate | ].
    destruct (ChatInterface.handleSendMessage_sends (LearnPage.chatProps st) now c)
      as [c1 | ] eqn:Es; injection Hstep as <-.
    + exact (Hsends now c1 eq_refl Es).
    + rewrite El. repeat split; assumption.
  - destruct (ChatInterface.isLoading c) eqn:El; [ | discriminate ].
    injection Hstep as <-.
    unfold ChatInterface.handleSendMessage_settles.
    destruct (ChatInterface.awaited o) as [response | e]; simpl.
    + rewrite !count_sent_push. simpl.
      split; [ exact Hsel | ]. split; [ exact Hup | ]. split.
      * apply Forall_app. split; [ exact Hmsg | ].
        constructor; [ constructor | constructor ].
      * split; [ exact Hreq | ]. split; lia.
    + rewrite length_app. simpl.
      split; [ exact Hsel | ]. split; [ exact Hup | ]. split; [ exact Hmsg | ].
      split; [ exact Hreq | ]. split; lia.
Qed.

Lemma hub_effect_Inv (st st' : LearnPage.State) (c : ChatInterface.State) :
  LearnPage.Inv (LearnPage.mkHub st c) ->
  Forall (fun f => ChatInterface.accepted f = true) (LearnPage.selectedFiles st') ->
  LearnPage.Inv
    (LearnPage.mkHub st' (ChatInterface.filesEffect (LearnPage.chatProps st') c)).
Proof.
  intros [Hsel [Hup [Hmsg [Hreq [Hcount Hanswered]]]]] Hsel'.
  unfold LearnPage.Inv, LearnPage.count_sent in *. simpl in *.
  repeat split; assumption.
Qed.

Lemma hub_page_Inv (st st' : LearnPage.State) (c : ChatInterface.State) :
  LearnPage.Inv (LearnPage.mkHub st c) ->
  LearnPage.selectedFiles st' = LearnPage.selectedFiles st ->
  LearnPage.Inv (LearnPage.mkHub st' c).
Proof.
  intros [Hsel [Hup [Hmsg [Hreq [Hcount Hanswered]]]]] E.
  unfold LearnPage.Inv, LearnPage.count_sent in *. simpl in *. rewrite E.
  repeat split; assumption.
Qed.

Lemma hub_step_Inv (h h' : LearnPage.Hub) (ev : LearnPage.Event) :
  LearnPage.Inv h -> LearnPage.step h ev = Some h' -> LearnPage.Inv h'.
Proof.
  destruct h as [st c]. intros Hinv Hstep.
  assert (Hsel : Forall (fun f => ChatInterface.accepted f = true)
                   (LearnPage.selectedFiles st)) by exact (proj1 Hinv).
  destruct ev as [[files | ] | [files | ] | | | index | v | v | | | | | | ev];
    simpl in Hstep;
    try (injection Hstep as <-; apply (hub_page_Inv st); [ exact Hinv | reflexivity ]).
  - injection Hstep as <-. apply (hub_effect_Inv st); [ exact Hinv | ].
    simpl. apply Forall_app. split; [ exact Hsel | apply filter_accepted_Forall ].
  - injection Hstep as <-. apply (hub_effect_Inv st); [ exact Hinv | ].
    simpl. apply Forall_app. split; [ exact Hsel | apply filter_accepted_Forall ].
  - destruct (index <? List.length (LearnPage.selectedFiles st))%nat;
      [ | discriminate ].
    injection Hstep as <-. apply (hub_effect_Inv st); [ exact Hinv | ].
    simpl. now apply filter_index_Forall.
  - destruct ((List.length (LearnPage.selectedFiles st) =? 0)%nat
              || LearnPage.isGenerating st); [ discriminate | ].
    injection Hstep as <-. apply (hub_page_Inv st); [ exact Hinv | reflexivity ].
  - destruct (ChatInterface.step (LearnPage.chatProps st) c ev) as [c' | ] eqn:E;
      [ | discriminate ].
    injection Hstep as <-. exact (chat_step_Inv st c c' ev Hinv E).
Qed.

Lemma hub_Inv_initial : LearnPage.Inv LearnPage.initialHub.
Proof.
  unfold LearnPage.Inv. simpl. repeat split; constructor.
Qed.

Lemma hub_run_Inv (evs : list LearnPage.Event) :
  forall h h', LearnPage.Inv h -> LearnPage.run h evs = Some h' -> LearnPage.Inv h'.
Proof.
  induction evs as [ | ev evs IH]; intros h h' Hinv Hrun; simpl in Hrun.
  - now injection Hrun as <-.
  - destruct (LearnPage.step h ev) as [h1 | ] eqn:E; [ | discriminate ].
    exact (IH _ _ (hub_step_Inv _ _ _ Hinv E) Hrun).
Qed.

(** X24: whatever is done on the learning page and in its chat, every
    file the page lists, the chat has attached, a message shows or a
    request to /api/chat carries is a PDF, a plain text or a file whose
    name ends in ".md". *)
Theorem learning_hub_keeps_only_accepted_files
  (evs : list LearnPage.Event) (h : LearnPage.Hub) :
  LearnPage.run LearnPage.initialHub evs = Some h ->
  (forall f, In f (LearnPage.selectedFiles (LearnPage.page h)) ->
             ChatInterface.accepted f = true)
  /\ (forall f, In f (ChatInterface.uploadedFiles (LearnPage.chat h)) ->
                ChatInterface.accepted f = true)
  /\ (forall m f, In m (ChatInterface.messages (LearnPage.chat h)) ->
                  In f (LearnPage.message_files m) ->
                  ChatInterface.accepted f = true)
  /\ (forall r f, In r (ChatInterface.requests (LearnPage.chat h)) ->
                  In f (ChatInterface.request_files r) ->
                  ChatInterface.accepted f = true).
Proof.
  intro Hrun.
  destruct (hub_run_Inv evs _ _ hub_Inv_initial Hrun)
    as [Hsel [Hup [Hmsg [Hreq _]]]].
  rewrite Forall_forall in Hsel, Hup, Hmsg, Hreq.
  split; [ exact Hsel | ]. split; [ exact Hup | ]. split.
  - intros m f Hm Hf. specialize (Hmsg m Hm). rewrite Forall_forall in Hmsg.
    now apply Hmsg.
  - intros r f Hr Hf. specialize (Hreq r Hr). rewrite Forall_forall in Hreq.
    now apply Hreq.
Qed.

Lemma learning_hub_files_witness :
  exists h,
    LearnPage.run LearnPage.initialHub
      [ LearnPage.FileInput
          (Some [ Web.mkFile "a.pdf" "application/pdf"; Web.mkFile "run.exe" "";
                  Web.mkFile "notes.md" "" ]);
        LearnPage.Chat (ChatInterface.Attach (Some [ Web.mkFile "b.png" "image/png" ]));
        LearnPage.Chat (ChatInterface.Send (ChatInterface.mkInstant 1000 1000)) ]
    = Some h
    /\ forall r f, In r (ChatInterface.requests (LearnPage.chat h)) ->
                   In f (ChatInterface.request_files r) ->
                   ChatInterface.accepted f = true.
Proof.
  eexists. split; [ reflexivity | ].
  apply (learning_hub_keeps_only_accepted_files
           [ LearnPage.FileInput
               (Some [ Web.mkFile "a.pdf" "application/pdf"; Web.mkFile "run.exe" "";
                       Web.mkFile "notes.md" "" ]);
             LearnPage.Chat (ChatInterface.Attach (Some [ Web.mkFile "b.png" "image/png" ]));
             LearnPage.Chat (ChatInterface.Send (ChatInterface.mkInstant 1000 1000)) ]).
  reflexivity.
Defined.

(** X25: in the chat of the learning page each message of the user went
    out in exactly one request, and each request has got exactly one of:
    an answer of the assistant in the list of messages, an error toast, or
    a fetch that is still pending (and then the chat is loading). *)
Theorem learning_hub_accounts_for_every_message
  (evs : list LearnPage.Event) (h : LearnPage.Hub) :
  LearnPage.run LearnPage.initialHub evs = Some h ->
  LearnPage.count_sent ChatInterface.user (LearnPage.chat h)
  = List.length (ChatInterface.requests (LearnPage.chat h))
  /\ (LearnPage.count_sent ChatInterface.ai (LearnPage.chat h)
      + List.length (ChatInterface.toasts (LearnPage.chat h))
      + (if ChatInterface.isLoading (LearnPage.chat h) then 1 else 0)
      = List.length (ChatInterface.requests (LearnPage.chat h)))%nat.
Proof.
  intro Hrun.
  destruct (hub_run_Inv evs _ _ hub_Inv_initial Hrun)
    as [_ [_ [_ [_ [Hcount Hanswered]]]]].
  now split.
Qed.

Lemma learning_hub_accounts_witness :
  exists h,
    LearnPage.run LearnPage.initialHub
      [ LearnPage.Chat (ChatInterface.Type_ "What is a monad?");
        LearnPage.Chat (ChatInterface.Send (ChatInterface.mkInstant 1000 1000));
        LearnPage.Chat (ChatInterface.Settle (ChatInterface.mkInstant 2000 2000)
                          (FetchResponse false None));
        LearnPage.Chat (ChatInterface.Type_ "again");
        LearnPage.Chat (ChatInterface.Send (ChatInterface.mkInstant 3000 3000)) ]
    = Some h
    /\ LearnPage.count_sent ChatInterface.user (LearnPage.chat h)
       = List.length (ChatInterface.requests (LearnPage.chat h)).
Proof.
  eexists. split; [ reflexivity | ].
  apply (learning_hub_accounts_for_every_message
           [ LearnPage.Chat (ChatInterface.Type_ "What is a monad?");
             LearnPage.Chat (ChatInterface.Send (ChatInterface.mkInstant 1000 1000));
             LearnPage.Chat (ChatInterface.Settle (ChatInterface.mkInstant 2000 2000)
                               (FetchResponse false None));
             LearnPage.Chat (ChatInterface.Type_ "again");
             LearnPage.Chat (ChatInterface.Send (ChatInterface.mkInstant 3000 3000)) ]).
  reflexivity.
Defined.

(** X26: [handleSendMessage] does nothing when the input is blank and no
    file is attached.  Otherwise it sends one request with the text as
    typed, the level and framework of the props and the attached files,
    empties the input and the attachments and ends not loading; the
    messages gain the user's message and, exactly when the fetch resolves
    with an [ok] response whose JSON can be read and is not [null], the
    assistant's message with [data.response] or the default text; in every
    other case one error toast is shown instead. *)
Theorem chat_send_message_outcome (props : ChatInterface.Props)
  (now later : ChatInterface.Instant) (o : FetchOutcome) (st : ChatInterface.State) :
  (ChatInterface.nothing_to_send st = true ->
   ChatInterface.handleSendMessage props now later o st = st)
  /\ (ChatInterface.nothing_to_send st = false ->
      ChatInterface.isLoading (ChatInterface.handleSendMessage props now later o st)
      = false
      /\ ChatInterface.inputMessage (ChatInterface.handleSendMessage props now later o st)
         = ""
      /\ ChatInterface.uploadedFiles (ChatInterface.handleSendMessage props now later o st)
         = []
      /\ ChatInterface.requests (ChatInterface.handleSendMessage props now later o st)
         = (ChatInterface.requests st
            ++ [ ChatInterface.mkRequest (ChatInterface.inputMessage st)
                   (ChatInterface.selectedLevel props)
                   (ChatInterface.selectedFramework props)
                   (ChatInterface.uploadedFiles st) ])%list
      /\ (ChatInterface.answers o = true ->
          exists data,
            o = FetchResponse true (Some data)
            /\ ChatInterface.messages
                 (ChatInterface.handleSendMessage props now later o st)
               = (ChatInterface.messages st
                  ++ [ ChatInterface.userMessage now st;
                       ChatInterface.aiMessage later (JS.getProp data "response") ])%list
            /\ ChatInterface.toasts
                 (ChatInterface.handleSendMessage props now later o st)
               = ChatInterface.toasts st)
      /\ (ChatInterface.answers o = false ->
          ChatInterface.messages
            (ChatInterface.handleSendMessage props now later o st)
          = (ChatInterface.messages st ++ [ ChatInterface.userMessage now st ])%list
          /\ ChatInterface.toasts
               (ChatInterface.handleSendMessage props now later o st)
             = (ChatInterface.toasts st ++ [ ChatInterface.error_toast ])%list)).
Proof.
  unfold ChatInterface.handleSendMessage, ChatInterface.handleSendMessage_sends.
  split; intro En; rewrite En; [ reflexivity | ].
  unfold ChatInterface.handleSendMessage_settles.
  destruct (awaited_answers o) as [Hyes Hno].
  destruct (ChatInterface.answers o) eqn:Ea.
  - destruct (Hyes eq_refl) as [data [Eo Eaw]]. rewrite Eaw. simpl.
    repeat split; try reflexivity.
    + intros _. exists data. split; [ exact Eo | ]. split; [ | reflexivity ].
      now rewrite <- app_assoc.
    + discriminate.
    + discriminate.
  - destruct (Hno eq_refl) as [e Eaw]. rewrite Eaw. simpl.
    repeat split; try reflexivity; discriminate.
Qed.

Example chat_send_ignores_no_break_space :
  ChatInterface.handleSendMessage
    (ChatInterface.mkProps [] "intermediate" "general")
    (ChatInterface.mkInstant 1000 1001) (ChatInterface.mkInstant 2000 2001)
    (FetchResponse true (Some (JS.JObj [("response", JS.JStr "hello")])))
    (ChatInterface.mkState [] (JS.utf8 [194; 160]) false [] [] [])
  = ChatInterface.mkState [] (JS.utf8 [194; 160]) false [] [] [].
Proof. reflexivity. Qed.

Example chat_send_keeps_text_as_typed :
  ChatInterface.messages
    (ChatInterface.handleSendMessage
       (ChatInterface.mkProps [] "intermediate" "general")
       (ChatInterface.mkInstant 1000 1001) (ChatInterface.mkInstant 2000 2001)
       (FetchResponse true (Some (JS.JObj [("response", JS.JStr "")])))
       (ChatInterface.mkState [] "  hi " false [] [] []))
  = [ ChatInterface.mkMessage "1000" (JS.JStr "  hi ") ChatInterface.user 1001 None;
      ChatInterface.mkMessage "2001" (JS.JStr ChatInterface.default_answer)
        ChatInterface.ai 2001 None ].
Proof. reflexivity. Qed.

(** X27: removing the file at a position of a list of files takes out
    that one entry and keeps the others in their order; for a position
    outside of the list nothing is removed. *)
Theorem remove_index_takes_one_out (A : Type) (prev : list A) (index : nat) :
  Web.remove_index index prev = (firstn index prev ++ skipn (S index) prev)%list
  /\ ((index < List.length prev)%nat ->
      S (List.length (Web.remove_index index prev)) = List.length prev)
  /\ ((List.length prev <= index)%nat -> Web.remove_index index prev = prev).
Proof.
  assert (E : Web.remove_index index prev
              = (firstn index prev ++ skipn (S index) prev)%list).
  { unfold Web.remove_index. exact (filter_index_remove prev 0 index). }
  split; [ exact E | ]. split.
  - intro Hlt. rewrite E, length_app, length_firstn, length_skipn. lia.
  - intro Hge. rewrite E, firstn_all2 by exact Hge.
    rewrite skipn_all2 by lia. apply app_nil_r.
Qed.

(* ------------------------------------------------------------------ *)
(** ** The career discovery page *)
(* ------------------------------------------------------------------ *)

Lemma assign_key_get (l : list (Z * string)) (k k' : Z) (v : string) :
  CareerAssessment.answer_get (CareerDiscoverPage.assign_key l k v) k'
  = if k' =? k then Some v else CareerAssessment.answer_get l k'.
Proof.
  induction l as [ | [k0 v0] l IH]; simpl.
  - rewrite (Z.eqb_sym k k'). now destruct (k' =? k).
  - destruct (Z.ltb_spec k k0) as [Hlt | Hge]; simpl.
    + rewrite (Z.eqb_sym k k'). now destruct (k' =? k).
    + destruct (Z.eqb_spec k k0) as [<- | Hne]; simpl.
      * rewrite (Z.eqb_sym k k'). now destruct (k' =? k).
      * rewrite IH. destruct (Z.eqb_spec k0 k') as [<- | Hne'].
        -- destruct (Z.eqb_spec k0 k); [ congruence | reflexivity ].
        -- reflexivity.
Qed.

Lemma assign_key_In (l : list (Z * string)) (k : Z) (v : string) (e : Z * string) :
  In e (CareerDiscoverPage.assign_key l k v) -> e = (k, v) \/ In e l.
Proof.
  induction l as [ | [k0 v0] l IH]; simpl.
  - intros [<- | []]. now left.
  - destruct (k <? k0); simpl.
    + intros [<- | H]; [ now left | now right ].
    + destruct (k =? k0); simpl.
      * intros [<- | H]; [ now left | right; now right ].
      * intros [<- | H]; [ right; now left | ].
        destruct (IH H) as [-> | H']; [ now left | right; now right ].
Qed.

Lemma assign_key_sorted (l : list (Z * string)) (k : Z) (v : string) :
  StronglySorted Z.lt (map fst l) ->
  StronglySorted Z.lt (map fst (CareerDiscoverPage.assign_key l k v)).
Proof.
  induction l as [ | [k0 v0] l IH]; simpl; intro Hs.
  - constructor; constructor.
  - inversion Hs as [ | ? ? Hs' Hall]; subst.
    destruct (Z.ltb_spec k k0) as [Hlt | Hge]; simpl.
    + constructor; [ exact Hs | ]. constructor; [ exact Hlt | ].
      eapply Forall_impl; [ | exact Hall ]. intros x Hx. simpl in Hx. lia.
    + destruct (Z.eqb_spec k k0) as [<- | Hne]; simpl.
      * now constructor.
      * constructor; [ now apply IH | ].
        apply Forall_forall. intros x Hx. apply in_map_iff in Hx.
        destruct Hx as [e [<- He]]. apply assign_key_In in He.
        destruct He as [-> | He]; simpl; [ lia | ].
        rewrite Forall_forall in Hall. apply Hall. now apply in_map.
Qed.

Lemma answer_get_In (l : list (Z * string)) (k : Z) (v : string) :
  CareerAssessment.answer_get l k = Some v -> In (k, v) l.
Proof.
  induction l as [ | [k0 v0] l IH]; simpl; [ discriminate | ].
  destruct (Z.eqb_spec k0 k) as [-> | Hne].
  - intro H. injection H as <-. now left.
  - intro H. right. now apply IH.
Qed.

Lemma sorted_range_full (n : nat) :
  forall (a : Z) (l : list Z),
  StronglySorted Z.lt l ->
  (forall x, In x l -> a <= x < a + Z.of_nat n) ->
  (forall x, a <= x < a + Z.of_nat n -> In x l) ->
  l = map (fun i => a + Z.of_nat i) (seq 0 n).
Proof.
  induction n as [ | n IH]; intros a l Hs Hin Hall.
  - destruct l as [ | x l]; [ reflexivity | ].
    specialize (Hin x (or_introl eq_refl)). lia.
  - destruct l as [ | x l].
    + destruct (Hall a); lia.
    + inversion Hs as [ | ? ? Hs' Hlt]; subst. rewrite Forall_forall in Hlt.
      assert (Ex : x = a).
      { destruct (Hall a) as [E | Ha]; [ lia | now symmetry | ].
        specialize (Hlt a Ha). specialize (Hin x (or_introl eq_refl)). lia. }
      subst x. cbn [seq map]. rewrite Z.add_0_r. f_equal.
      rewrite <- seq_shift, map_map.
      rewrite (IH (a + 1) l Hs').
      * apply map_ext. intro i. lia.
      * intros y Hy. specialize (Hlt y Hy). specialize (Hin y (or_intror Hy)). lia.
      * intros y Hy. destruct (Hall y) as [E | Hy']; [ lia | lia | exact Hy' ].
Qed.

Lemma discover_complete_request (session : option string) (id : string)
  (st : CareerDiscoverPage.State) :
  CareerDiscoverPage.Inv session st ->
  CareerDiscoverPage.currentStep st = 10 ->
  CareerDiscoverPage.canGoNext st = true ->
  (forall k, 1 <= k <= 10 -> CareerDiscoverPage.answered st k)
  /\ CareerDiscoverPage.complete_request id
       (CareerDiscoverPage.mkRequest id
          (CareerDiscoverPage.entries_parsed (CareerDiscoverPage.answers st))).
Proof.
  intros [Hrange [Hload [Hsorted [Hentries [Hbefore _]]]]] Estep Hnext.
  change (Z.of_nat (List.length CareerDiscoverPage.questions)) with 10 in *.
  assert (Hall : forall k, 1 <= k <= 10 -> CareerDiscoverPage.answered st k).
  { intros k Hk. destruct (Z.eq_dec k 10) as [-> | Hne].
    - unfold CareerDiscoverPage.canGoNext in Hnext. rewrite Estep in Hnext.
      destruct (CareerAssessment.answer_get (CareerDiscoverPage.answers st) 10)
        as [v | ] eqn:E; [ | discriminate ].
      exists v. split; [ exact E | ].
      apply answer_get_In in E. now apply (Hentries 10 v).
    - apply Hbefore. lia. }
  split; [ exact Hall | ].
  unfold CareerDiscoverPage.complete_request, CareerDiscoverPage.entries_parsed.
  cbn [CareerDiscoverPage.user_id CareerDiscoverPage.request_answers].
  split; [ reflexivity | ]. split.
  - rewrite map_map. cbn [CareerDiscoverPage.question_id].
    rewrite <- (map_map fst
                  (fun k => CareerDiscoverPage.parseInt (Web.toString k))).
    rewrite <- (map_map CareerAssessment.id
                  (fun k => CareerDiscoverPage.parseInt (Web.toString k))).
    f_equal.
    rewrite (sorted_range_full 10 1 _ Hsorted); [ reflexivity | | ].
    + intros x Hx. apply in_map_iff in Hx. destruct Hx as [[k v] [<- He]].
      simpl. destruct (Hentries k v He). lia.
    + intros x Hx. destruct (Hall x) as [v [E _]]; [ lia | ].
      apply answer_get_In in E. apply in_map_iff. now exists (x, v).
  - apply Forall_forall. intros a Ha. apply in_map_iff in Ha.
    destruct Ha as [[k v] [<- He]]. exists v. split; [ reflexivity | ].
    now apply (Hentries k v).
Qed.

Lemma discover_Inv_initial (session : option string) :
  CareerDiscoverPage.Inv session CareerDiscoverPage.initialState.
Proof.
  unfold CareerDiscoverPage.Inv. simpl.
  split; [ lia | ]. split; [ reflexivity | ]. split; [ constructor | ].
  split; [ intros k v [] | ]. split; [ intros k Hk; lia | ].
  split; [ discriminate | intros r [] ].
Qed.

Lemma discover_Inv_step (session : option string)
  (st st' : CareerDiscoverPage.State) (ev : CareerDiscoverPage.UIEvent) :
  CareerDiscoverPage.Inv session st ->
  CareerDiscoverPage.ui_step session st ev = Some st' ->
  CareerDiscoverPage.Inv session st'.
Proof.
  intros Hinv Hstep.
  pose proof Hinv as [Hrange [Hload [Hsorted [Hentries [Hbefore [Hres Hreq]]]]]].
  change (Z.of_nat (List.length CareerDiscoverPage.questions)) with 10 in *.
  unfold CareerDiscoverPage.ui_step in Hstep. rewrite Hload in Hstep.
  destruct (CareerDiscoverPage.showResults st) eqn:Eres.
  - destruct ev; try discriminate. injection Hstep as <-.
    unfold CareerDiscoverPage.Inv. simpl.
    split; [ lia | ]. split; [ exact Hload | ]. split; [ constructor | ].
    split; [ intros k v [] | ]. split; [ intros k Hk; lia | ].
    split; [ discriminate | exact Hreq ].
  - destruct (CareerDiscoverPage.currentQuestion st) as [q | ];
      [ | destruct ev; discriminate ].
    destruct ev as [v | o | | ]; [ | | | discriminate ].
    + destruct (JS.includes (map CareerAssessment.value CareerDiscoverPage.likertOptions) v)
        eqn:Ev; [ | discriminate ].
      injection Hstep as <-.
      assert (Hv : In v (map CareerAssessment.value CareerDiscoverPage.likertOptions)).
      { unfold JS.includes in Ev. apply existsb_exists in Ev.
        destruct Ev as [y [Hy E]]. apply String.eqb_eq in E. now subst. }
      unfold CareerDiscoverPage.Inv, CareerDiscoverPage.answered. simpl.
      split; [ exact Hrange | ]. split; [ exact Hload | ].
      split; [ now apply assign_key_sorted | ]. split.
      * intros k w Hin. apply assign_key_In in Hin. destruct Hin as [E | Hin].
        -- injection E as -> ->. now split.
        -- now apply Hentries.
      * split.
        -- intros k Hk. rewrite assign_key_get.
           destruct (Z.eqb_spec k (CareerDiscoverPage.currentStep st)); [ lia | ].
           now apply Hbefore.
        -- split; [ rewrite Eres; discriminate | exact Hreq ].
    + destruct (CareerDiscoverPage.canGoNext st) eqn:Enext; [ | discriminate ].
      injection Hstep as <-. unfold CareerDiscoverPage.handleNext.
      change (Z.of_nat (List.length CareerDiscoverPage.questions)) with 10 in *.
      destruct (Z.eqb_spec (CareerDiscoverPage.currentStep st) 10) as [E10 | Hne].
      * destruct (CareerDiscoverPage.session_user_id session) as [id | ] eqn:Eid.
        -- destruct (discover_complete_request session id st Hinv E10 Enext)
             as [Hall Hcomplete].
           assert (Hreq' : forall r,
             In r (CareerDiscoverPage.requests st
                   ++ [ CareerDiscoverPage.mkRequest id
                          (CareerDiscoverPage.entries_parsed
                             (CareerDiscoverPage.answers st)) ])%list ->
             exists id0, CareerDiscoverPage.session_user_id session = Some id0
                         /\ CareerDiscoverPage.complete_request id0 r).
           { intros r Hr. apply in_app_or in Hr. destruct Hr as [Hr | [<- | []]].
             - destruct (Hreq r Hr) as [id0 [E0 Hc]]. exists id0.
               split; [ rewrite Eid; exact E0 | exact Hc ].
             - exists id. split; [ exact Eid | exact Hcomplete ]. }
           destruct (CareerDiscoverPage.awaited o) as [career_matches | e];
             unfold CareerDiscoverPage.Inv, CareerDiscoverPage.answered; simpl;
             change (Z.of_nat (List.length CareerDiscoverPage.questions)) with 10.
           ++ split; [ exact Hrange | ]. split; [ reflexivity | ].
              split; [ exact Hsorted | ]. split; [ exact Hentries | ].
              split; [ exact Hbefore | ]. split; [ | exact Hreq' ].
              intros _. split; [ | exact Hall ].
              intro Hnil. apply app_eq_nil in Hnil. destruct Hnil; discriminate.
           ++ split; [ exact Hrange | ]. split; [ reflexivity | ].
              split; [ exact Hsorted | ]. split; [ exact Hentries | ].
              split; [ exact Hbefore | ]. split; [ | exact Hreq' ].
              rewrite Eres. discriminate.
        -- unfold CareerDiscoverPage.Inv, CareerDiscoverPage.answered. simpl.
           change (Z.of_nat (List.length CareerDiscoverPage.questions)) with 10.
           split; [ exact Hrange | ]. split; [ exact Hload | ].
           split; [ exact Hsorted | ]. split; [ exact Hentries | ].
           split; [ exact Hbefore | ].
           split; [ rewrite Eres; discriminate | rewrite Eid; exact Hreq ].
      * unfold CareerDiscoverPage.Inv, CareerDiscoverPage.answered. simpl.
        change (Z.of_nat (List.length CareerDiscoverPage.questions)) with 10.
        split; [ lia | ]. split; [ exact Hload | ].
        split; [ exact Hsorted | ]. split; [ exact Hentries | ]. split.
        -- intros k Hk.
           destruct (Z.eq_dec k (CareerDiscoverPage.currentStep st)) as [-> | Hk'].
           ++ unfold CareerDiscoverPage.canGoNext in Enext.
              destruct (CareerAssessment.answer_get (CareerDiscoverPage.answers st)
                          (CareerDiscoverPage.currentStep st)) as [v | ] eqn:E;
                [ | discriminate ].
              exists v. split; [ reflexivity | ].
              apply answer_get_In in E.
              now apply (Hentries (CareerDiscoverPage.currentStep st) v).
           ++ apply Hbefore. lia.
        -- split; [ rewrite Eres; discriminate | exact Hreq ].
    + destruct (Z.eqb_spec (CareerDiscoverPage.currentStep st) 1) as [E1 | Hne];
        [ discriminate | ].
      injection Hstep as <-.
      unfold CareerDiscoverPage.Inv, CareerDiscoverPage.answered. simpl.
      change (Z.of_nat (List.length CareerDiscoverPage.questions)) with 10.
      split; [ lia | ]. split; [ exact Hload | ].
      split; [ exact Hsorted | ]. split; [ exact Hentries | ]. split.
      * intros k Hk. apply Hbefore. lia.
      * split; [ rewrite Eres; discriminate | exact Hreq ].
Qed.

Lemma discover_Inv_run (session : option string)
  (evs : list CareerDiscoverPage.UIEvent) :
  forall st st',
  CareerDiscoverPage.Inv session st ->
  CareerDiscoverPage.ui_run session st evs = Some st' ->
  CareerDiscoverPage.Inv session st'.
Proof.
  induction evs as [ | ev evs IH]; intros st st' Hinv Hrun; simpl in Hrun.
  - now injection Hrun as <-.
  - destruct (CareerDiscoverPage.ui_step session st ev) as [st1 | ] eqn:E;
      [ | discriminate ].
    exact (IH _ _ (discover_Inv_step _ _ _ _ Hinv E) Hrun).
Qed.

(** X28: whatever the user does on the career discovery page, the step
    stays between 1 and the number of questions, every question before the
    current one has one of the Likert values for an answer, and the career
    matches are shown only to a signed-in user who has answered all the
    questions. *)
Theorem discover_results_need_sign_in_and_all_answers (session : option string)
  (evs : list CareerDiscoverPage.UIEvent) (st : CareerDiscoverPage.State) :
  CareerDiscoverPage.ui_run session CareerDiscoverPage.initialState evs = Some st ->
  1 <= CareerDiscoverPage.currentStep st
       <= Z.of_nat (List.length CareerDiscoverPage.questions)
  /\ CareerDiscoverPage.isLoading st = false
  /\ (forall k, 1 <= k < CareerDiscoverPage.currentStep st ->
                CareerDiscoverPage.answered st k)
  /\ (CareerDiscoverPage.showResults st = true ->
      (exists id, session = Some id /\ id <> "")
      /\ forall q, In q CareerDiscoverPage.questions ->
                   CareerDiscoverPage.answered st (CareerAssessment.id q)).
Proof.
  intro Hrun.
  destruct (discover_Inv_run session evs _ _ (discover_Inv_initial session) Hrun)
    as [Hrange [Hload [_ [_ [Hbefore [Hres Hreq]]]]]].
  split; [ exact Hrange | ]. split; [ exact Hload | ]. split; [ exact Hbefore | ].
  intro Hshow. destruct (Hres Hshow) as [Hne Hall]. split.
  - destruct (CareerDiscoverPage.requests st) as [ | r rest] eqn:Er;
      [ congruence | ].
    destruct (Hreq r (or_introl eq_refl)) as [id [Eid _]].
    unfold CareerDiscoverPage.session_user_id in Eid.
    destruct session as [id' | ]; [ | discriminate ].
    destruct (String.eqb_spec id' "") as [E | N]; [ discriminate | ].
    exists id'. now split.
  - intros q Hq. apply Hall.
    change (Z.of_nat (List.length CareerDiscoverPage.questions)) with 10.
    simpl in Hq.
    repeat (destruct Hq as [<- | Hq]; [ simpl; lia | ]). destruct Hq.
Qed.

Lemma discover_results_witness :
  exists st,
    CareerDiscoverPage.ui_run (Some "user-1") CareerDiscoverPage.initialState
      (CareerDiscoverPage.full_discovery
         (FetchResponse true (Some (JS.JObj [("career_matches", JS.JArr [])]))))
    = Some st
    /\ CareerDiscoverPage.showResults st = true
    /\ CareerDiscoverPage.isLoading st = false.
Proof.
  eexists. split; [ vm_compute; reflexivity | ]. split; [ reflexivity | ].
  apply (discover_results_need_sign_in_and_all_answers (Some "user-1")
           (CareerDiscoverPage.full_discovery
              (FetchResponse true (Some (JS.JObj [("career_matches", JS.JArr [])]))))).
  vm_compute. reflexivity.
Defined.

(** X29: every request the career discovery page sends to the backend
    carries the non-empty id of the signed-in user and the ten questions in
    their order, each once, with the Likert value chosen for it; without a
    signed-in user no request is sent at all. *)
Theorem discover_requests_are_complete (session : option string)
  (evs : list CareerDiscoverPage.UIEvent) (st : CareerDiscoverPage.State) :
  CareerDiscoverPage.ui_run session CareerDiscoverPage.initialState evs = Some st ->
  (forall r, In r (CareerDiscoverPage.requests st) ->
     exists id, session = Some id /\ id <> ""
       /\ CareerDiscoverPage.complete_request id r)
  /\ (CareerDiscoverPage.session_user_id session = None ->
      CareerDiscoverPage.requests st = []).
Proof.
  intro Hrun.
  destruct (discover_Inv_run session evs _ _ (discover_Inv_initial session) Hrun)
    as [_ [_ [_ [_ [_ [_ Hreq]]]]]].
  split.
  - intros r Hr. destruct (Hreq r Hr) as [id [Eid Hc]].
    unfold CareerDiscoverPage.session_user_id in Eid.
    destruct session as [id' | ]; [ | discriminate ].
    destruct (String.eqb_spec id' "") as [E | N]; [ discriminate | ].
    injection Eid as <-. exists id'.
    split; [ reflexivity | split; [ exact N | exact Hc ] ].
  - intro Hnone. destruct (CareerDiscoverPage.requests st) as [ | r rest];
      [ reflexivity | ].
    destruct (Hreq r (or_introl eq_refl)) as [id [Eid _]]. congruence.
Qed.

Lemma discover_requests_witness :
  exists st,
    CareerDiscoverPage.ui_run None CareerDiscoverPage.initialState
      (CareerDiscoverPage.full_discovery FetchRejects)
    = Some st
    /\ CareerDiscoverPage.alerts st = ["Please sign in to get your career matches"]
    /\ CareerDiscoverPage.requests st = [].
Proof.
  eexists. split; [ vm_compute; reflexivity | ]. split; [ reflexivity | ].
  apply (discover_requests_are_complete None
           (CareerDiscoverPage.full_discovery FetchRejects)).
  - vm_compute. reflexivity.
  - reflexivity.
Defined.

Example discover_request_of_full_discovery :
  option_map CareerDiscoverPage.requests
    (CareerDiscoverPage.ui_run (Some "user-1") CareerDiscoverPage.initialState
       (CareerDiscoverPage.full_discovery (FetchResponse false None)))
  = Some
      [ CareerDiscoverPage.mkRequest "user-1"
          (map (fun e => CareerDiscoverPage.mkAnswer
                           (CareerDiscoverPage.parseInt (fst e))
                           (CareerDiscoverPage.parseInt (snd e)))
             [ ("1", "4"); ("2", "2"); ("3", "5"); ("4", "3"); ("5", "1");
               ("6", "4"); ("7", "4"); ("8", "2"); ("9", "5"); ("10", "3") ]) ].
Proof. vm_compute. reflexivity. Qed.

(* ------------------------------------------------------------------ *)
(** ** The navigation bar *)
(* ------------------------------------------------------------------ *)

Lemma startsWith_app (path rest : string) :
  Navbar.startsWith (path ++ rest) path = true.
Proof.
  induction path as [ | c path IH]; simpl; [ reflexivity | ].
  now rewrite Ascii.eqb_refl, IH.
Qed.

Lemma startsWith_inv (s path : string) :
  Navbar.startsWith s path = true -> exists rest, s = path ++ rest.
Proof.
  revert s. induction path as [ | c path IH]; intros s H; simpl in *.
  - now exists s.
  - destruct s as [ | d s]; [ discriminate | ].
    apply andb_true_iff in H. destruct H as [Hd Hs].
    apply Ascii.eqb_eq in Hd. subst d.
    destruct (IH s Hs) as [rest ->]. now exists rest.
Qed.

(** X30: on no page does the navigation bar show two links as active;
    the home link is active on "/" only, and each of the other links on
    every page whose path starts with its own, and on no other page. *)
Theorem navbar_shows_at_most_one_active_link (pathname : string) :
  (List.length (Navbar.active_links pathname) <= 1)%nat
  /\ (Navbar.isActive pathname "/" = true <-> pathname = "/")
  /\ (forall path, In path Navbar.links -> path <> "/" ->
      (Navbar.isActive pathname path = true <-> exists rest, pathname = path ++ rest)).
Proof.
  split; [ | split ].
  - unfold Navbar.active_links, Navbar.links, Navbar.isActive.
    destruct pathname as [ | c1 [ | c2 s]]; [ cbn; lia | | ].
    + cbn. destruct (Ascii.eqb c1 "/"); cbn; lia.
    + cbn.
      destruct (Ascii.eqb_spec c1 "/") as [-> | N1]; cbn; [ | lia ].
      destruct (Ascii.eqb_spec c2 "l") as [-> | Nl]; cbn.
      * match goal with |- context [if ?b then _ else _] => destruct b end; cbn; lia.
      * destruct (Ascii.eqb_spec c2 "c") as [-> | Nc]; cbn.
        -- match goal with |- context [if ?b then _ else _] => destruct b end; cbn; lia.
        -- destruct (Ascii.eqb_spec c2 "d") as [-> | Nd]; cbn; [ | lia ].
           match goal with |- context [if ?b then _ else _] => destruct b end; cbn; lia.
  - unfold Navbar.isActive. simpl. apply String.eqb_eq.
  - intros path Hin Hne. unfold Navbar.isActive.
    destruct (String.eqb_spec path "/") as [E | _]; [ contradiction | ].
    split; [ apply startsWith_inv | ].
    intros [rest ->]. apply startsWith_app.
Qed.
